(** * red-queen: the benchmark Runner (src/red_queen/runner.py)

    A shallow embedding of the [Runner] class: the depth analysis taken over
    from QASMBench, the per-repetition measurement protocol, the statistics
    and the result store, followed by the properties proved about them.

    Conventions of the embedding.
    - Python dictionaries with string keys are [gmap string _]; the one
      dictionary whose insertion order is observable ([qubit_depth], whose
      first maximal key is returned) is an association list.
    - Python floats are IEEE 754 binary64 numbers, Rocq's primitive floats:
      every operation rounds as the program's does.  A Python string is the
      string of its characters.
    - runner.py calls libraries that are not among the sources (the quantum
      toolkits, numpy).  Where such a call can raise, the exception it raises,
      if any, is an argument; the numbers numpy's reductions return are a
      parameter ([Numpy]) of which nothing is assumed.
    - A raised exception is the [Raise] case of [result]; nothing in
      runner.py catches exceptions, so a [Raise] ends the program.
    - What the program obtains from outside (clock readings, memory
      readings, the serialized output of the compiler, the contents of the
      results directory) is an argument of the function that reads it. *)

From Stdlib Require Import QArith Floats Lia.
From stdpp Require Import base option list strings gmap pretty.

#[local] Set Warnings "-register-all,-inexact-float".
#[local] Open Scope Z_scope.

(** ** Exceptions *)

Inductive exn : Type :=
  | KeyError
  | IndexError
  | ValueError
  | TypeError
  | AttributeError
  | UnboundLocalError
  | FileNotFoundError
  | JSONDecodeError
  | UnicodeDecodeError
  | OverflowError
  | LibraryError (name : string).   (* an exception class of a library *)

Inductive result (A : Type) : Type :=
  | Ok (a : A)
  | Raise (e : exn).
Arguments Ok {A} a.
Arguments Raise {A} e.

#[global] Instance result_ret : MRet result := @Ok.

#[global] Instance result_bind : MBind result := λ A B k r,
  match r with
  | Ok a => k a
  | Raise e => Raise e
  end.

Definition from_option {A : Type} (e : exn) (o : option A) : result A :=
  match o with
  | Some a => Ok a
  | None => Raise e
  end.

(** ** Insertion-ordered dictionaries

    [qubit_depth] is a Python [dict]: assigning to a new key appends the key,
    assigning to an existing key updates it in place. *)

Section odict.
Context {K V : Type} `{EqDecision K}.

Fixpoint odict_get (d : list (K * V)) (k : K) : option V :=
  match d with
  | [] => None
  | (k', v) :: d' => if decide (k' = k) then Some v else odict_get d' k
  end.

Fixpoint odict_set (d : list (K * V)) (k : K) (v : V) : list (K * V) :=
  match d with
  | [] => [(k, v)]
  | (k', v') :: d' =>
      if decide (k' = k) then (k, v) :: d' else (k', v') :: odict_set d' k v
  end.

Definition odict_values (d : list (K * V)) : list V := snd <$> d.
End odict.

(** ** The preprocessed program

    Modelled from the spec: the [Preprocess] class (module [preprocessing]) is
    not among the sources.  runner.py uses four of its attributes: the list
    [processed_qasm] of operation lines, the accessors [get_op] and
    [get_qubit_id] of a line, and the gate table.  They are the fields of
    this record; a line is any type [gate] (the loop variable of
    [get_qubit_depths]), a qubit id is a natural number. *)

Record Preprocess (gate : Type) : Type := {
  processed_qasm : list gate;
  get_op : gate → string;
  get_qubit_id : gate → list nat;
  GATE_TABLE : gset string;
}.
Arguments processed_qasm {gate} _.
Arguments get_op {gate} _ _.
Arguments get_qubit_id {gate} _ _.
Arguments GATE_TABLE {gate} _.

(** ** Depth analysis *)

(** The two statements of the inner loop of [get_qubit_depths]:
    [if qubit not in qubit_depth: qubit_depth[qubit] = 0] and
    [qubit_depth[qubit] += 1]. *)
Definition count_qubit (qubit_depth : list (nat * Z)) (qubit : nat) : list (nat * Z) :=
  let qubit_depth :=
    match odict_get qubit_depth qubit with
    | None => odict_set qubit_depth qubit 0
    | Some _ => qubit_depth
    end in
  match odict_get qubit_depth qubit with
  | Some n => odict_set qubit_depth qubit (n + 1)
  | None => qubit_depth
  end.

Definition not_counted (op : string) : string :=
  op +:+ " not counted towards evaluation. Not a valid from default gate tables".

(** [get_qubit_depths]: the state of the loop over [processed_qasm] is the
    dictionary together with the lines printed so far. *)
Definition get_qubit_depths_step {gate} (benchmark : Preprocess gate)
    (st : list (nat * Z) * list string) (g : gate) : list (nat * Z) * list string :=
  let op := get_op benchmark g in
  if decide (op ∈ GATE_TABLE benchmark)
  then (foldl count_qubit st.1 (get_qubit_id benchmark g), st.2)
  else (st.1, st.2 ++ [not_counted op]).

Definition get_qubit_depths {gate} (benchmark : Preprocess gate)
    : list (nat * Z) * list string :=
  foldl (get_qubit_depths_step benchmark) ([], []) (processed_qasm benchmark).

(** Python's [max] of a sequence of integers. *)
Definition py_max (l : list Z) : result Z :=
  match l with
  | [] => Raise ValueError
  | x :: l' => Ok (foldl Z.max x l')
  end.

(** [get_maximum_qubit_depth]: the first key holding the maximum and the
    maximum; the second component of the pair is what was printed. *)
Definition get_maximum_qubit_depth {gate} (benchmark : Preprocess gate)
    : result (nat * Z) * list string :=
  let '(qubit_depths, out) := get_qubit_depths benchmark in
  (max_value ← py_max (odict_values qubit_depths);
   max_keys ← from_option IndexError
     (head (fst <$> filter (λ kv, kv.2 = max_value) qubit_depths));
   Ok (max_keys, max_value),
   out).

(** [get_circuit_depth] calls [get_qubit_depths] for nothing but its output,
    then [get_maximum_qubit_depth], which walks the program again. *)
Definition get_circuit_depth {gate} (benchmark : Preprocess gate)
    : result Z * list string :=
  let '(_, out1) := get_qubit_depths benchmark in
  let '(r, out2) := get_maximum_qubit_depth benchmark in
  (p ← r; Ok p.2, out1 ++ out2).

(** The example program of the specification, [h q0; cx q0,q1; x q1], with a
    gate table made of [h], [cx] and [x]. *)
Definition example_program (lines : list (string * list nat))
    : Preprocess (string * list nat) :=
  {| processed_qasm := lines;
     get_op := fst;
     get_qubit_id := snd;
     GATE_TABLE := {["h"; "cx"; "x"]} |}.

Definition example_lines : list (string * list nat) :=
  [("h", [0%nat]); ("cx", [0%nat; 1%nat]); ("x", [1%nat])].

(** The depth proxy in the words of the specification: the counter of a
    qubit is the number of times it is touched by the operations whose name
    is in the gate table, and the depth is the largest counter. *)
Definition counted_operands {gate} (benchmark : Preprocess gate) : list nat :=
  g ← filter (λ g, get_op benchmark g ∈ GATE_TABLE benchmark)
             (processed_qasm benchmark);
  get_qubit_id benchmark g.

Definition spec_counter {gate} (benchmark : Preprocess gate) (qubit : nat) : Z :=
  Z.of_nat (length (filter (λ q, q = qubit) (counted_operands benchmark))).

Definition spec_depth {gate} (benchmark : Preprocess gate) : result Z :=
  match counted_operands benchmark with
  | [] => Raise ValueError
  | q :: qs => Ok (foldr Z.max 0 (spec_counter benchmark <$> (q :: qs)))
  end.


(** ** Python values

    What [metric_data] holds and what is written to a result file. *)

Inductive value : Type :=
  | VInt (z : Z)
  | VFloat (x : float)
  | VStr (s : string)
  | VList (l : list value)
  | VTuple (l : list value)
  | VDict (d : gmap string value).

(** [d[k]] *)
Definition getitem (d : gmap string value) (k : string) : result value :=
  from_option KeyError (d !! k).

Definition as_dict (v : value) : result (gmap string value) :=
  match v with
  | VDict d => Ok d
  | _ => Raise TypeError
  end.

Definition as_list (v : value) : result (list value) :=
  match v with
  | VList l => Ok l
  | _ => Raise AttributeError
  end.

(** [float(z)] for an integer: the nearest double, ties to even, and
    [OverflowError] when there is none. *)
Definition float_of_int (z : Z) : result float :=
  let x := SF2Prim (binary_normalize prec emax z 0 false) in
  if is_infinity x then Raise OverflowError else Ok x.

(** A number used in float arithmetic or converted by [dtype=float]. *)
Definition as_float (v : value) : result float :=
  match v with
  | VInt z => float_of_int z
  | VFloat x => Ok x
  | _ => Raise TypeError
  end.

(** [s[-1]] for a string *)
Fixpoint last_char (s : string) : option string :=
  match s with
  | EmptyString => None
  | String c EmptyString => Some (String c EmptyString)
  | String _ s' => last_char s'
  end.

(** [v[-1]] *)
Definition last_item (v : value) : result value :=
  match v with
  | VList l | VTuple l => from_option IndexError (last l)
  | VStr s => from_option IndexError (VStr <$> last_char s)
  | VDict _ => Raise KeyError
  | VInt _ | VFloat _ => Raise TypeError
  end.

(** [v == s] for a string literal [s] *)
Definition eq_str (v : value) (s : string) : bool :=
  match v with
  | VStr s' => bool_decide (s' = s)
  | _ => false
  end.

(** [metric_data[name][metric].append(x)] *)
Definition append_sample (metric_data : gmap string value)
    (name metric : string) (x : value) : result (gmap string value) :=
  entry ← getitem metric_data name;
  entry ← as_dict entry;
  sample ← getitem entry metric;
  sample ← as_list sample;
  Ok (<[name := VDict (<[metric := VList (sample ++ [x])]> entry)]> metric_data).

(** [metric_data[name][metric]] read as a list, as [.append] needs it *)
Definition get_sample (metric_data : gmap string value)
    (name metric : string) : result (list value) :=
  entry ← getitem metric_data name;
  entry ← as_dict entry;
  sample ← getitem entry metric;
  as_list sample.

(** [metric_data[name][metric][-1]] *)
Definition last_sample (metric_data : gmap string value)
    (name metric : string) : result value :=
  entry ← getitem metric_data name;
  entry ← as_dict entry;
  sample ← getitem entry metric;
  last_item sample.

(** What [json.load] returns for the text [json.dump] writes: a tuple comes
    back as a list. *)
Fixpoint json_roundtrip (v : value) : value :=
  match v with
  | VList l => VList (json_roundtrip <$> l)
  | VTuple l => VList (json_roundtrip <$> l)
  | VDict d => VDict (json_roundtrip <$> d)
  | _ => v
  end.

(** ** numpy

    numpy is not among the sources.  What the runner depends on is kept: the
    reductions [np.mean], [np.median], [np.var] and [np.std] return a float
    for every array of floats, the empty one included, and [np.min] and
    [np.max] raise [ValueError] on the empty array.  The floats returned are
    numpy's business: they are the fields of [Numpy], and so is the
    conversion of a sample that is not a sequence of numbers. *)

Record Numpy : Type := {
  np_mean : list float → float;
  np_median : list float → float;
  np_var : list float → float;
  np_std : list float → float;
  np_min_of : float → list float → float;   (* [np.min] of a non-empty array *)
  np_max_of : float → list float → float;   (* [np.max] of a non-empty array *)
  np_array_of : value → result (list float);
}.

Definition np_min (numpy : Numpy) (a : list float) : result float :=
  match a with
  | [] => Raise ValueError
  | x :: a' => Ok (np_min_of numpy x a')
  end.

Definition np_max (numpy : Numpy) (a : list float) : result float :=
  match a with
  | [] => Raise ValueError
  | x :: a' => Ok (np_max_of numpy x a')
  end.

Definition is_number (v : value) : bool :=
  match v with
  | VInt _ | VFloat _ => true
  | _ => false
  end.

(** [np.array(sample, dtype=float)]: a sequence of numbers is converted
    element by element. *)
Definition np_array (numpy : Numpy) (sample : value) : result (list float) :=
  match sample with
  | VList l | VTuple l =>
      if forallb is_number l then mapM as_float l else np_array_of numpy sample
  | _ => np_array_of numpy sample
  end.

(** ** The world outside the Runner

    The results directory and the lines printed by runner.py itself.  The
    progress visualizer is a separate collaborator: the methods of the Runner
    are first given without their reports to it, which neither read nor
    change what is modelled here; the visualizer and the methods with their
    reports follow in [Reported].

    The results directory is named once through the module's directory and
    once relative to the working directory; the program is launched from its
    own directory, so both name the same directory.  [list_files] counts
    regular files only; the directory is taken to hold nothing else, and its
    files to be readable and writable. *)

Inductive file : Type :=
  | JsonFile (data : value)   (* a file [json.load] reads as [data] *)
  | OtherFile                 (* any other file of UTF-8 text *)
  | BinaryFile.               (* a file that is not UTF-8 text *)

Record World : Type := {
  results_dir : option (gmap string file);   (* [None]: no such directory *)
  stdout : list string;
}.

Definition M (A : Type) : Type := World → result A * World.

#[global] Instance M_ret : MRet M := λ A a w, (Ok a, w).

#[global] Instance M_bind : MBind M := λ A B k c w,
  match c w with
  | (Ok a, w') => k a w'
  | (Raise e, w') => (Raise e, w')
  end.

Definition lift {A : Type} (r : result A) : M A := λ w, (r, w).

Definition print (lines : list string) : M () := λ w,
  (Ok (), {| results_dir := results_dir w; stdout := stdout w ++ lines |}).

Definition set_results (d : gmap string file) : M () := λ w,
  (Ok (), {| results_dir := Some d; stdout := stdout w |}).

(** [os.makedirs] when the directory is missing, then its files. *)
Definition ensure_results : M (gmap string file) := λ w,
  match results_dir w with
  | Some d => (Ok d, w)
  | None => (Ok ∅, {| results_dir := Some ∅; stdout := stdout w |})
  end.

(** ** The Runner *)

Record Runner : Type := {
  compiler_dict : gmap string value;
  backend : string;
  num_runs : Z;
  full_benchmark_list : list string;
  metric_data : gmap string value;
  metric_list : list string;
  second_compiler_readout : string;
}.

Definition with_metric_data (self : Runner) (md : gmap string value) : Runner :=
  {| compiler_dict := compiler_dict self;
     backend := backend self;
     num_runs := num_runs self;
     full_benchmark_list := full_benchmark_list self;
     metric_data := md;
     metric_list := metric_list self;
     second_compiler_readout := second_compiler_readout self |}.

(** A call into a library raises or returns. *)
Definition library (raises : option exn) : result () :=
  match raises with
  | Some e => Raise e
  | None => Ok ()
  end.

(** The library calls of one turn of the loop of [preprocess_benchmarks]:
    reading the file, and parsing it. *)
Inductive load_call : Type := ReadFile | ParseFile.

(** One file of the benchmark directory as [preprocess_benchmarks] sees it:
    its name, the two clock readings around the parse, and the exception
    each library call raises, if any. *)
Record Loaded : Type := {
  file_name : string;
  load_start : float;
  load_end : float;
  load_raises : load_call → option exn;
}.

(** The library calls of [run_benchmark], in the order of the source:
    the device and the compilation in the worker process, the device of
    line 309, the timed compilation (pass manager included), the
    serialization of its output and the preprocessing of the text. *)
Inductive call : Type :=
  | InWorkerDevice | InWorkerCompile | MakeDevice | TimedCompile
  | Serialize | MakePreprocess.

(** What one call of [run_benchmark] reads from outside: the memory
    readings of the worker process, the clock readings around the timed
    compilation, the preprocessed serialization of its output, and the
    exception each library call raises, if any. *)
Record Measurement (gate : Type) : Type := {
  start_mem : float;
  end_mem : float;
  start_time : float;
  end_time : float;
  processed : Preprocess gate;
  raises : call → option exn;
}.
Arguments start_mem {gate} _.
Arguments end_mem {gate} _.
Arguments start_time {gate} _.
Arguments end_time {gate} _.
Arguments processed {gate} _.
Arguments raises {gate} _ _.

Definition new_entry (build_time : float) : value :=
  VDict (<["total_time (seconds)" := VList []]>
        (<["parsing/build_time (seconds)" := VList [VFloat build_time]]>
        (<["transpile_time (seconds)" := VList []]>
        (<["depth (gates)" := VList []]>
        (<["memory_footprint (MiB)" := VList []]> ∅))))).

(** The body of the loop of [preprocess_benchmarks]. *)
Definition preprocess_benchmark (self : Runner) (b : Loaded) : M Runner :=
  if bool_decide (file_name b = ".DS_Store") then mret self
  else
    lift (library (load_raises b ReadFile));;
    print ["Converting " +:+ file_name b +:+ " to high-level circuit..."];;
    compiler ← lift (getitem (compiler_dict self) "compiler");
    (if eq_str compiler "pytket" then lift (library (load_raises b ParseFile))
     else
       compiler ← lift (getitem (compiler_dict self) "compiler");
       if eq_str compiler "qiskit" then lift (library (load_raises b ParseFile))
       else lift (Raise UnboundLocalError));;
    mret {| compiler_dict := compiler_dict self;
            backend := backend self;
            num_runs := num_runs self;
            full_benchmark_list := full_benchmark_list self ++ [file_name b];
            metric_data :=
              <[file_name b := new_entry (load_end b - load_start b)%float]>
                (metric_data self);
            metric_list := metric_list self;
            second_compiler_readout := second_compiler_readout self |}.

Fixpoint for_each {A S : Type} (body : S → A → M S) (l : list A) (s : S) : M S :=
  match l with
  | [] => mret s
  | x :: l' => s' ← body s x; for_each body l' s'
  end.

Definition preprocess_benchmarks (self : Runner) (benchmarks : list Loaded)
    : M Runner :=
  for_each preprocess_benchmark benchmarks
    {| compiler_dict := compiler_dict self;
       backend := backend self;
       num_runs := num_runs self;
       full_benchmark_list := [];
       metric_data := metric_data self;
       metric_list := metric_list self;
       second_compiler_readout := second_compiler_readout self |}.

(** [Runner.__init__]; [benchmarks] is the listing of the benchmark
    directory. *)
Definition Runner_init (compiler_dict : gmap string value) (backend : string)
    (num_runs : Z) (second_compiler_readout : string)
    (benchmarks : list Loaded) : M Runner :=
  preprocess_benchmarks
    {| compiler_dict := compiler_dict;
       backend := backend;
       num_runs := num_runs;
       full_benchmark_list := [];
       metric_data :=
         <["metadata: " := VDict compiler_dict]>
           (<["backend" := VStr backend]> ∅);
       metric_list :=
         ["total_time (seconds)"; "parsing/build_time (seconds)";
          "transpile_time (seconds)"; "depth (gates)";
          "memory_footprint (MiB)"];
       second_compiler_readout := second_compiler_readout |}
    benchmarks.

(** [transpile_in_process], run in the worker process: the device is made,
    then both branches on the compiler name compile the circuit; the result
    is the memory difference. *)
Definition transpile_in_process {gate} (self : Runner) (m : Measurement gate)
    : result float :=
  library (raises m InWorkerDevice);;
  _ ← getitem (compiler_dict self) "compiler";
  library (raises m InWorkerCompile);;
  Ok (end_mem m - start_mem m)%float.

Definition profile_func {gate} (self : Runner) (m : Measurement gate)
    : result float :=
  _ ← getitem (compiler_dict self) "optimization_level";
  transpile_in_process self m.

(** [run_benchmark] is written in three parts, each under its own banner
    in the source; they are kept apart here. *)

(** MEMORY FOOTPRINT, down to the device made on line 309 *)
Definition memory_pass {gate} (self : Runner) (benchmark_name : string)
    (m : Measurement gate) : result (gmap string value) :=
  memory ← profile_func self m;
  md ← append_sample (metric_data self) benchmark_name
         "memory_footprint (MiB)" (VFloat memory);
  library (raises m MakeDevice);;
  Ok md.

(** TRANSPILATION TIME: the compilation is timed, the time is appended to
    [transpile_time], and
    [end_time - start_time + +build_time[-1] + transpile_time[-1]] is
    appended to [total_time]; the list appended to is looked up before the
    sum is evaluated. *)
Definition timing_pass {gate} (self : Runner) (md : gmap string value)
    (benchmark_name : string) (m : Measurement gate)
    : result (gmap string value) :=
  _ ← getitem (compiler_dict self) "compiler";
  _ ← getitem (compiler_dict self) "optimization_level";
  library (raises m TimedCompile);;
  md ← append_sample md benchmark_name "transpile_time (seconds)"
         (VFloat (end_time m - start_time m));
  _ ← get_sample md benchmark_name "total_time (seconds)";
  build ← last_sample md benchmark_name "parsing/build_time (seconds)";
  build ← as_float build;
  transpile ← last_sample md benchmark_name "transpile_time (seconds)";
  transpile ← as_float transpile;
  append_sample md benchmark_name "total_time (seconds)"
    (VFloat (end_time m - start_time m + build + transpile)).

(** DEPTH *)
Definition depth_pass {gate} (self : Runner) (md : gmap string value)
    (benchmark_name : string) (m : Measurement gate)
    : M (gmap string value) :=
  _ ← lift (getitem (compiler_dict self) "compiler");
  lift (library (raises m Serialize));;
  lift (library (raises m MakePreprocess));;
  print (get_circuit_depth (processed m)).2;;
  depth ← lift (get_circuit_depth (processed m)).1;
  lift (append_sample md benchmark_name "depth (gates)" (VInt depth)).

Definition run_benchmark {gate} (self : Runner) (benchmark_name : string)
    (m : Measurement gate) : M Runner :=
  md ← lift (memory_pass self benchmark_name m);
  md ← lift (timing_pass self md benchmark_name m);
  md ← depth_pass self md benchmark_name m;
  mret (with_metric_data self md).

(** The statistics of one metric, as stored under
    [metric_data[name]["aggregate"][metric]]. *)
Definition aggregate_of (numpy : Numpy) (a : list float) : result value :=
  let mean := np_mean numpy a in
  let median := np_median numpy a in
  lo ← np_min numpy a;
  hi ← np_max numpy a;
  Ok (VDict (<["mean" := VFloat mean]>
            (<["median" := VFloat median]>
            (<["range" := VTuple [VFloat lo; VFloat hi]]>
            (<["variance" := VFloat (np_var numpy a)]>
            (<["standard_deviation" := VFloat (np_std numpy a)]> ∅)))))).

Definition aggregate_step (numpy : Numpy) (benchmark_name : string)
    (md : gmap string value) (metric : string) : result (gmap string value) :=
  entry ← getitem md benchmark_name;
  entry ← as_dict entry;
  aggregate ← getitem entry "aggregate";
  aggregate ← as_dict aggregate;
  sample ← getitem (<["aggregate" := VDict (<[metric := VDict ∅]> aggregate)]> entry)
             metric;
  a ← np_array numpy sample;
  stats ← aggregate_of numpy a;
  Ok (<[benchmark_name :=
          VDict (<["aggregate" := VDict (<[metric := stats]> aggregate)]> entry)]> md).

Fixpoint fold_result {A S : Type} (body : S → A → result S) (l : list A) (s : S)
    : result S :=
  match l with
  | [] => Ok s
  | x :: l' => s' ← body s x; fold_result body l' s'
  end.

(** [calculate_aggregate_statistics] *)
Definition calculate_aggregate_statistics (numpy : Numpy) (self : Runner)
    (benchmark_name : string) : result Runner :=
  entry ← getitem (metric_data self) benchmark_name;
  entry ← as_dict entry;
  let md := <[benchmark_name := VDict (<["aggregate" := VDict ∅]> entry)]>
              (metric_data self) in
  md ← fold_result (aggregate_step numpy benchmark_name) (metric_list self) md;
  Ok (with_metric_data self md).

(** The repetitions of one benchmark followed by its statistics: the body
    of the outer loop of [run_benchmarks].  [env run_num] is what repetition
    [run_num] measures. *)
Definition run_case {gate} (numpy : Numpy) (env : nat → Measurement gate)
    (self : Runner) (benchmark_name : string) : M Runner :=
  self ← for_each (λ self run_num, run_benchmark self benchmark_name (env run_num))
           (seq 0 (Z.to_nat (num_runs self))) self;
  lift (calculate_aggregate_statistics numpy self benchmark_name).

Definition results_path (run_number : nat) : string :=
  "results_run" +:+ pretty run_number +:+ ".json".

(** [save_results] *)
Definition save_results (self : Runner) : M () :=
  d ← ensure_results;
  (* delete_ds_store *)
  let d := delete ".DS_Store" d in
  set_results d;;
  let run_number := (size d + 1)%nat in
  if bool_decide (second_compiler_readout self = "true") then
    let path := results_path (run_number - 1) in
    match d !! path with
    | None => lift (Raise FileNotFoundError)
    | Some BinaryFile => lift (Raise UnicodeDecodeError)
    | Some OtherFile => lift (Raise JSONDecodeError)
    | Some (JsonFile data) =>
        data ← lift (as_list data);
        set_results
          (<[path := JsonFile
                       (json_roundtrip (VList (data ++ [VDict (metric_data self)])))]> d)
    end
  else
    set_results
      (<[results_path run_number :=
           JsonFile (json_roundtrip (VList [VDict (metric_data self)]))]> d).

(** [run_benchmarks]; [env name run_num] is what repetition [run_num] of
    benchmark [name] measures. *)
Definition run_benchmarks {gate} (numpy : Numpy)
    (env : string → nat → Measurement gate) (self : Runner) : M Runner :=
  self ← for_each (λ self name, run_case numpy (env name) self name)
           (full_benchmark_list self) self;
  save_results self;;
  mret self.


(** ** The progress visualizer (src/red_queen/progress_visualizer.py)

    The runner reports its progress to a [ProgressVisualizer].  What the
    visualizer prints is left out, and so are the clock readings it formats;
    what is kept is its state and the exceptions its methods can raise, which
    runner.py lets through. *)

(** An exception of the runner's own calls, or the division by zero of the
    visualizer. *)
Inductive raised : Type :=
  | Exn (e : exn)
  | ZeroDivisionError.

Inductive outcome (A : Type) : Type :=
  | Done (a : A)
  | Raised (r : raised).
Arguments Done {A} a.
Arguments Raised {A} r.

Definition Top (A : Type) : Type := World → outcome A * World.

#[global] Instance Top_ret : MRet Top := λ A a w, (Done a, w).

#[global] Instance Top_bind : MBind Top := λ A B k c w,
  match c w with
  | (Done a, w') => k a w'
  | (Raised r, w') => (Raised r, w')
  end.

Definition of_result {A : Type} (r : result A) : Top A := λ w,
  match r with
  | Ok a => (Done a, w)
  | Raise e => (Raised (Exn e), w)
  end.

Definition of_M {A : Type} (c : M A) : Top A := λ w,
  match c w with
  | (Ok a, w') => (Done a, w')
  | (Raise e, w') => (Raised (Exn e), w')
  end.

Definition raise {A : Type} (r : raised) : Top A := λ w, (Raised r, w).

Module ProgressVisualizer.

Record t : Type := {
  total_benchmarks : Z;
  num_runs : Z;
  total_operations : Z;
  current_operation : Z;
  compiler_info : gmap string value;
  current_benchmark : option string;
  current_run : Z;
  benchmark_results : gmap string value;
}.

(** [ProgressVisualizer.__init__] *)
Definition init (total_benchmarks num_runs : Z)
    (compiler_info : gmap string value) : t :=
  {| total_benchmarks := total_benchmarks;
     num_runs := num_runs;
     total_operations := total_benchmarks * num_runs;
     current_operation := 0;
     compiler_info := compiler_info;
     current_benchmark := None;
     current_run := 0;
     benchmark_results := ∅ |}.

(** [print_header] reads three keys of the compiler description. *)
Definition print_header (self : t) : result () :=
  _ ← getitem (compiler_info self) "compiler";
  _ ← getitem (compiler_info self) "version";
  _ ← getitem (compiler_info self) "optimization_level";
  Ok ().

Definition start_benchmarking (self : t) : result t :=
  print_header self;; Ok self.

Definition start_benchmark (self : t) (benchmark_name : string) : t :=
  {| total_benchmarks := total_benchmarks self;
     num_runs := num_runs self;
     total_operations := total_operations self;
     current_operation := current_operation self;
     compiler_info := compiler_info self;
     current_benchmark := Some benchmark_name;
     current_run := 0;
     benchmark_results := benchmark_results self |}.

Definition start_run (self : t) (run_number : Z) : t :=
  {| total_benchmarks := total_benchmarks self;
     num_runs := num_runs self;
     total_operations := total_operations self;
     current_operation := current_operation self + 1;
     compiler_info := compiler_info self;
     current_benchmark := current_benchmark self;
     current_run := run_number;
     benchmark_results := benchmark_results self |}.

(** [update_progress] divides [current_operation] by [total_operations]. *)
Definition update_progress (self : t) : Top () :=
  if decide (total_operations self = 0) then raise ZeroDivisionError
  else mret ().

(** The value a format specification [.3f] is applied to must be a
    number. *)
Definition format_float (v : value) : result () :=
  match v with
  | VInt _ | VFloat _ => Ok ()
  | VStr _ => Raise ValueError
  | _ => Raise TypeError
  end.

(** [k in v] for a string [k]: a key of a dictionary, an element of a
    sequence, a part of a string. *)
Definition contains (v : value) (k : string) : result bool :=
  match v with
  | VDict d => Ok (bool_decide (is_Some (d !! k)))
  | VList l | VTuple l => Ok (existsb (λ x, eq_str x k) l)
  | VStr s => Ok (bool_decide (is_Some (String.index 0 k s)))
  | VInt _ | VFloat _ => Raise TypeError
  end.

(** [v[k]] for a string [k] *)
Definition subscript (v : value) (k : string) : result value :=
  match v with
  | VDict d => getitem d k
  | _ => Raise TypeError
  end.

(** [results['aggregate']['total_time (seconds)']['mean']], read when
    ['aggregate' in results] and
    ['total_time (seconds)' in results['aggregate']]. *)
Definition average_time (results : value) : result (option value) :=
  contains results "aggregate" ≫= λ has_aggregate : bool,
  if has_aggregate then
    agg ← subscript results "aggregate";
    contains agg "total_time (seconds)" ≫= λ has_total : bool,
    if has_total then
      stats ← subscript agg "total_time (seconds)";
      avg_time ← subscript stats "mean";
      Ok (Some avg_time)
    else Ok None
  else Ok None.

Definition complete_benchmark (self : t) (benchmark_name : string)
    (results : value) : result t :=
  avg_time ← average_time results;
  match avg_time with Some v => format_float v | None => Ok () end;;
  Ok {| total_benchmarks := total_benchmarks self;
        num_runs := num_runs self;
        total_operations := total_operations self;
        current_operation := current_operation self;
        compiler_info := compiler_info self;
        current_benchmark := current_benchmark self;
        current_run := current_run self;
        benchmark_results :=
          <[benchmark_name := results]> (benchmark_results self) |}.

(** [print_summary] divides the elapsed time by [total_operations], then
    reads the average time of every benchmark it was told of.  Of these it
    formats the smallest and the largest; each of them was formatted by
    [complete_benchmark] before, and the model formats them all. *)
Definition print_summary (self : t) : Top () :=
  if decide (total_operations self = 0) then raise ZeroDivisionError
  else
    of_result
      (fold_result
         (λ (_ : ()) (results : value),
            avg_time ← average_time results;
            match avg_time with Some v => format_float v | None => Ok () end)
         (map_to_list (benchmark_results self)).*2 ()).

End ProgressVisualizer.

(** ** The Runner with its visualizer

    The methods of the Runner as they run, reports to the visualizer
    included.  The Runner's own state and the visualizer travel together. *)

Fixpoint top_for_each {A S : Type} (body : S → A → Top S) (l : list A) (s : S)
    : Top S :=
  match l with
  | [] => mret s
  | x :: l' => s' ← body s x; top_for_each body l' s'
  end.

Module Reported.

(** [Runner.__init__]: [preprocess_benchmarks] creates the visualizer with
    the number of listed files other than [.DS_Store]. *)
Definition Runner_init (compiler_dict : gmap string value) (backend : string)
    (num_runs : Z) (second_compiler_readout : string)
    (benchmarks : list Loaded) : M (Runner * ProgressVisualizer.t) :=
  self ← Runner_init compiler_dict backend num_runs second_compiler_readout
           benchmarks;
  mret (self,
        ProgressVisualizer.init
          (Z.of_nat (length (filter (λ b, b ≠ ".DS_Store")
                               (file_name <$> benchmarks))))
          num_runs compiler_dict).

(** [run_benchmark]: each of its three parts starts with a report. *)
Definition run_benchmark {gate} (pv : ProgressVisualizer.t) (self : Runner)
    (benchmark_name : string) (m : Measurement gate) : Top Runner :=
  ProgressVisualizer.update_progress pv;;
  md ← of_result (memory_pass self benchmark_name m);
  ProgressVisualizer.update_progress pv;;
  md ← of_result (timing_pass self md benchmark_name m);
  ProgressVisualizer.update_progress pv;;
  md ← of_M (depth_pass self md benchmark_name m);
  mret (with_metric_data self md).

(** The body of the outer loop of [run_benchmarks]. *)
Definition run_case {gate} (numpy : Numpy) (env : nat → Measurement gate)
    (s : Runner * ProgressVisualizer.t) (benchmark_name : string)
    : Top (Runner * ProgressVisualizer.t) :=
  let pv := ProgressVisualizer.start_benchmark s.2 benchmark_name in
  s ← top_for_each
        (λ (s : Runner * ProgressVisualizer.t) run_num,
           let pv := ProgressVisualizer.start_run s.2 (Z.of_nat run_num + 1) in
           self ← run_benchmark pv s.1 benchmark_name (env run_num);
           mret (self, pv))
        (seq 0 (Z.to_nat (num_runs s.1))) (s.1, pv);
  self ← of_result (calculate_aggregate_statistics numpy s.1 benchmark_name);
  results ← of_result (getitem (metric_data self) benchmark_name);
  pv ← of_result (ProgressVisualizer.complete_benchmark s.2 benchmark_name results);
  mret (self, pv).

(** [run_benchmarks]; [env name run_num] is what repetition [run_num] of
    benchmark [name] measures. *)
Definition run_benchmarks {gate} (numpy : Numpy)
    (env : string → nat → Measurement gate)
    (s : Runner * ProgressVisualizer.t) : Top (Runner * ProgressVisualizer.t) :=
  pv ← of_result (ProgressVisualizer.start_benchmarking s.2);
  s ← top_for_each (λ s name, run_case numpy (env name) s name)
        (full_benchmark_list s.1) (s.1, pv);
  ProgressVisualizer.print_summary s.2;;
  of_M (save_results s.1);;
  mret s.

End Reported.

(** ** The program

    The block run when runner.py is the main module: one runner per target,
    built from the command line and run.  The arguments are taken as
    converted, [optimization_level] and [num_runs] being the integers [int]
    makes of the fourth and sixth word; the fifth word is not read.
    [listing target] is the benchmark directory as the constructor of the
    runner for [target] lists it, and [env target name run_num] what a
    repetition of that runner measures. *)

Definition targets : list string := ["heavy_hex"; "all_to_all"; "linear"].

Definition command_line (compiler version : string) (optimization_level : Z)
    : gmap string value :=
  <["compiler" := VStr compiler]>
  (<["version" := VStr version]>
  (<["optimization_level" := VInt optimization_level]> ∅)).

Definition main_step {gate} (numpy : Numpy) (compiler version : string)
    (optimization_level num_runs : Z) (second : string)
    (listing : string → list Loaded)
    (env : string → string → nat → Measurement gate)
    (_ : ()) (target : string) : Top () :=
  runner ← of_M (Reported.Runner_init
                   (command_line compiler version optimization_level)
                   target num_runs second (listing target));
  Reported.run_benchmarks numpy (env target) runner;;
  mret ().

Definition main {gate} (numpy : Numpy) (compiler version : string)
    (optimization_level num_runs : Z) (second : string)
    (listing : string → list Loaded)
    (env : string → string → nat → Measurement gate) : Top () :=
  top_for_each
    (main_step numpy compiler version optimization_level num_runs second
       listing env)
    targets ().

(** ** A small concrete run

    One benchmark file, the example program as the output of every
    compilation, and clock and memory readings chosen by hand. *)

Definition example_compiler : gmap string value :=
  <["compiler" := VStr "qiskit"]>
  (<["version" := VStr "1.0"]>
  (<["optimization_level" := VInt 2]> ∅)).

(** Every library call returns. *)
Definition no_exception {A : Type} (_ : A) : option exn := None.

Definition example_corpus : list Loaded :=
  [ {| file_name := ".DS_Store"; load_start := 0; load_end := 0;
       load_raises := no_exception |};
    {| file_name := "adder.qasm"; load_start := 1; load_end := 1.5;
       load_raises := no_exception |} ].

Definition float_of_nat (n : nat) : float :=
  Nat.iter n (λ x, x + 1)%float 0%float.

Definition example_env (name : string) (run_num : nat)
    : Measurement (string * list nat) :=
  {| start_mem := 100;
     end_mem := 100 + float_of_nat run_num;
     start_time := 10;
     end_time := 10 + 0.25 * float_of_nat (S run_num);
     processed := example_program example_lines;
     raises := no_exception |}.

(** A numpy for the examples: it sums from left to right. *)
Definition example_sum (a : list float) : float := foldl add 0%float a.

Definition example_mean (a : list float) : float :=
  (example_sum a / float_of_nat (length a))%float.

Definition example_numpy : Numpy :=
  {| np_mean := example_mean;
     np_median := λ a, nth (length a / 2) a nan;
     np_var := λ a, example_mean ((λ x, (x - example_mean a) * (x - example_mean a))%float <$> a);
     np_std := λ a, sqrt (example_mean ((λ x, (x - example_mean a) * (x - example_mean a))%float <$> a));
     np_min_of := foldl (λ x y, if (y <? x)%float then y else x);
     np_max_of := foldl (λ x y, if (x <? y)%float then y else x);
     np_array_of := λ _, Raise ValueError |}.

Definition empty_world : World := {| results_dir := None; stdout := [] |}.

(** Clock readings on which the sum of doubles of [timing_pass] and the
    product form of the same total round differently. *)
Definition rounding_corpus : list Loaded :=
  [ {| file_name := "adder.qasm";
       load_start := 0.12204825536107644;
       load_end := 0.40968568678015327;
       load_raises := no_exception |} ].

Definition rounding_env (name : string) (run_num : nat)
    : Measurement (string * list nat) :=
  {| start_mem := 100;
     end_mem := 101;
     start_time := 0.9396302255534902;
     end_time := 3.5651675747782035;
     processed := example_program example_lines;
     raises := no_exception |}.

Definition rounding_runner (num_runs : Z) (second : string) : M Runner :=
  Runner_init example_compiler "heavy_hex" num_runs second rounding_corpus.

Definition example_runner (num_runs : Z) (second : string) : M Runner :=
  Runner_init example_compiler "heavy_hex" num_runs second example_corpus.

(** The runner [example_runner] builds. *)
Definition adder_runner (num_runs : Z) (second : string) : Runner :=
  {| compiler_dict := example_compiler;
     backend := "heavy_hex";
     num_runs := num_runs;
     full_benchmark_list := ["adder.qasm"];
     metric_data :=
       <["adder.qasm" := new_entry 0.5]>
         (<["metadata: " := VDict example_compiler]>
            (<["backend" := VStr "heavy_hex"]> ∅));
     metric_list :=
       ["total_time (seconds)"; "parsing/build_time (seconds)";
        "transpile_time (seconds)"; "depth (gates)";
        "memory_footprint (MiB)"];
     second_compiler_readout := second |}.

(** ** Notions used to state the properties *)

(** The same preprocessed program with other operation lines. *)
Definition with_lines {gate} (benchmark : Preprocess gate) (lines : list gate)
    : Preprocess gate :=
  {| processed_qasm := lines;
     get_op := get_op benchmark;
     get_qubit_id := get_qubit_id benchmark;
     GATE_TABLE := GATE_TABLE benchmark |}.

(** The same measurement with another compiled program. *)
Definition with_processed {gate} (m : Measurement gate)
    (benchmark : Preprocess gate) : Measurement gate :=
  {| start_mem := start_mem m;
     end_mem := end_mem m;
     start_time := start_time m;
     end_time := end_time m;
     processed := benchmark;
     raises := raises m |}.

(** The notices one walk over the program prints. *)
Definition notices {gate} (benchmark : Preprocess gate) : list string :=
  (λ g, not_counted (get_op benchmark g)) <$>
    filter (λ g, get_op benchmark g ∉ GATE_TABLE benchmark)
           (processed_qasm benchmark).

(** The result of [run_benchmark] and of [run_case] does not depend on the
    world: what they return, written without the output. *)
Definition run_benchmark_result {gate} (self : Runner) (benchmark_name : string)
    (m : Measurement gate) : result Runner :=
  md ← memory_pass self benchmark_name m;
  md ← timing_pass self md benchmark_name m;
  _ ← getitem (compiler_dict self) "compiler";
  library (raises m Serialize);;
  library (raises m MakePreprocess);;
  depth ← (get_circuit_depth (processed m)).1;
  md ← append_sample md benchmark_name "depth (gates)" (VInt depth);
  Ok (with_metric_data self md).

Definition repetitions_result {gate} (env : nat → Measurement gate)
    (benchmark_name : string) (runs : list nat) (self : Runner) : result Runner :=
  fold_result (λ self run_num, run_benchmark_result self benchmark_name (env run_num))
    runs self.

(** The size of a value, the measure of the inductions on values. *)
Fixpoint value_size (v : value) : nat :=
  match v with
  | VList l | VTuple l => S (sum_list (value_size <$> l))
  | VDict d => S (map_fold (λ _ v n, (value_size v + n)%nat) 0%nat d)
  | _ => 1%nat
  end.

(** The files of the results directory once [.DS_Store] is deleted; a
    missing directory is created empty. *)
Definition result_files (w : World) : gmap string file :=
  delete ".DS_Store" (default ∅ (results_dir w)).

(** [h] is the highest index among the existing result files, 0 when there
    is none. *)
Definition highest_index (d : gmap string file) (h : nat) : Prop :=
  (h = 0%nat ∨ is_Some (d !! results_path h)) ∧
  ∀ n, (h < n)%nat → d !! results_path n = None.

(** The directory holds the result files of runs 1 to [k] and nothing
    else. *)
Definition numbered (d : gmap string file) (k : nat) : Prop :=
  dom d = list_to_set (results_path <$> seq 1 k).

(** The five sample lists of one benchmark. *)
Definition has_samples (md : gmap string value) (name : string)
    (total build transpile depth memory : list value) : Prop :=
  get_sample md name "total_time (seconds)" = Ok total ∧
  get_sample md name "parsing/build_time (seconds)" = Ok build ∧
  get_sample md name "transpile_time (seconds)" = Ok transpile ∧
  get_sample md name "depth (gates)" = Ok depth ∧
  get_sample md name "memory_footprint (MiB)" = Ok memory.

(** The samples one repetition appends. *)
Definition transpile_sample {gate} (m : Measurement gate) : float :=
  (end_time m - start_time m)%float.

Definition total_sample {gate} (build : float) (m : Measurement gate) : float :=
  (end_time m - start_time m + build + (end_time m - start_time m))%float.

Definition memory_sample {gate} (m : Measurement gate) : float :=
  (end_mem m - start_mem m)%float.

(** Every library call of a repetition returns; every library call made
    for a listed file returns. *)
Definition returns {gate} (m : Measurement gate) : Prop :=
  ∀ c, raises m c = None.

Definition loads (b : Loaded) : Prop := ∀ c, load_raises b c = None.

(** The compiled program of a repetition has a depth, and one that a double
    can hold, as the statistics need it. *)
Definition has_depth {gate} (m : Measurement gate) : Prop :=
  ∃ (depth : Z) (x : float),
    (get_circuit_depth (processed m)).1 = Ok depth ∧ float_of_int depth = Ok x.

(** The exact value of a finite float. *)
Definition exact_value (x : float) : option Q :=
  match Prim2SF x with
  | S754_zero _ => Some 0%Q
  | S754_finite s m e =>
      let v := (inject_Z (Z.pos m) * (2 ^ e))%Q in
      Some (if s then (- v)%Q else v)
  | _ => None
  end.

(** The number of times a qubit occurs in a list of operands, and the
    counter a dictionary holds for a qubit (0 when it has none). *)
Definition occurrences (qubit : nat) (qs : list nat) : Z :=
  Z.of_nat (length (filter (λ q, q = qubit) qs)).

Definition counter (d : list (nat * Z)) (qubit : nat) : Z :=
  default 0 (odict_get d qubit).

(** A runner whose benchmark was measured once. *)
Definition measured_runner : Runner :=
  {| compiler_dict := example_compiler;
     backend := "heavy_hex";
     num_runs := 1;
     full_benchmark_list := ["adder.qasm"];
     metric_data :=
       <["adder.qasm" :=
           VDict (<["total_time (seconds)" := VList [VFloat 1]]>
                 (<["parsing/build_time (seconds)" := VList [VFloat 0.5]]>
                 (<["transpile_time (seconds)" := VList [VFloat 0.25]]>
                 (<["depth (gates)" := VList [VInt 2]]>
                 (<["memory_footprint (MiB)" := VList [VFloat 0]]> ∅)))))]>
         (<["metadata: " := VDict example_compiler]>
            (<["backend" := VStr "heavy_hex"]> ∅));
     metric_list :=
       ["total_time (seconds)"; "parsing/build_time (seconds)";
        "transpile_time (seconds)"; "depth (gates)";
        "memory_footprint (MiB)"];
     second_compiler_readout := "false" |}.

(** A measurement whose compiled program has a line outside the gate
    table. *)
Definition noisy_measurement : Measurement (string * list nat) :=
  with_processed (example_env "adder.qasm" 0)
    (example_program (example_lines ++ [("barrier", [0%nat; 1%nat])])).

(** The benchmark files of a listing: every name but [.DS_Store]. *)
Definition benchmark_files (benchmarks : list Loaded) : list Loaded :=
  filter (λ b, file_name b ≠ ".DS_Store") benchmarks.

(** The line printed before a file is parsed. *)
Definition converting (b : Loaded) : string :=
  "Converting " +:+ file_name b +:+ " to high-level circuit...".

(** [metric_data] before any benchmark is loaded. *)
Definition initial_metric_data (compiler_dict : gmap string value)
    (backend : string) : gmap string value :=
  <["metadata: " := VDict compiler_dict]> (<["backend" := VStr backend]> ∅).

(** [metric_data] with the fresh entries of a list of benchmark files. *)
Definition loaded_metric_data (md : gmap string value)
    (files : list Loaded) : gmap string value :=
  foldl (λ md b, <[file_name b := new_entry (load_end b - load_start b)%float]> md)
        md files.

(** The visualizer's state after the repetitions [runs] were announced. *)
Definition announced (pv : ProgressVisualizer.t) (runs : list nat)
    : ProgressVisualizer.t :=
  foldl (λ pv run_num, ProgressVisualizer.start_run pv (Z.of_nat run_num + 1))
        pv runs.

(** An average the visualizer can format, or none. *)
Definition number_or_none (v : option value) : Prop :=
  match v with
  | None | Some (VInt _) | Some (VFloat _) => True
  | _ => False
  end.

(** The average time of every entry the visualizer was told of can be
    read, and is missing or a number. *)
Definition told_results (pv : ProgressVisualizer.t) : Prop :=
  ∀ name v, ProgressVisualizer.benchmark_results pv !! name = Some v →
    ∃ avg, ProgressVisualizer.average_time v = Ok avg ∧ number_or_none avg.

(** The outcome of the Runner's own model, as an outcome of the run with
    reports: the same exception and world, or the same runner and world with
    some visualizer. *)
Definition same_run {A : Type} (plain : result A * World)
    (reported : outcome (A * ProgressVisualizer.t) * World) : Prop :=
  plain.2 = reported.2 ∧
  match plain.1, reported.1 with
  | Ok a, Done (a', _) => a = a'
  | Raise e, Raised r => r = Exn e
  | _, _ => False
  end.

(** The record [save_results] writes for a runner, as [json.load] reads it
    back. *)
Definition saved_record (self : Runner) : gmap string value :=
  json_roundtrip <$> metric_data self.

(** * Properties *)

(** ** Insertion-ordered dictionaries *)

Section odict_facts.
Context {K V : Type} `{EqDecision K}.
Implicit Types (d : list (K * V)) (k : K) (v : V).

Lemma odict_get_set d k k' v :
  odict_get (odict_set d k v) k' =
  if decide (k = k') then Some v else odict_get d k'.
Proof.
  induction d as [|[k0 v0] d IH]; simpl.
  - repeat case_decide; congruence.
  - repeat (case_decide; simpl); try congruence.
Qed.

Lemma odict_set_keys d k v :
  is_Some (odict_get d k) → (odict_set d k v).*1 = d.*1.
Proof.
  induction d as [|[k0 v0] d IH]; simpl; intros [x Hx]; [done|].
  case_decide; simpl; subst; [done|].
  f_equal. apply IH. eauto.
Qed.

Lemma odict_set_keys_new d k v :
  odict_get d k = None → (odict_set d k v).*1 = d.*1 ++ [k].
Proof.
  induction d as [|[k0 v0] d IH]; simpl; intros Hx; [done|].
  case_decide; simpl; [done|]. f_equal. by apply IH.
Qed.

Lemma odict_get_None d k : odict_get d k = None ↔ k ∉ d.*1.
Proof.
  induction d as [|[k0 v0] d IH]; simpl.
  - split; [intros _; apply not_elem_of_nil | done].
  - rewrite not_elem_of_cons. case_decide; subst.
    + split; [done | intros [? _]; done].
    + rewrite IH. split; [intros ?; split; [congruence | done] | by intros [_ ?]].
Qed.

Lemma odict_get_elem_of d k v : odict_get d k = Some v → (k, v) ∈ d.
Proof.
  induction d as [|[k0 v0] d IH]; simpl; [done|].
  case_decide; intros; simplify_eq; [left | right; auto].
Qed.

Lemma odict_elem_of_get d k v :
  NoDup d.*1 → (k, v) ∈ d → odict_get d k = Some v.
Proof.
  induction d as [|[k0 v0] d IH]; simpl; intros Hnd Hin.
  - by apply elem_of_nil in Hin.
  - apply NoDup_cons in Hnd as [Hk0 Hnd].
    apply elem_of_cons in Hin as [Heq | Hin].
    + simplify_eq. by rewrite decide_True.
    + rewrite decide_False; [by apply IH|].
      intros ->. apply Hk0. apply list_elem_of_fmap. by exists (k, v).
Qed.
End odict_facts.

(** ** Depth analysis *)

Lemma count_qubit_get d q q' :
  odict_get (count_qubit d q) q' =
  if decide (q = q') then Some (counter d q + 1) else odict_get d q'.
Proof.
  unfold count_qubit, counter.
  destruct (odict_get d q) as [n|] eqn:Hq; simpl.
  - rewrite Hq. apply odict_get_set.
  - assert (Hz : odict_get (odict_set d q 0) q = Some 0)
      by (rewrite odict_get_set; apply decide_True; done).
    rewrite Hz, !odict_get_set. by case_decide.
Qed.

Lemma count_qubit_keys d q :
  (count_qubit d q).*1 = if decide (q ∈ d.*1) then d.*1 else d.*1 ++ [q].
Proof.
  unfold count_qubit.
  destruct (odict_get d q) as [n|] eqn:Hq.
  - rewrite Hq. rewrite odict_set_keys by eauto.
    rewrite decide_True; [done|].
    destruct (decide (q ∈ d.*1)) as [|Hn]; [done|].
    apply odict_get_None in Hn. congruence.
  - assert (Hz : odict_get (odict_set d q 0) q = Some 0)
      by (rewrite odict_get_set; apply decide_True; done).
    rewrite Hz, odict_set_keys by eauto.
    rewrite odict_set_keys_new by done.
    apply odict_get_None in Hq. by rewrite decide_False.
Qed.

Lemma occurrences_cons q x qs :
  occurrences q (x :: qs) = (if decide (x = q) then 1 else 0) + occurrences q qs.
Proof.
  unfold occurrences. rewrite filter_cons.
  case_decide; simpl; lia.
Qed.

Lemma occurrences_pos q qs : q ∈ qs → 0 < occurrences q qs.
Proof.
  intros Hin. unfold occurrences.
  assert (Hf : q ∈ filter (λ x, x = q) qs) by (by apply list_elem_of_filter).
  destruct (filter _ qs); [by apply elem_of_nil in Hf | simpl; lia].
Qed.

Lemma occurrences_nonneg q qs : 0 ≤ occurrences q qs.
Proof. unfold occurrences. lia. Qed.

Lemma foldl_count_qubit qs : ∀ d,
  NoDup d.*1 →
  NoDup (foldl count_qubit d qs).*1 ∧
  (∀ q, q ∈ (foldl count_qubit d qs).*1 ↔ q ∈ d.*1 ∨ q ∈ qs) ∧
  (∀ q, counter (foldl count_qubit d qs) q = counter d q + occurrences q qs).
Proof.
  induction qs as [|x qs IH]; intros d Hnd; simpl.
  - split; [done|]. split.
    + intros q. rewrite elem_of_nil. tauto.
    + intros q. unfold occurrences. simpl. lia.
  - assert (Hnd' : NoDup (count_qubit d x).*1).
    { rewrite count_qubit_keys. case_decide; [done|].
      apply NoDup_app. split; [done|]. split; [|apply NoDup_singleton].
      intros y Hy Hy'. apply list_elem_of_singleton in Hy'. by subst. }
    destruct (IH _ Hnd') as (H1 & H2 & H3).
    split; [done|]. split.
    + intros q. rewrite H2, count_qubit_keys, elem_of_cons.
      case_decide as Hx.
      * split; [tauto|]. intros [?|[->|?]]; tauto.
      * rewrite elem_of_app, list_elem_of_singleton. tauto.
    + intros q. rewrite H3, occurrences_cons.
      unfold counter at 1. rewrite count_qubit_get.
      case_decide; subst; simpl; [lia|]. fold (counter d q). lia.
Qed.

(** The dictionary built by [get_qubit_depths] holds, for the qubits touched
    by counted operations and only for them, the number of times they are
    touched. *)
Lemma foldl_count_qubit_nil qs :
  let d := foldl count_qubit [] qs in
  NoDup d.*1 ∧
  (∀ q v, (q, v) ∈ d ↔ q ∈ qs ∧ v = occurrences q qs).
Proof.
  intros d.
  destruct (foldl_count_qubit qs [] (NoDup_nil_2)) as (H1 & H2 & H3).
  fold d in H1, H2, H3. split; [done|].
  intros q v. split.
  - intros Hin.
    assert (Hq : q ∈ qs).
    { specialize (H2 q) as [H2 _]. destruct H2 as [H2|H2]; [|by apply elem_of_nil in H2|done].
      apply list_elem_of_fmap. by exists (q, v). }
    split; [done|].
    specialize (H3 q). unfold counter in H3.
    rewrite (odict_elem_of_get _ _ _ H1 Hin) in H3. simpl in H3. lia.
  - intros [Hq ->].
    assert (Hk : q ∈ d.*1) by (apply H2; by right).
    destruct (odict_get d q) as [v|] eqn:Hv.
    + specialize (H3 q). unfold counter in H3. rewrite Hv in H3. simpl in H3.
      assert (v = occurrences q qs) as <- by lia.
      by apply odict_get_elem_of.
    + apply odict_get_None in Hv. done.
Qed.

(** One walk over the program: the dictionary is built from the operands of
    the counted operations in file order, and one notice is printed for each
    of the other lines. *)
Lemma get_qubit_depths_walk {gate} (benchmark : Preprocess gate) (gates : list gate) :
  ∀ d out,
  foldl (get_qubit_depths_step benchmark) (d, out) gates =
  (foldl count_qubit d (counted_operands (with_lines benchmark gates)),
   out ++ notices (with_lines benchmark gates)).
Proof.
  unfold counted_operands, notices. simpl.
  induction gates as [|g gates IH]; intros d out; simpl.
  - by rewrite app_nil_r.
  - unfold get_qubit_depths_step at 2. simpl.
    rewrite !filter_cons. case_decide as Hg.
    + rewrite decide_False by tauto. rewrite IH. simpl.
      by rewrite foldl_app.
    + rewrite decide_True by done. rewrite IH. simpl.
      by rewrite <- app_assoc.
Qed.

Lemma with_lines_id {gate} (benchmark : Preprocess gate) :
  with_lines benchmark (processed_qasm benchmark) = benchmark.
Proof. by destruct benchmark. Qed.

Lemma get_qubit_depths_eq {gate} (benchmark : Preprocess gate) :
  get_qubit_depths benchmark =
  (foldl count_qubit [] (counted_operands benchmark), notices benchmark).
Proof.
  unfold get_qubit_depths. rewrite get_qubit_depths_walk.
  by rewrite with_lines_id.
Qed.

Lemma foldl_max_spec (l : list Z) : ∀ x,
  foldl Z.max x l ∈ x :: l ∧ ∀ y, y ∈ x :: l → y ≤ foldl Z.max x l.
Proof.
  induction l as [|z l IH]; intros x; simpl.
  - split; [left|]. intros y Hy. apply list_elem_of_singleton in Hy. lia.
  - destruct (IH (Z.max x z)) as [Hin Hub]. split.
    + apply elem_of_cons in Hin as [Heq | Hin].
      * rewrite Heq. destruct (Z.max_spec x z) as [[_ ->] | [_ ->]];
          [right; left | left].
      * right. by right.
    + intros y Hy.
      assert (Hm : Z.max x z ≤ foldl Z.max (Z.max x z) l) by (apply Hub; left).
      apply elem_of_cons in Hy as [-> | Hy]; [lia|].
      apply elem_of_cons in Hy as [-> | Hy]; [lia|].
      apply Hub. by right.
Qed.

Lemma py_max_spec (l : list Z) (m : Z) :
  py_max l = Ok m → m ∈ l ∧ ∀ y, y ∈ l → y ≤ m.
Proof.
  destruct l as [|x l]; simpl; [done|].
  intros [= <-]. apply foldl_max_spec.
Qed.

Lemma foldr_max_spec (l : list Z) :
  l ≠ [] → (∀ y, y ∈ l → 0 ≤ y) →
  foldr Z.max 0 l ∈ l ∧ ∀ y, y ∈ l → y ≤ foldr Z.max 0 l.
Proof.
  induction l as [|x l IH]; [done|]. intros _ Hpos. simpl.
  destruct l as [|x' l].
  - simpl. assert (0 ≤ x) by (apply Hpos; left).
    rewrite Z.max_l by lia. split; [left|].
    intros y Hy. apply list_elem_of_singleton in Hy. lia.
  - destruct IH as [Hin Hub]; [done | intros y Hy; apply Hpos; by right |].
    split.
    + destruct (Z.max_spec x (foldr Z.max 0 (x' :: l))) as [[_ ->] | [_ ->]];
        [by right | left].
    + intros y Hy. apply elem_of_cons in Hy as [-> | Hy]; [lia|].
      specialize (Hub y Hy). lia.
Qed.

Lemma maximum_of_counts (qs : list nat) :
  qs ≠ [] →
  let d := foldl count_qubit [] qs in
  ∃ k, (k, foldr Z.max 0 ((λ q, occurrences q qs) <$> qs)) ∈ d ∧
    (max_value ← py_max (odict_values d);
     max_keys ← from_option IndexError
       (head (fst <$> filter (λ kv, kv.2 = max_value) d));
     Ok (max_keys, max_value))
    = Ok (k, foldr Z.max 0 ((λ q, occurrences q qs) <$> qs)).
Proof.
  intros Hne d.
  pose proof (foldl_count_qubit_nil qs) as [Hnd Hd]. fold d in Hnd, Hd.
  assert (Hd0 : d ≠ []).
  { destruct qs as [|q0 qs'] eqn:Hqs; [done|]. rewrite <- Hqs in *.
    assert (Hq0 : (q0, occurrences q0 qs) ∈ d).
    { apply Hd. split; [|done]. rewrite Hqs. left. }
    intros Hnil. rewrite Hnil in Hq0. by apply elem_of_nil in Hq0. }
  destruct (py_max (odict_values d)) as [m|e] eqn:Hm.
  2:{ unfold odict_values in Hm. by destruct d. }
  apply py_max_spec in Hm as [Hin Hub].
  unfold odict_values in Hin, Hub.
  apply list_elem_of_fmap in Hin as ([k v] & -> & Hkv). simpl in *.
  assert (Hv : v = foldr Z.max 0 ((λ q, occurrences q qs) <$> qs)).
  { destruct (foldr_max_spec ((λ q, occurrences q qs) <$> qs)) as [Hin2 Hub2].
    { by destruct qs. }
    { intros y Hy. apply list_elem_of_fmap in Hy as (q & -> & _).
      apply occurrences_nonneg. }
    apply Z.le_antisymm.
    - apply Hub2. apply list_elem_of_fmap. exists k.
      apply Hd in Hkv as [Hk ->]. done.
    - apply list_elem_of_fmap in Hin2 as (q & Heq & Hq).
      rewrite Heq. apply Hub. apply list_elem_of_fmap.
      exists (q, occurrences q qs). split; [done|].
      apply Hd. done. }
  rewrite <- Hv.
  assert (Hf : (k, v) ∈ filter (λ kv : nat * Z, kv.2 = v) d)
    by (by apply list_elem_of_filter).
  destruct (filter (λ kv : nat * Z, kv.2 = v) d) as [|[k' v'] l] eqn:Hfl;
    [by apply elem_of_nil in Hf|].
  assert (Hk' : (k', v') ∈ filter (λ kv : nat * Z, kv.2 = v) d)
    by (rewrite Hfl; left).
  apply list_elem_of_filter in Hk' as [Hv' Hk']. simpl in Hv'. subst v'.
  exists k'. split; [done|]. done.
Qed.

(** [get_circuit_depth] computes the depth of the specification. *)
Lemma get_circuit_depth_spec {gate} (benchmark : Preprocess gate) :
  (get_circuit_depth benchmark).1 = spec_depth benchmark.
Proof.
  unfold get_circuit_depth, get_maximum_qubit_depth.
  rewrite get_qubit_depths_eq.
  destruct (decide (counted_operands benchmark = [])) as [Hnil | Hne].
  - unfold spec_depth. by rewrite Hnil.
  - destruct (maximum_of_counts _ Hne) as (k & _ & Hk).
    cbv zeta in Hk. cbn [fst]. rewrite Hk.
    unfold spec_depth.
    destruct (counted_operands benchmark) as [|q qs] eqn:E; [done|].
    by rewrite <- E.
Qed.

Lemma get_circuit_depth_out {gate} (benchmark : Preprocess gate) :
  (get_circuit_depth benchmark).2 = notices benchmark ++ notices benchmark.
Proof.
  unfold get_circuit_depth, get_maximum_qubit_depth.
  by rewrite get_qubit_depths_eq.
Qed.

Lemma counted_operands_skip {gate} (benchmark : Preprocess gate)
    (before after : list gate) (g : gate) :
  get_op benchmark g ∉ GATE_TABLE benchmark →
  counted_operands (with_lines benchmark (before ++ g :: after)) =
  counted_operands (with_lines benchmark (before ++ after)).
Proof.
  intros Hg. unfold counted_operands. simpl.
  rewrite !filter_app, filter_cons. by rewrite decide_False.
Qed.
(** ** The world monad *)

Lemma for_each_fst {A S : Type} (body : S → A → M S) (pure : S → A → result S)
    (l : list A) :
  (∀ s x w, (body s x w).1 = pure s x) →
  ∀ s w, (for_each body l s w).1 = fold_result pure l s.
Proof.
  intros Hbody. induction l as [|x l IH]; intros s w; simpl; [done|].
  unfold mbind, M_bind. specialize (Hbody s x w).
  destruct (body s x w) as [[s'|e] w']; simpl in Hbody; rewrite <- Hbody; simpl.
  - apply IH.
  - done.
Qed.

Lemma run_benchmark_fst {gate} (self : Runner) (name : string)
    (m : Measurement gate) (w : World) :
  (run_benchmark self name m w).1 = run_benchmark_result self name m.
Proof.
  unfold run_benchmark, run_benchmark_result, depth_pass.
  unfold mbind, M_bind, result_bind, lift, print, mret, M_ret.
  destruct (memory_pass self name m) as [md1|]; simpl; [|done].
  destruct (timing_pass self md1 name m) as [md2|]; simpl; [|done].
  destruct (getitem (compiler_dict self) "compiler"); simpl; [|done].
  destruct (library (raises m Serialize)); simpl; [|done].
  destruct (library (raises m MakePreprocess)); simpl; [|done].
  destruct (get_circuit_depth (processed m)).1 as [depth|]; simpl; [|done].
  by destruct (append_sample md2 name "depth (gates)" (VInt depth)).
Qed.

(** C2: the depth proxy is obtained by walking the operation list in file
    order and incrementing a counter for every qubit id touched by an
    operation whose name is in the gate table; the dictionary built holds
    for each touched qubit the number of times it is touched, and the depth
    returned is the maximum of these counters.  For the operations
    [h q0; cx q0,q1; x q1] and the gate table [h, cx, x] the counters of
    qubit 0 and of qubit 1 are 2 and the depth is 2. *)
Theorem depth_is_maximum_counter {gate} (benchmark : Preprocess gate) :
  (get_qubit_depths benchmark).1
    = foldl count_qubit [] (counted_operands benchmark) ∧
  (∀ qubit,
     odict_get (get_qubit_depths benchmark).1 qubit =
     if decide (qubit ∈ counted_operands benchmark)
     then Some (spec_counter benchmark qubit) else None) ∧
  (get_circuit_depth benchmark).1 = spec_depth benchmark ∧
  odict_get (get_qubit_depths (example_program example_lines)).1 0%nat = Some 2 ∧
  odict_get (get_qubit_depths (example_program example_lines)).1 1%nat = Some 2 ∧
  get_circuit_depth (example_program example_lines) = (Ok 2, []).
Proof.
  split; [by rewrite get_qubit_depths_eq|].
  split; [|split; [apply get_circuit_depth_spec | by vm_compute]].
  intros qubit. rewrite get_qubit_depths_eq. cbn [fst].
  pose proof (foldl_count_qubit_nil (counted_operands benchmark)) as [Hnd Hd].
  cbv zeta in Hnd, Hd.
  case_decide as Hq.
  - apply odict_elem_of_get; [done|]. by apply Hd.
  - apply odict_get_None. intros Hin.
    apply list_elem_of_fmap in Hin as ([k v] & -> & Hkv).
    apply Hd in Hkv as [? _]. done.
Qed.

Lemma spec_depth_positive {gate} (benchmark : Preprocess gate) :
  counted_operands benchmark ≠ [] →
  ∃ depth, spec_depth benchmark = Ok depth ∧ 1 ≤ depth.
Proof.
  intros Hne. unfold spec_depth.
  destruct (counted_operands benchmark) as [|q qs] eqn:Hc; [done|].
  eexists. split; [reflexivity|].
  destruct (foldr_max_spec (spec_counter benchmark <$> (q :: qs))) as [_ Hub].
  { done. }
  { intros y Hy. apply list_elem_of_fmap in Hy as (x & -> & _).
    unfold spec_counter. lia. }
  assert (Hq : 0 < spec_counter benchmark q).
  { unfold spec_counter. rewrite Hc. apply (occurrences_pos q (q :: qs)). left. }
  specialize (Hub (spec_counter benchmark q)
                ltac:(apply list_elem_of_fmap; exists q; split; [done | left])).
  lia.
Qed.

(** C4 (as amended): a line whose operation name is absent from the gate
    table is skipped with a notice and excluded from every per-qubit counter: adding
    such a line anywhere in a program leaves every counter at the number of
    times the qubit is touched by the counted operations, prints its notice
    in its place among the notices, and leaves the outcome of the depth
    computation and of a repetition as it is without the line.  That
    outcome is the largest counter, at least 1, when some operation is
    counted; when none is, it is [ValueError], with the line as without
    it. *)
Theorem unknown_gate_is_skipped {gate} (benchmark : Preprocess gate)
    (before after : list gate) (g : gate) :
  get_op benchmark g ∉ GATE_TABLE benchmark →
  let without := with_lines benchmark (before ++ after) in
  let extended := with_lines benchmark (before ++ g :: after) in
  (get_qubit_depths extended).1 = (get_qubit_depths without).1 ∧
  (∀ qubit,
     counter (get_qubit_depths extended).1 qubit = spec_counter without qubit) ∧
  (get_qubit_depths extended).2
    = notices (with_lines benchmark before)
      ++ not_counted (get_op benchmark g) :: notices (with_lines benchmark after) ∧
  (get_circuit_depth extended).1 = spec_depth without ∧
  (get_circuit_depth extended).1 = (get_circuit_depth without).1 ∧
  (counted_operands without ≠ [] →
     ∃ depth, (get_circuit_depth extended).1 = Ok depth ∧ 1 ≤ depth) ∧
  (counted_operands without = [] →
     (get_circuit_depth extended).1 = Raise ValueError) ∧
  (∀ self name (m : Measurement gate) w,
     (run_benchmark self name (with_processed m extended) w).1 =
     (run_benchmark self name (with_processed m without) w).1).
Proof.
  intros Hg without extended.
  assert (Hc : counted_operands extended = counted_operands without)
    by (by apply counted_operands_skip).
  assert (Hd : (get_circuit_depth extended).1 = spec_depth without).
  { rewrite get_circuit_depth_spec. unfold spec_depth, spec_counter.
    by rewrite Hc. }
  split; [by rewrite !get_qubit_depths_eq, Hc|].
  split.
  { intros qubit. rewrite get_qubit_depths_eq, Hc. cbn [fst].
    destruct (foldl_count_qubit (counted_operands without) [] (NoDup_nil_2))
      as (_ & _ & Hcount).
    rewrite Hcount. unfold counter, spec_counter, occurrences. simpl. lia. }
  split.
  { rewrite get_qubit_depths_eq. cbn [snd]. unfold notices, extended. simpl.
    rewrite filter_app, filter_cons, decide_True by done.
    by rewrite fmap_app, fmap_cons. }
  split; [done|].
  split; [by rewrite Hd, get_circuit_depth_spec|].
  split.
  { intros Hne. rewrite Hd. by apply spec_depth_positive. }
  split.
  { intros Hnil. rewrite Hd. unfold spec_depth. by rewrite Hnil. }
  intros self name m w. rewrite !run_benchmark_fst.
  unfold run_benchmark_result. cbn [processed with_processed raises].
  by rewrite Hd, get_circuit_depth_spec.
Qed.

Lemma unknown_gate_is_skipped_witness :
  ("foo" ∉ GATE_TABLE (example_program [])) ∧
  (∀ qubit,
     counter (get_qubit_depths
                (example_program
                   ([("h", [0%nat]); ("cx", [0%nat; 1%nat])]
                    ++ ("foo", [0%nat]) :: [("x", [1%nat])]))).1 qubit
     = spec_counter (example_program example_lines) qubit) ∧
  (get_circuit_depth
     (example_program
        ([("h", [0%nat]); ("cx", [0%nat; 1%nat])]
         ++ ("foo", [0%nat]) :: [("x", [1%nat])]))).1
  = Ok 2.
Proof.
  assert (H : "foo" ∉ GATE_TABLE (example_program [])).
  { apply (bool_decide_unpack _). vm_compute. exact I. }
  split; [exact H|].
  pose proof (unknown_gate_is_skipped (example_program [])
                [("h", [0%nat]); ("cx", [0%nat; 1%nat])] [("x", [1%nat])]
                ("foo", [0%nat]) H) as (_ & Hcount & _ & Hdepth & _).
  split; [exact Hcount|].
  refine (eq_trans Hdepth _). vm_compute. reflexivity.
Defined.

(** C4 as stated fails, the run does not continue for every input: the
    program made of one unrecognized line has no counter, its depth computation prints the
    notice on both walks and raises [ValueError], and so does the
    repetition that compiled it. *)
Lemma unknown_gate_aborts_counterexample :
  (get_op (example_program []) ("foo", [0%nat])
     ∉ GATE_TABLE (example_program [])) ∧
  get_circuit_depth (example_program ([] ++ ("foo", [0%nat]) :: []))
  = (Raise ValueError, [not_counted "foo"; not_counted "foo"]) ∧
  get_circuit_depth (example_program ([] ++ [])) = (Raise ValueError, []) ∧
  (run_benchmark (adder_runner 1 "false") "adder.qasm"
     (with_processed (example_env "adder.qasm" 0)
        (example_program ([] ++ ("foo", [0%nat]) :: []))) empty_world).1
  = Raise ValueError.
Proof.
  split; [apply (bool_decide_unpack _); vm_compute; exact I|].
  split; [vm_compute; reflexivity|].
  split; [vm_compute; reflexivity|].
  vm_compute. reflexivity.
Qed.

(** C10: when no operation of the program has its name in the gate table
    (an empty program, or unrecognized names only), the dictionary of
    counters is empty, the maximum over it raises [ValueError], so does the
    depth computation, and the repetition of the benchmark ends with an
    exception. *)
Theorem no_counted_operation_raises {gate} (benchmark : Preprocess gate) :
  Forall (λ g, get_op benchmark g ∉ GATE_TABLE benchmark)
         (processed_qasm benchmark) →
  (get_qubit_depths benchmark).1 = [] ∧
  (get_maximum_qubit_depth benchmark).1 = Raise ValueError ∧
  (get_circuit_depth benchmark).1 = Raise ValueError ∧
  (∀ self name (m : Measurement gate) w,
     ∃ e, (run_benchmark self name (with_processed m benchmark) w).1 = Raise e).
Proof.
  intros Hall.
  assert (Hc : counted_operands benchmark = []).
  { unfold counted_operands.
    replace (filter _ (processed_qasm benchmark)) with (@nil gate); [done|].
    symmetry. induction Hall as [|g l Hg _ IH]; [done|].
    rewrite filter_cons. by rewrite decide_False. }
  assert (Hd : (get_circuit_depth benchmark).1 = Raise ValueError).
  { rewrite get_circuit_depth_spec. unfold spec_depth. by rewrite Hc. }
  split; [by rewrite get_qubit_depths_eq, Hc|].
  split; [unfold get_maximum_qubit_depth; rewrite get_qubit_depths_eq, Hc; done|].
  split; [done|].
  intros self name m w. rewrite run_benchmark_fst.
  unfold run_benchmark_result. cbn [processed with_processed raises]. rewrite Hd.
  destruct (memory_pass _ _ _) as [md1|e1]; simpl; [|by eexists].
  destruct (timing_pass _ _ _ _) as [md2|e2]; simpl; [|by eexists].
  destruct (getitem _ _) as [c|e3]; simpl; [|by eexists].
  destruct (library (raises m Serialize)) as [|e4]; simpl; [|by eexists].
  destruct (library (raises m MakePreprocess)) as [|e5]; simpl; by eexists.
Qed.

Lemma no_counted_operation_raises_witness :
  Forall (λ g, get_op (example_program [("barrier", [0%nat])]) g
               ∉ GATE_TABLE (example_program [("barrier", [0%nat])]))
         (processed_qasm (example_program [("barrier", [0%nat])])) ∧
  (get_circuit_depth (example_program [("barrier", [0%nat])])).1
  = Raise ValueError.
Proof.
  assert (H : Forall (λ g, get_op (example_program [("barrier", [0%nat])]) g
                           ∉ GATE_TABLE (example_program [("barrier", [0%nat])]))
                (processed_qasm (example_program [("barrier", [0%nat])]))).
  { apply (bool_decide_unpack _). vm_compute. exact I. }
  split; [exact H|].
  exact (proj1 (proj2 (proj2 (no_counted_operation_raises _ H)))).
Defined.
(** ** Samples *)

Lemma append_sample_eq md name metric x md' :
  append_sample md name metric x = Ok md' →
  ∃ l, get_sample md name metric = Ok l ∧
       get_sample md' name metric = Ok (l ++ [x]).
Proof.
  unfold append_sample, get_sample, getitem.
  destruct (md !! name) as [[| | | | |entry]|] eqn:Hn; simpl; try done.
  destruct (entry !! metric) as [[| | |l| |]|] eqn:Hm; simpl; try done.
  intros [= <-]. exists l. split; [done|].
  rewrite lookup_insert_eq. simpl. by rewrite lookup_insert_eq.
Qed.

Lemma append_sample_ne md name metric x md' metric' :
  append_sample md name metric x = Ok md' →
  metric ≠ metric' →
  get_sample md' name metric' = get_sample md name metric'.
Proof.
  unfold append_sample, get_sample, getitem.
  destruct (md !! name) as [[| | | | |entry]|] eqn:Hn; simpl; try done.
  destruct (entry !! metric) as [[| | |l| |]|] eqn:Hm; simpl; try done.
  intros [= <-] Hne.
  rewrite lookup_insert_eq. simpl. by rewrite lookup_insert_ne.
Qed.

Lemma append_sample_frame md name metric x md' name' :
  append_sample md name metric x = Ok md' →
  name ≠ name' →
  md' !! name' = md !! name'.
Proof.
  unfold append_sample, getitem.
  destruct (md !! name) as [[| | | | |entry]|] eqn:Hn; simpl; try done.
  destruct (entry !! metric) as [[| | |l| |]|] eqn:Hm; simpl; try done.
  intros [= <-] Hne. by rewrite lookup_insert_ne.
Qed.

Lemma bind_Ok {A B : Type} (r : result A) (k : A → result B) (b : B) :
  r ≫= k = Ok b → ∃ a, r = Ok a ∧ k a = Ok b.
Proof. destruct r as [a|e]; simpl; [eauto | done]. Qed.

Tactic Notation "bind_ok" hyp(H) ident(x) ident(Hx) :=
  apply bind_Ok in H as (x & Hx & H).

Lemma last_item_snoc (l : list value) (x : value) :
  last_item (VList (l ++ [x])) = Ok x.
Proof. unfold last_item. by rewrite last_snoc. Qed.

Lemma last_sample_list md name metric l :
  get_sample md name metric = Ok l →
  last_sample md name metric = last_item (VList l).
Proof.
  unfold get_sample, last_sample, getitem.
  destruct (md !! name) as [[| | | | |entry]|]; simpl; try done.
  destruct (entry !! metric) as [[| | |l'| |]|]; simpl; try done.
  by intros [= ->].
Qed.

(** One successful repetition appends one value to each sample list but
    the build time, which it only reads. *)
Lemma run_benchmark_samples {gate} (self self' : Runner) (name : string)
    (m : Measurement gate) (bt : float) (tt tr dp mem : list value) :
  has_samples (metric_data self) name tt [VFloat bt] tr dp mem →
  run_benchmark_result self name m = Ok self' →
  ∃ d, (get_circuit_depth (processed m)).1 = Ok d ∧
    has_samples (metric_data self') name
      (tt ++ [VFloat (total_sample bt m)]) [VFloat bt]
      (tr ++ [VFloat (transpile_sample m)]) (dp ++ [VInt d])
      (mem ++ [VFloat (memory_sample m)]) ∧
    num_runs self' = num_runs self ∧
    metric_list self' = metric_list self.
Proof.
  intros (Htt & Hbt & Htr & Hdp & Hmem) Hrun.
  unfold run_benchmark_result in Hrun.
  bind_ok Hrun md1 H1. bind_ok Hrun md2 H2. bind_ok Hrun c Hc.
  bind_ok Hrun u1 Hu1. bind_ok Hrun u2 Hu2.
  bind_ok Hrun d Hd. bind_ok Hrun md3 H3. injection Hrun as <-.
  exists d. split; [done|].
  (* memory pass *)
  unfold memory_pass, profile_func, transpile_in_process in H1.
  bind_ok H1 memory Hm. bind_ok Hm o Ho. bind_ok Hm u3 Hu3.
  bind_ok Hm c' Hc'. bind_ok Hm u4 Hu4. injection Hm as <-.
  bind_ok H1 md0 H0. bind_ok H1 u5 Hu5. injection H1 as ->.
  pose proof (append_sample_eq _ _ _ _ _ H0) as (l1 & Hl1 & Hmem1).
  rewrite Hmem in Hl1. injection Hl1 as <-.
  assert (Htt1 := append_sample_ne _ _ _ _ _ "total_time (seconds)" H0 ltac:(done)).
  assert (Hbt1 := append_sample_ne _ _ _ _ _ "parsing/build_time (seconds)" H0 ltac:(done)).
  assert (Htr1 := append_sample_ne _ _ _ _ _ "transpile_time (seconds)" H0 ltac:(done)).
  assert (Hdp1 := append_sample_ne _ _ _ _ _ "depth (gates)" H0 ltac:(done)).
  rewrite Htt in Htt1. rewrite Hbt in Hbt1. rewrite Htr in Htr1. rewrite Hdp in Hdp1.
  clear H0 Htt Hbt Htr Hdp Hmem.
  (* timing pass *)
  unfold timing_pass in H2.
  bind_ok H2 c1 Hc1. bind_ok H2 o1 Ho1. bind_ok H2 u6 Hu6. bind_ok H2 md4 H4.
  pose proof (append_sample_eq _ _ _ _ _ H4) as (l4 & Hl4 & Htr4).
  rewrite Htr1 in Hl4. injection Hl4 as <-.
  assert (Htt4 := append_sample_ne _ _ _ _ _ "total_time (seconds)" H4 ltac:(done)).
  assert (Hbt4 := append_sample_ne _ _ _ _ _ "parsing/build_time (seconds)" H4 ltac:(done)).
  assert (Hdp4 := append_sample_ne _ _ _ _ _ "depth (gates)" H4 ltac:(done)).
  assert (Hmem4 := append_sample_ne _ _ _ _ _ "memory_footprint (MiB)" H4 ltac:(done)).
  rewrite Htt1 in Htt4. rewrite Hbt1 in Hbt4. rewrite Hdp1 in Hdp4. rewrite Hmem1 in Hmem4.
  clear H4 Htt1 Hbt1 Htr1 Hdp1 Hmem1.
  rewrite Htt4 in H2. cbn [mbind result_bind] in H2.
  rewrite (last_sample_list _ _ _ _ Hbt4), (last_sample_list _ _ _ _ Htr4) in H2.
  rewrite last_item_snoc in H2. simpl in H2.
  pose proof (append_sample_eq _ _ _ _ _ H2) as (l2 & Hl2 & Htt2).
  rewrite Htt4 in Hl2. injection Hl2 as <-.
  assert (Hbt2 := append_sample_ne _ _ _ _ _ "parsing/build_time (seconds)" H2 ltac:(done)).
  assert (Htr2 := append_sample_ne _ _ _ _ _ "transpile_time (seconds)" H2 ltac:(done)).
  assert (Hdp2 := append_sample_ne _ _ _ _ _ "depth (gates)" H2 ltac:(done)).
  assert (Hmem2 := append_sample_ne _ _ _ _ _ "memory_footprint (MiB)" H2 ltac:(done)).
  rewrite Hbt4 in Hbt2. rewrite Htr4 in Htr2. rewrite Hdp4 in Hdp2. rewrite Hmem4 in Hmem2.
  clear H2 Htt4 Hbt4 Htr4 Hdp4 Hmem4.
  (* depth pass *)
  pose proof (append_sample_eq _ _ _ _ _ H3) as (l3 & Hl3 & Hdp3).
  rewrite Hdp2 in Hl3. injection Hl3 as <-.
  assert (Htt3 := append_sample_ne _ _ _ _ _ "total_time (seconds)" H3 ltac:(done)).
  assert (Hbt3 := append_sample_ne _ _ _ _ _ "parsing/build_time (seconds)" H3 ltac:(done)).
  assert (Htr3 := append_sample_ne _ _ _ _ _ "transpile_time (seconds)" H3 ltac:(done)).
  assert (Hmem3 := append_sample_ne _ _ _ _ _ "memory_footprint (MiB)" H3 ltac:(done)).
  rewrite Htt2 in Htt3. rewrite Hbt2 in Hbt3. rewrite Htr2 in Htr3. rewrite Hmem2 in Hmem3.
  split; [|done]. unfold has_samples. simpl. done.
Qed.

(** The repetitions of one benchmark, all successful. *)
Lemma repetitions_samples {gate} (env : nat → Measurement gate) (name : string)
    (bt : float) (runs : list nat) :
  ∀ (self self' : Runner) (tt tr dp mem : list value),
  has_samples (metric_data self) name tt [VFloat bt] tr dp mem →
  repetitions_result env name runs self = Ok self' →
  ∃ ds : list Z,
    length ds = length runs ∧
    has_samples (metric_data self') name
      (tt ++ ((λ i, VFloat (total_sample bt (env i))) <$> runs)) [VFloat bt]
      (tr ++ ((λ i, VFloat (transpile_sample (env i))) <$> runs))
      (dp ++ (VInt <$> ds))
      (mem ++ ((λ i, VFloat (memory_sample (env i))) <$> runs)) ∧
    num_runs self' = num_runs self ∧
    metric_list self' = metric_list self.
Proof.
  induction runs as [|i runs IH]; intros self self' tt tr dp mem Hs Hrun.
  - injection Hrun as <-. exists []. by rewrite !app_nil_r.
  - unfold repetitions_result in Hrun. simpl in Hrun.
    bind_ok Hrun self1 H1.
    destruct (run_benchmark_samples _ _ _ _ _ _ _ _ _ Hs H1)
      as (d & _ & Hs1 & Hn1 & Hl1).
    destruct (IH _ _ _ _ _ _ Hs1 Hrun) as (ds & Hlen & Hs' & Hn' & Hl').
    exists (d :: ds). split; [simpl; by rewrite Hlen|].
    split; [|split; congruence].
    simpl. by rewrite <- !app_assoc in Hs'.
Qed.

Lemma aggregate_step_samples (numpy : Numpy) (name : string)
    (md md' : gmap string value) (metric metric' : string) :
  aggregate_step numpy name md metric = Ok md' →
  metric' ≠ "aggregate" →
  get_sample md' name metric' = get_sample md name metric'.
Proof.
  unfold aggregate_step. intros H Hne.
  bind_ok H e He. bind_ok H entry Hentry. bind_ok H a Ha. bind_ok H agg Hagg.
  bind_ok H sample Hsample. bind_ok H arr Harr. bind_ok H stats Hstats.
  injection H as <-.
  unfold get_sample. rewrite He. simpl. rewrite Hentry. simpl.
  unfold getitem. rewrite lookup_insert_eq. simpl.
  by rewrite lookup_insert_ne.
Qed.

Lemma fold_aggregate_samples (numpy : Numpy) (name : string)
    (metrics : list string) (metric' : string) :
  ∀ md md',
  fold_result (aggregate_step numpy name) metrics md = Ok md' →
  metric' ≠ "aggregate" →
  get_sample md' name metric' = get_sample md name metric'.
Proof.
  induction metrics as [|metric metrics IH]; intros md md' H Hne; simpl in H.
  - by injection H as <-.
  - bind_ok H md1 H1. rewrite (IH _ _ H Hne).
    by apply (aggregate_step_samples numpy _ _ _ metric).
Qed.

(** The statistics are stored beside the samples and leave them as they
    are. *)
Lemma calculate_aggregate_statistics_samples (numpy : Numpy)
    (self self' : Runner) (name metric' : string) :
  calculate_aggregate_statistics numpy self name = Ok self' →
  metric' ≠ "aggregate" →
  get_sample (metric_data self') name metric' =
  get_sample (metric_data self) name metric'.
Proof.
  unfold calculate_aggregate_statistics. intros H Hne.
  bind_ok H e He. bind_ok H entry Hentry. bind_ok H md Hmd.
  injection H as <-. simpl.
  rewrite (fold_aggregate_samples _ _ _ _ _ _ Hmd Hne).
  unfold get_sample. rewrite He. simpl. rewrite Hentry. simpl.
  unfold getitem. rewrite lookup_insert_eq. simpl.
  by rewrite lookup_insert_ne.
Qed.

Lemma run_case_fst {gate} (numpy : Numpy) (env : nat → Measurement gate)
    (self : Runner) (name : string) (w : World) :
  (run_case numpy env self name w).1 =
  (self ← repetitions_result env name (seq 0 (Z.to_nat (num_runs self))) self;
   calculate_aggregate_statistics numpy self name).
Proof.
  unfold run_case, repetitions_result.
  unfold mbind at 1, M_bind.
  pose proof (for_each_fst
    (λ self run_num, run_benchmark self name (env run_num))
    (λ self run_num, run_benchmark_result self name (env run_num))
    (seq 0 (Z.to_nat (num_runs self)))
    (λ s x w, run_benchmark_fst s name (env x) w) self w) as Hloop.
  destruct (for_each _ _ self w) as [[self1|e] w1]; simpl in Hloop;
    rewrite <- Hloop; done.
Qed.

Lemma new_entry_samples (md : gmap string value) (name : string) (bt : float) :
  md !! name = Some (new_entry bt) →
  has_samples md name [] [VFloat bt] [] [] [].
Proof.
  intros H. unfold has_samples, get_sample, getitem. rewrite H. simpl.
  unfold new_entry. repeat split; by vm_compute.
Qed.

(** The samples of one benchmark after its repetitions and statistics. *)
Lemma run_case_samples {gate} (numpy : Numpy) (env : nat → Measurement gate)
    (self self' : Runner) (name : string) (bt : float) (w w' : World) :
  metric_data self !! name = Some (new_entry bt) →
  run_case numpy env self name w = (Ok self', w') →
  let runs := seq 0 (Z.to_nat (num_runs self)) in
  ∃ ds : list Z,
    length ds = Z.to_nat (num_runs self) ∧
    has_samples (metric_data self') name
      ((λ i, VFloat (total_sample bt (env i))) <$> runs) [VFloat bt]
      ((λ i, VFloat (transpile_sample (env i))) <$> runs)
      (VInt <$> ds)
      ((λ i, VFloat (memory_sample (env i))) <$> runs).
Proof.
  intros Hnew Hrun runs.
  pose proof (run_case_fst numpy env self name w) as Hfst.
  rewrite Hrun in Hfst. simpl in Hfst. symmetry in Hfst.
  bind_ok Hfst self1 Hreps.
  destruct (repetitions_samples env name bt _ _ _ _ _ _ _
              (new_entry_samples _ _ _ Hnew) Hreps)
    as (ds & Hlen & (Htt & Hbt & Htr & Hdp & Hmem) & _ & _).
  exists ds. split; [by rewrite Hlen, length_seq|].
  unfold has_samples.
  rewrite !(calculate_aggregate_statistics_samples _ _ _ _ _ Hfst) by done.
  done.
Qed.

(** C1 (as amended): in every repetition of a benchmark, the value appended
    to [total_time] is the sum of doubles
    (transpile interval + build time) + transpile interval, each addition
    rounded, where the build time is the one measured once at load and the
    transpile interval is the [transpile_time] sample of that repetition:
    after the repetitions of a benchmark whose entry is as
    [preprocess_benchmarks] left it, [transpile_time] holds the timed
    interval of each repetition in order, [build_time] holds the one build
    time, and [total_time] holds, position by position, that sum, in which
    the transpile interval is counted twice. *)
Theorem total_time_counts_transpile_twice {gate} (numpy : Numpy)
    (env : nat → Measurement gate) (self self' : Runner) (name : string)
    (build_time : float) (w w' : World) :
  metric_data self !! name = Some (new_entry build_time) →
  run_case numpy env self name w = (Ok self', w') →
  ∃ total transpile : list float,
    get_sample (metric_data self') name "total_time (seconds)"
      = Ok (VFloat <$> total) ∧
    get_sample (metric_data self') name "transpile_time (seconds)"
      = Ok (VFloat <$> transpile) ∧
    get_sample (metric_data self') name "parsing/build_time (seconds)"
      = Ok [VFloat build_time] ∧
    transpile = (λ i, (end_time (env i) - start_time (env i))%float)
                  <$> seq 0 (Z.to_nat (num_runs self)) ∧
    Forall2 (λ total_i transpile_i,
               total_i = (transpile_i + build_time + transpile_i)%float)
            total transpile.
Proof.
  intros Hnew Hrun.
  destruct (run_case_samples numpy env self self' name build_time w w' Hnew Hrun)
    as (ds & _ & Htt & Hbt & Htr & _ & _).
  exists ((λ i, total_sample build_time (env i))
            <$> seq 0 (Z.to_nat (num_runs self))),
         ((λ i, transpile_sample (env i))
            <$> seq 0 (Z.to_nat (num_runs self))).
  rewrite <- !list_fmap_compose.
  split; [done|]. split; [done|]. split; [done|]. split; [done|].
  apply Forall2_fmap, Forall_Forall2_diag, Forall_forall.
  intros i _. reflexivity.
Qed.

Lemma total_time_counts_transpile_twice_witness :
  metric_data (adder_runner 2 "false") !! "adder.qasm"
    = Some (new_entry 0.5) ∧
  ∃ self' w',
    run_case example_numpy (example_env "adder.qasm") (adder_runner 2 "false")
      "adder.qasm" empty_world = (Ok self', w') ∧
    ∃ total transpile : list float,
      get_sample (metric_data self') "adder.qasm" "total_time (seconds)"
        = Ok (VFloat <$> total) ∧
      get_sample (metric_data self') "adder.qasm" "transpile_time (seconds)"
        = Ok (VFloat <$> transpile) ∧
      get_sample (metric_data self') "adder.qasm" "parsing/build_time (seconds)"
        = Ok [VFloat 0.5] ∧
      transpile = (λ i, (end_time (example_env "adder.qasm" i)
                         - start_time (example_env "adder.qasm" i))%float)
                    <$> seq 0 (Z.to_nat 2) ∧
      Forall2 (λ total_i transpile_i,
                 total_i = (transpile_i + 0.5 + transpile_i)%float)
              total transpile.
Proof.
  assert (Hnew : metric_data (adder_runner 2 "false") !! "adder.qasm"
                 = Some (new_entry 0.5)) by (vm_compute; reflexivity).
  split; [exact Hnew|].
  destruct (run_case example_numpy (example_env "adder.qasm")
              (adder_runner 2 "false") "adder.qasm" empty_world)
    as [[self'|e] w'] eqn:Hrun.
  - exists self', w'. split; [reflexivity|].
    exact (total_time_counts_transpile_twice example_numpy
             (example_env "adder.qasm") (adder_runner 2 "false") self'
             "adder.qasm" 0.5%float empty_world w' Hnew Hrun).
  - vm_compute in Hrun. discriminate Hrun.
Defined.

(** C1 as stated fails: with the clock readings of [rounding_corpus] and
    [rounding_env] one repetition completes, the [total_time] sample is
    5.538712129868504, and the build time plus twice the [transpile_time]
    sample is 5.538712129868503 as a double; as exact numbers too the
    stored total differs from the build time plus twice the transpile
    time. *)
Lemma total_time_rounding_counterexample :
  ∃ self w self' w' (build transpile total : float) (qb qt qtotal : Q),
    rounding_runner 1 "false" empty_world = (Ok self, w) ∧
    run_case example_numpy (rounding_env "adder.qasm") self "adder.qasm" w
      = (Ok self', w') ∧
    get_sample (metric_data self') "adder.qasm" "parsing/build_time (seconds)"
      = Ok [VFloat build] ∧
    get_sample (metric_data self') "adder.qasm" "transpile_time (seconds)"
      = Ok [VFloat transpile] ∧
    get_sample (metric_data self') "adder.qasm" "total_time (seconds)"
      = Ok [VFloat total] ∧
    total = 5.538712129868504%float ∧
    (build + 2 * transpile)%float = 5.538712129868503%float ∧
    total ≠ (build + 2 * transpile)%float ∧
    exact_value build = Some qb ∧ exact_value transpile = Some qt ∧
    exact_value total = Some qtotal ∧
    ¬ (qtotal == qb + 2 * qt)%Q.
Proof.
  eexists _, _, _, _, _, _, _, _, _, _.
  split; [vm_compute; reflexivity|].
  split; [vm_compute; reflexivity|].
  split; [vm_compute; reflexivity|].
  split; [vm_compute; reflexivity|].
  split; [vm_compute; reflexivity|].
  split; [vm_compute; reflexivity|].
  split; [vm_compute; reflexivity|].
  split.
  { intros H. apply (f_equal Prim2SF) in H. vm_compute in H. discriminate H. }
  split; [vm_compute; reflexivity|].
  split; [vm_compute; reflexivity|].
  split; [vm_compute; reflexivity|].
  intros H. vm_compute in H. discriminate H.
Qed.

(** C3 (as amended): after the repetitions and statistics of one benchmark
    with repetition count n, the samples of [total_time], [transpile_time],
    [depth] and [memory_footprint] have length exactly n, and the sample of
    [build_time] has length exactly 1, the time measured once at load. *)
Theorem sample_lengths_after_case {gate} (numpy : Numpy)
    (env : nat → Measurement gate) (self self' : Runner) (name : string)
    (build_time : float) (w w' : World) :
  metric_data self !! name = Some (new_entry build_time) →
  run_case numpy env self name w = (Ok self', w') →
  ∃ total build transpile depth memory : list value,
    has_samples (metric_data self') name total build transpile depth memory ∧
    length total = Z.to_nat (num_runs self) ∧
    length transpile = Z.to_nat (num_runs self) ∧
    length depth = Z.to_nat (num_runs self) ∧
    length memory = Z.to_nat (num_runs self) ∧
    build = [VFloat build_time] ∧
    length build = 1%nat.
Proof.
  intros Hnew Hrun.
  destruct (run_case_samples numpy env self self' name build_time w w' Hnew Hrun)
    as (ds & Hlen & Hs).
  eexists _, _, _, _, _. split; [exact Hs|].
  rewrite !length_fmap, !length_seq. done.
Qed.

Lemma sample_lengths_after_case_witness :
  metric_data (adder_runner 3 "false") !! "adder.qasm"
    = Some (new_entry 0.5) ∧
  ∃ self' w',
    run_case example_numpy (example_env "adder.qasm") (adder_runner 3 "false")
      "adder.qasm" empty_world = (Ok self', w') ∧
    ∃ total build transpile depth memory : list value,
      has_samples (metric_data self') "adder.qasm"
        total build transpile depth memory ∧
      length total = Z.to_nat 3 ∧
      length transpile = Z.to_nat 3 ∧
      length depth = Z.to_nat 3 ∧
      length memory = Z.to_nat 3 ∧
      build = [VFloat 0.5] ∧
      length build = 1%nat.
Proof.
  assert (Hnew : metric_data (adder_runner 3 "false") !! "adder.qasm"
                 = Some (new_entry 0.5)) by (vm_compute; reflexivity).
  split; [exact Hnew|].
  destruct (run_case example_numpy (example_env "adder.qasm")
              (adder_runner 3 "false") "adder.qasm" empty_world)
    as [[self'|e] w'] eqn:Hrun.
  - exists self', w'. split; [reflexivity|].
    exact (sample_lengths_after_case example_numpy (example_env "adder.qasm")
             (adder_runner 3 "false") self' "adder.qasm" 0.5%float
             empty_world w' Hnew Hrun).
  - vm_compute in Hrun. discriminate Hrun.
Defined.

(** C3 as stated fails: with two repetitions the run of the example
    benchmark completes, and its [build_time] sample holds one value, not
    two. *)
Lemma build_time_sample_counterexample :
  (example_runner 2 "false" empty_world).1 = Ok (adder_runner 2 "false") ∧
  ∃ self' w',
    run_case example_numpy (example_env "adder.qasm") (adder_runner 2 "false")
      "adder.qasm" empty_world = (Ok self', w') ∧
    get_sample (metric_data self') "adder.qasm" "parsing/build_time (seconds)"
      = Ok [VFloat 0.5] ∧
    length [VFloat 0.5] ≠ Z.to_nat (num_runs (adder_runner 2 "false")).
Proof.
  split; [vm_compute; reflexivity|].
  eexists _, _. split; [vm_compute; reflexivity|].
  split; [vm_compute; reflexivity | vm_compute; discriminate].
Qed.
(** ** Values and their JSON form *)

Lemma value_size_elem_of (l : list value) (v : value) :
  v ∈ l → (value_size v ≤ sum_list (value_size <$> l))%nat.
Proof.
  induction l as [|x l IH]; intros Hin; [by apply elem_of_nil in Hin|].
  apply elem_of_cons in Hin as [-> | Hin]; csimpl; [lia|].
  specialize (IH Hin). lia.
Qed.

Lemma value_size_lookup (d : gmap string value) (k : string) (v : value) :
  d !! k = Some v → (value_size v < value_size (VDict d))%nat.
Proof.
  intros Hk. simpl.
  rewrite (map_fold_delete_L _ _ k v d); [lia | | done].
  intros. lia.
Qed.

Lemma json_roundtrip_idemp_size (n : nat) :
  ∀ v, (value_size v < n)%nat →
  json_roundtrip (json_roundtrip v) = json_roundtrip v.
Proof.
  induction n as [|n IH]; intros v Hn; [lia|].
  assert (Hlist : ∀ l, (sum_list (value_size <$> l) < n)%nat →
            json_roundtrip <$> (json_roundtrip <$> l) = json_roundtrip <$> l).
  { intros l Hl. rewrite <- list_fmap_compose.
    apply list_fmap_ext. intros i x Hx. simpl. apply IH.
    apply list_elem_of_lookup_2 in Hx. apply value_size_elem_of in Hx. lia. }
  destruct v as [| | |l|l|d]; simpl in *; try done.
  - rewrite Hlist by lia. done.
  - rewrite Hlist by lia. done.
  - f_equal. apply map_eq. intros k. rewrite !lookup_fmap.
    destruct (d !! k) as [x|] eqn:Hk; simpl; [|done].
    f_equal. apply IH. apply value_size_lookup in Hk. simpl in Hk. lia.
Qed.

(** Reading back what was written and writing it again changes nothing. *)
Lemma json_roundtrip_idemp (v : value) :
  json_roundtrip (json_roundtrip v) = json_roundtrip v.
Proof. apply (json_roundtrip_idemp_size (S (value_size v))). lia. Qed.

(** ** The result store *)

Lemma string_length_app (s t : string) :
  String.length (s +:+ t) = (String.length s + String.length t)%nat.
Proof.
  induction s as [|a s IH]; [done|].
  change (S (String.length (s +:+ t))
          = S (String.length s + String.length t)%nat).
  by rewrite IH.
Qed.

Lemma string_app_inv_tail (s1 s2 t : string) : s1 +:+ t = s2 +:+ t → s1 = s2.
Proof.
  revert s2. induction s1 as [|a s1 IH]; intros [|b s2] H.
  - done.
  - exfalso. apply (f_equal String.length) in H.
    rewrite !string_length_app in H. simpl in H. lia.
  - exfalso. apply (f_equal String.length) in H.
    rewrite !string_length_app in H. simpl in H. lia.
  - change (String a (s1 +:+ t) = String b (s2 +:+ t)) in H.
    injection H as -> H. f_equal. by apply IH.
Qed.

#[global] Instance results_path_inj : Inj (=) (=) results_path.
Proof.
  intros n m H. unfold results_path in H.
  apply (inj (String.app "results_run")) in H.
  apply string_app_inv_tail in H. by apply (inj pretty) in H.
Qed.

Lemma results_path_not_ds_store (n : nat) : ".DS_Store" ≠ results_path n.
Proof. unfold results_path. intros H. discriminate H. Qed.

(** What [save_results] does when the flag is not ["true"]. *)
Lemma save_results_primary (self : Runner) (w : World) :
  second_compiler_readout self ≠ "true" →
  save_results self w =
  (Ok (),
   {| results_dir :=
        Some (<[results_path (size (result_files w) + 1) :=
                  JsonFile (VList [json_roundtrip (VDict (metric_data self))])]>
                (result_files w));
      stdout := stdout w |}).
Proof.
  intros Hflag. unfold save_results, result_files.
  rewrite bool_decide_eq_false_2 by done.
  unfold mbind, M_bind, ensure_results, set_results.
  by destruct (results_dir w).
Qed.

(** What [save_results] does when the flag is ["true"]. *)
Lemma save_results_secondary (self : Runner) (w : World) :
  second_compiler_readout self = "true" →
  let d := result_files w in
  let path := results_path (size d) in
  save_results self w =
  match d !! path with
  | None => (Raise FileNotFoundError,
             {| results_dir := Some d; stdout := stdout w |})
  | Some BinaryFile => (Raise UnicodeDecodeError,
                        {| results_dir := Some d; stdout := stdout w |})
  | Some OtherFile => (Raise JSONDecodeError,
                       {| results_dir := Some d; stdout := stdout w |})
  | Some (JsonFile (VList data)) =>
      (Ok (),
       {| results_dir :=
            Some (<[path := JsonFile (json_roundtrip
                              (VList (data ++ [VDict (metric_data self)])))]> d);
          stdout := stdout w |})
  | Some (JsonFile _) => (Raise AttributeError,
                          {| results_dir := Some d; stdout := stdout w |})
  end.
Proof.
  intros Hflag d path. subst d path. unfold save_results, result_files.
  rewrite bool_decide_eq_true_2 by done.
  unfold mbind, M_bind, ensure_results, set_results, lift.
  destruct (results_dir w) as [d0|]; simpl; rewrite !Nat.add_sub.
  - destruct (delete ".DS_Store" d0 !! _) as [[[]| |]|]; done.
  - destruct (delete ".DS_Store" ∅ !! _) as [[[]| |]|]; done.
Qed.

Lemma numbered_size (d : gmap string file) (k : nat) :
  numbered d k → size d = k.
Proof.
  unfold numbered. intros Hd.
  rewrite <- size_dom, Hd, size_list_to_set.
  - by rewrite length_fmap, length_seq.
  - apply NoDup_fmap; [apply _ | apply NoDup_seq].
Qed.

Lemma numbered_lookup (d : gmap string file) (k n : nat) :
  numbered d k → is_Some (d !! results_path n) ↔ (1 ≤ n ≤ k)%nat.
Proof.
  unfold numbered. intros Hd.
  rewrite <- elem_of_dom, Hd, elem_of_list_to_set, list_elem_of_fmap.
  split.
  - intros (i & Heq & Hi). apply (inj results_path) in Heq. subst i.
    apply elem_of_seq in Hi. lia.
  - intros Hn. exists n. split; [done|]. apply elem_of_seq. lia.
Qed.

Lemma numbered_highest_index (d : gmap string file) (k : nat) :
  numbered d k → highest_index d k.
Proof.
  intros Hd. split.
  - destruct k as [|k]; [by left | right].
    apply (numbered_lookup d (S k) (S k) Hd). lia.
  - intros n Hn. apply eq_None_not_Some.
    rewrite (numbered_lookup d k n Hd). lia.
Qed.

Lemma result_files_insert (d : gmap string file) (n : nat) (f : file)
    (out : list string) :
  result_files {| results_dir := Some (<[results_path n := f]> (delete ".DS_Store" d));
                  stdout := out |}
  = <[results_path n := f]> (delete ".DS_Store" d).
Proof.
  unfold result_files. simpl.
  rewrite delete_insert_ne by apply results_path_not_ds_store.
  f_equal. apply delete_id. apply lookup_delete_eq.
Qed.


(** X1: when the flag is not ["true"] and the results directory holds
    exactly the result files of runs 1 to k (a [.DS_Store] apart),
    [save_results] succeeds, creates [results_run(k+1).json] holding the
    one-element sequence of the record, changes no other file, and leaves
    the directory holding exactly the result files of runs 1 to k + 1; the
    index of the new file is one past the highest index there was. *)
Theorem primary_save_numbered (self : Runner) (w : World) (k : nat) :
  second_compiler_readout self ≠ "true" →
  numbered (result_files w) k →
  ∃ w',
    save_results self w = (Ok (), w') ∧
    stdout w' = stdout w ∧
    result_files w !! results_path (S k) = None ∧
    highest_index (result_files w) k ∧
    result_files w' =
      <[results_path (S k) :=
          JsonFile (VList [json_roundtrip (VDict (metric_data self))])]>
        (result_files w) ∧
    numbered (result_files w') (S k).
Proof.
  intros Hflag Hk.
  set (d := result_files w) in *.
  set (written := JsonFile (VList [json_roundtrip (VDict (metric_data self))])).
  set (w' := {| results_dir := Some (<[results_path (S k) := written]> d);
                stdout := stdout w |}).
  assert (Hfiles : result_files w' = <[results_path (S k) := written]> d)
    by apply (result_files_insert (default ∅ (results_dir w))).
  exists w'. split.
  { rewrite (save_results_primary self w Hflag). fold d.
    rewrite (numbered_size d k Hk). by rewrite Nat.add_1_r. }
  split; [done|]. split.
  { apply eq_None_not_Some. rewrite (numbered_lookup d k (S k) Hk). lia. }
  split; [by apply numbered_highest_index|]. split; [done|].
  rewrite Hfiles. unfold numbered in *. rewrite dom_insert_L, Hk.
  rewrite seq_S, fmap_app, list_to_set_app_L. simpl.
  rewrite (right_id_L ∅ (∪)). apply (comm_L (∪)).
Qed.

Lemma primary_save_numbered_witness :
  second_compiler_readout (adder_runner 1 "false") ≠ "true" ∧
  numbered (result_files empty_world) 0 ∧
  ∃ w',
    save_results (adder_runner 1 "false") empty_world = (Ok (), w') ∧
    stdout w' = stdout empty_world ∧
    result_files empty_world !! results_path 1 = None ∧
    highest_index (result_files empty_world) 0 ∧
    result_files w' =
      <[results_path 1 :=
          JsonFile (VList [json_roundtrip
                             (VDict (metric_data (adder_runner 1 "false")))])]>
        (result_files empty_world) ∧
    numbered (result_files w') 1.
Proof.
  assert (H1 : second_compiler_readout (adder_runner 1 "false") ≠ "true")
    by (simpl; discriminate).
  assert (H2 : numbered (result_files empty_world) 0) by reflexivity.
  split; [exact H1|]. split; [exact H2|].
  exact (primary_save_numbered (adder_runner 1 "false") empty_world 0 H1 H2).
Defined.

(** X2: the run index is the number of files plus one, whatever the files
    are called.  When the file of that index already exists, a save with
    the flag not ["true"] replaces its content and the number of files
    stays the same; a save with the flag ["true"] that follows then looks
    for the file of the previous index, and raises [FileNotFoundError]
    when there is none, leaving the first record alone in its file. *)
Theorem primary_save_overwrites (primary secondary : Runner) (w : World)
    (old : file) :
  second_compiler_readout primary ≠ "true" →
  second_compiler_readout secondary = "true" →
  let d := result_files w in
  let written :=
    JsonFile (VList [json_roundtrip (VDict (metric_data primary))]) in
  d !! results_path (size d + 1) = Some old →
  d !! results_path (size d) = None →
  ∃ w1,
    save_results primary w = (Ok (), w1) ∧
    result_files w1 = <[results_path (size d + 1) := written]> d ∧
    size (result_files w1) = size d ∧
    save_results secondary w1 = (Raise FileNotFoundError, w1).
Proof.
  intros Hp Hs d written Hold Hprev.
  set (path := results_path (size d + 1)) in *.
  set (w1 := {| results_dir := Some (<[path := written]> d); stdout := stdout w |}).
  assert (Hfiles : result_files w1 = <[path := written]> d)
    by apply (result_files_insert (default ∅ (results_dir w))).
  assert (Hsize : size (result_files w1) = size d).
  { rewrite Hfiles. apply map_size_insert_Some. eauto. }
  exists w1. split; [by apply save_results_primary|].
  split; [done|]. split; [done|].
  rewrite (save_results_secondary _ _ Hs). cbv zeta.
  rewrite Hsize, Hfiles.
  rewrite lookup_insert_ne, Hprev.
  - unfold w1. simpl. by rewrite <- Hfiles.
  - unfold path. intros Heq. apply (inj results_path) in Heq. lia.
Qed.

Lemma primary_save_overwrites_witness :
  let w := {| results_dir :=
                Some {[ "results_run2.json" := JsonFile (VList []) ]};
              stdout := [] |} in
  second_compiler_readout (adder_runner 1 "false") ≠ "true" ∧
  second_compiler_readout (adder_runner 1 "true") = "true" ∧
  result_files w !! results_path (size (result_files w) + 1)
    = Some (JsonFile (VList [])) ∧
  result_files w !! results_path (size (result_files w)) = None ∧
  ∃ w1,
    save_results (adder_runner 1 "false") w = (Ok (), w1) ∧
    result_files w1 =
      <[results_path (size (result_files w) + 1) :=
          JsonFile (VList [json_roundtrip
                             (VDict (metric_data (adder_runner 1 "false")))])]>
        (result_files w) ∧
    size (result_files w1) = size (result_files w) ∧
    save_results (adder_runner 1 "true") w1 = (Raise FileNotFoundError, w1).
Proof.
  intros w.
  assert (H1 : second_compiler_readout (adder_runner 1 "false") ≠ "true")
    by (simpl; discriminate).
  assert (H2 : second_compiler_readout (adder_runner 1 "true") = "true")
    by reflexivity.
  assert (H3 : result_files w !! results_path (size (result_files w) + 1)
               = Some (JsonFile (VList []))) by (vm_compute; reflexivity).
  assert (H4 : result_files w !! results_path (size (result_files w)) = None)
    by (vm_compute; reflexivity).
  split; [exact H1|]. split; [exact H2|]. split; [exact H3|]. split; [exact H4|].
  exact (primary_save_overwrites (adder_runner 1 "false") (adder_runner 1 "true")
           w (JsonFile (VList [])) H1 H2 H3 H4).
Defined.

(** X3: with the flag ["true"] and no result file in the results
    directory, [save_results] raises [FileNotFoundError]; afterwards the
    directory still holds no result file, and apart from [.DS_Store] every
    name holds what it held. *)
Theorem secondary_save_without_primary (self : Runner) (w : World) :
  second_compiler_readout self = "true" →
  (∀ n, default ∅ (results_dir w) !! results_path n = None) →
  save_results self w =
    (Raise FileNotFoundError,
     {| results_dir := Some (result_files w); stdout := stdout w |}) ∧
  (∀ n, result_files w !! results_path n = None) ∧
  (∀ name, name ≠ ".DS_Store" →
           result_files w !! name = default ∅ (results_dir w) !! name).
Proof.
  intros Hflag Hnone.
  assert (Hfiles : ∀ n, result_files w !! results_path n = None).
  { intros n. unfold result_files.
    rewrite lookup_delete_ne by apply results_path_not_ds_store. apply Hnone. }
  split; [|split; [done|]].
  - rewrite (save_results_secondary self w Hflag). cbv zeta. by rewrite Hfiles.
  - intros name Hne. unfold result_files. by rewrite lookup_delete_ne.
Qed.

Lemma secondary_save_without_primary_witness :
  second_compiler_readout (adder_runner 1 "true") = "true" ∧
  (∀ n, default ∅ (results_dir empty_world) !! results_path n = None) ∧
  save_results (adder_runner 1 "true") empty_world =
    (Raise FileNotFoundError,
     {| results_dir := Some (result_files empty_world);
        stdout := stdout empty_world |}).
Proof.
  assert (H1 : second_compiler_readout (adder_runner 1 "true") = "true")
    by reflexivity.
  assert (H2 : ∀ n, default ∅ (results_dir empty_world) !! results_path n = None)
    by (intros n; reflexivity).
  split; [exact H1|]. split; [exact H2|].
  exact (proj1 (secondary_save_without_primary (adder_runner 1 "true")
                  empty_world H1 H2)).
Defined.

(** X4: a save with the flag not ["true"] followed by a save
    with the flag ["true"] leaves, in the file the first save wrote, exactly
    the two-element sequence of the first record and the second record in
    that order, provided the first save created that file, that is, the
    results directory held no file of that name. *)
Theorem primary_then_secondary (primary secondary : Runner) (w : World) :
  second_compiler_readout primary ≠ "true" →
  second_compiler_readout secondary = "true" →
  let d := result_files w in
  let path := results_path (size d + 1) in
  d !! path = None →
  ∃ w1 w2,
    save_results primary w = (Ok (), w1) ∧
    save_results secondary w1 = (Ok (), w2) ∧
    results_dir w2 =
      Some (<[path := JsonFile
                        (VList [json_roundtrip (VDict (metric_data primary));
                                json_roundtrip (VDict (metric_data secondary))])]> d).
Proof.
  intros Hp Hs d path Hnew.
  set (written := JsonFile (VList [json_roundtrip (VDict (metric_data primary))])).
  set (w1 := {| results_dir := Some (<[path := written]> d); stdout := stdout w |}).
  assert (Hfiles : result_files w1 = <[path := written]> d)
    by apply (result_files_insert (default ∅ (results_dir w))).
  exists w1. eexists. split; [by apply save_results_primary|].
  rewrite (save_results_secondary _ _ Hs). cbv zeta.
  rewrite Hfiles, map_size_insert_None by done.
  replace (S (size d)) with (size d + 1)%nat by lia. fold path.
  rewrite lookup_insert_eq. unfold written at 1. split; [reflexivity|].
  cbn [results_dir]. rewrite insert_insert_eq.
  do 3 f_equal. cbn [json_roundtrip fmap list_fmap app].
  pose proof (json_roundtrip_idemp (VDict (metric_data primary))) as Hidem.
  cbn [json_roundtrip] in Hidem. by rewrite Hidem.
Qed.

Lemma primary_then_secondary_witness :
  second_compiler_readout (adder_runner 1 "false") ≠ "true" ∧
  second_compiler_readout (adder_runner 2 "true") = "true" ∧
  result_files empty_world
    !! results_path (size (result_files empty_world) + 1) = None ∧
  ∃ w1 w2,
    save_results (adder_runner 1 "false") empty_world = (Ok (), w1) ∧
    save_results (adder_runner 2 "true") w1 = (Ok (), w2) ∧
    results_dir w2 =
      Some (<[results_path (size (result_files empty_world) + 1) :=
                JsonFile
                  (VList [json_roundtrip (VDict (metric_data (adder_runner 1 "false")));
                          json_roundtrip (VDict (metric_data (adder_runner 2 "true")))])]>
              (result_files empty_world)).
Proof.
  assert (H1 : second_compiler_readout (adder_runner 1 "false") ≠ "true")
    by (simpl; discriminate).
  assert (H2 : second_compiler_readout (adder_runner 2 "true") = "true")
    by reflexivity.
  assert (H3 : result_files empty_world
                 !! results_path (size (result_files empty_world) + 1) = None)
    by reflexivity.
  split; [exact H1|]. split; [exact H2|]. split; [exact H3|].
  exact (primary_then_secondary (adder_runner 1 "false") (adder_runner 2 "true")
           empty_world H1 H2 H3).
Defined.

(** X5: a save with the flag ["true"] appends its record to the sequence
    held by the file whose index is the number of files, however many
    records that sequence already holds; the number of files does not
    change, so a further such save appends to the same file again. *)
Theorem secondary_save_appends (self other : Runner) (w : World)
    (data : list value) :
  second_compiler_readout self = "true" →
  second_compiler_readout other = "true" →
  let d := result_files w in
  let path := results_path (size d) in
  d !! path = Some (JsonFile (VList data)) →
  ∃ w1 w2,
    save_results self w = (Ok (), w1) ∧
    result_files w1 =
      <[path := JsonFile (VList ((json_roundtrip <$> data)
                                 ++ [json_roundtrip (VDict (metric_data self))]))]> d ∧
    size (result_files w1) = size d ∧
    save_results other w1 = (Ok (), w2) ∧
    result_files w2 =
      <[path := JsonFile (VList ((json_roundtrip <$> data)
                                 ++ [json_roundtrip (VDict (metric_data self));
                                     json_roundtrip (VDict (metric_data other))]))]> d.
Proof.
  intros Hs Ho d path Hdata.
  set (f1 := JsonFile (VList ((json_roundtrip <$> data)
                 ++ [json_roundtrip (VDict (metric_data self))]))).
  set (w1 := {| results_dir := Some (<[path := f1]> d); stdout := stdout w |}).
  assert (Hfiles1 : result_files w1 = <[path := f1]> d)
    by apply (result_files_insert (default ∅ (results_dir w))).
  assert (Hsize1 : size (result_files w1) = size d).
  { rewrite Hfiles1. apply map_size_insert_Some. eauto. }
  assert (Hsave1 : save_results self w = (Ok (), w1)).
  { rewrite (save_results_secondary _ _ Hs). cbv zeta. fold d. fold path.
    rewrite Hdata. unfold w1, f1. cbn [json_roundtrip].
    by rewrite fmap_app. }
  set (f2 := JsonFile (VList ((json_roundtrip <$> data)
                 ++ [json_roundtrip (VDict (metric_data self));
                     json_roundtrip (VDict (metric_data other))]))).
  exists w1, {| results_dir := Some (<[path := f2]> d); stdout := stdout w |}.
  split; [done|]. split; [done|]. split; [done|]. split.
  - rewrite (save_results_secondary _ _ Ho). cbv zeta.
    rewrite Hsize1, Hfiles1. fold path. rewrite lookup_insert_eq.
    unfold f1 at 1. rewrite insert_insert_eq. unfold f2. cbn [stdout w1].
    do 5 f_equal. cbn [json_roundtrip]. rewrite !fmap_app. cbn [fmap list_fmap].
    rewrite <- list_fmap_compose.
    rewrite (list_fmap_ext (json_roundtrip ∘ json_roundtrip) json_roundtrip data)
      by (intros; apply json_roundtrip_idemp).
    change (VDict (json_roundtrip <$> metric_data self))
      with (json_roundtrip (VDict (metric_data self))).
    rewrite json_roundtrip_idemp, <- app_assoc. reflexivity.
  - apply (result_files_insert (default ∅ (results_dir w))).
Qed.

Lemma secondary_save_appends_witness :
  let w := {| results_dir :=
                Some {[ "results_run1.json" :=
                          JsonFile (VList [VStr "first"; VStr "second"]) ]};
              stdout := [] |} in
  second_compiler_readout (adder_runner 1 "true") = "true" ∧
  second_compiler_readout (adder_runner 2 "true") = "true" ∧
  result_files w !! results_path (size (result_files w))
    = Some (JsonFile (VList [VStr "first"; VStr "second"])) ∧
  ∃ w1 w2,
    save_results (adder_runner 1 "true") w = (Ok (), w1) ∧
    result_files w1 =
      <[results_path (size (result_files w)) :=
          JsonFile (VList ((json_roundtrip <$> [VStr "first"; VStr "second"])
             ++ [json_roundtrip (VDict (metric_data (adder_runner 1 "true")))]))]>
        (result_files w) ∧
    size (result_files w1) = size (result_files w) ∧
    save_results (adder_runner 2 "true") w1 = (Ok (), w2) ∧
    result_files w2 =
      <[results_path (size (result_files w)) :=
          JsonFile (VList ((json_roundtrip <$> [VStr "first"; VStr "second"])
             ++ [json_roundtrip (VDict (metric_data (adder_runner 1 "true")));
                 json_roundtrip (VDict (metric_data (adder_runner 2 "true")))]))]>
        (result_files w).
Proof.
  intros w.
  assert (H1 : second_compiler_readout (adder_runner 1 "true") = "true")
    by reflexivity.
  assert (H2 : second_compiler_readout (adder_runner 2 "true") = "true")
    by reflexivity.
  assert (H3 : result_files w !! results_path (size (result_files w))
               = Some (JsonFile (VList [VStr "first"; VStr "second"])))
    by (vm_compute; reflexivity).
  split; [exact H1|]. split; [exact H2|]. split; [exact H3|].
  exact (secondary_save_appends (adder_runner 1 "true") (adder_runner 2 "true")
           w [VStr "first"; VStr "second"] H1 H2 H3).
Defined.



(** ** A primary save and its secondary save *)

Lemma numbered_insert_next (d : gmap string file) (k : nat) (f : file) :
  numbered d k → numbered (<[results_path (S k) := f]> d) (S k).
Proof.
  unfold numbered. intros Hk. rewrite dom_insert_L, Hk.
  rewrite seq_S, fmap_app, list_to_set_app_L. simpl.
  rewrite (right_id_L ∅ (∪)). apply (comm_L (∪)).
Qed.

Lemma numbered_insert_last (d : gmap string file) (k : nat) (f : file) :
  numbered d k → is_Some (d !! results_path k) →
  numbered (<[results_path k := f]> d) k.
Proof.
  unfold numbered. intros Hk Hin. rewrite dom_insert_L, <- Hk.
  apply elem_of_dom in Hin. apply subseteq_union_1_L.
  by apply singleton_subseteq_l.
Qed.

Lemma json_roundtrip_list_idemp (l : list value) :
  json_roundtrip <$> (json_roundtrip <$> l) = json_roundtrip <$> l.
Proof.
  rewrite <- list_fmap_compose. apply list_fmap_ext.
  intros i x _. apply json_roundtrip_idemp.
Qed.

Lemma saved_record_idemp (self : Runner) :
  json_roundtrip <$> saved_record self = saved_record self.
Proof.
  unfold saved_record. rewrite <- map_fmap_compose. apply map_fmap_ext.
  intros key x _. apply json_roundtrip_idemp.
Qed.

Lemma result_files_kept (d : gmap string file) (out : list string) :
  result_files {| results_dir := Some (delete ".DS_Store" d); stdout := out |}
  = delete ".DS_Store" d.
Proof.
  unfold result_files. simpl. apply delete_id. apply lookup_delete_eq.
Qed.



(** C6: with the flag ["true"] and no result file in the results
    directory, [save_results] raises [FileNotFoundError], which nothing
    catches, and writes no result file: the files are those there were
    ([.DS_Store] deleted, a missing directory created empty), none of them
    a result file, and nothing is printed. *)
Theorem secondary_save_without_prior_file (self : Runner) (w : World) :
  second_compiler_readout self = "true" →
  (∀ n, result_files w !! results_path n = None) →
  ∃ w',
    save_results self w = (Raise FileNotFoundError, w') ∧
    result_files w' = result_files w ∧
    stdout w' = stdout w ∧
    (∀ n, result_files w' !! results_path n = None).
Proof.
  intros Hflag Hnone.
  exists {| results_dir := Some (result_files w); stdout := stdout w |}.
  assert (Hkept : result_files
                    {| results_dir := Some (result_files w); stdout := stdout w |}
                  = result_files w)
    by apply (result_files_kept (default ∅ (results_dir w))).
  split.
  { rewrite (save_results_secondary self w Hflag). cbv zeta.
    by rewrite Hnone. }
  split; [exact Hkept|]. split; [reflexivity|].
  intros n. rewrite Hkept. apply Hnone.
Qed.

Lemma secondary_save_without_prior_file_witness :
  let w := {| results_dir := Some {[ ".DS_Store" := OtherFile ]};
              stdout := [] |} in
  second_compiler_readout (adder_runner 1 "true") = "true" ∧
  (∀ n, result_files w !! results_path n = None) ∧
  ∃ w',
    save_results (adder_runner 1 "true") w = (Raise FileNotFoundError, w') ∧
    result_files w' = result_files w ∧
    stdout w' = stdout w ∧
    (∀ n, result_files w' !! results_path n = None).
Proof.
  intros w.
  assert (H1 : second_compiler_readout (adder_runner 1 "true") = "true")
    by reflexivity.
  assert (H2 : ∀ n, result_files w !! results_path n = None).
  { intros n. unfold result_files, w. simpl.
    rewrite delete_singleton_eq. apply lookup_empty. }
  split; [exact H1|]. split; [exact H2|].
  exact (secondary_save_without_prior_file (adder_runner 1 "true") w H1 H2).
Defined.

(** C7 (as amended): when the flag is not ["true"], [save_results] writes
    the one-element sequence of the record to the file whose run index is
    the number of files in the results directory plus one, replacing that
    file if there is one, and changes no other file.  When the directory
    holds exactly the result files of runs 1 to k, that index is one past
    the highest index there is, the file is new, and no result file is
    overwritten. *)
Theorem primary_save_index (self : Runner) (w : World) :
  second_compiler_readout self ≠ "true" →
  ∃ w',
    save_results self w = (Ok (), w') ∧
    result_files w' =
      <[results_path (size (result_files w) + 1) :=
          JsonFile (VList [VDict (saved_record self)])]> (result_files w) ∧
    (∀ name, name ≠ results_path (size (result_files w) + 1) →
             result_files w' !! name = result_files w !! name) ∧
    (∀ k, numbered (result_files w) k →
          highest_index (result_files w) k ∧
          results_path (size (result_files w) + 1) = results_path (S k) ∧
          result_files w !! results_path (S k) = None ∧
          (∀ n, (n ≤ k)%nat →
                result_files w' !! results_path n
                = result_files w !! results_path n) ∧
          numbered (result_files w') (S k)).
Proof.
  intros Hflag.
  set (d := result_files w) in *.
  set (written := JsonFile (VList [VDict (saved_record self)])).
  set (w' := {| results_dir := Some (<[results_path (size d + 1) := written]> d);
                stdout := stdout w |}).
  assert (Hfiles : result_files w' = <[results_path (size d + 1) := written]> d)
    by apply (result_files_insert (default ∅ (results_dir w))).
  exists w'. split; [by apply save_results_primary|].
  split; [exact Hfiles|]. split.
  { intros name Hne. rewrite Hfiles. by rewrite lookup_insert_ne. }
  intros k Hk. rewrite Hfiles, (numbered_size d k Hk), Nat.add_1_r.
  split; [by apply numbered_highest_index|]. split; [reflexivity|]. split.
  { apply eq_None_not_Some. rewrite (numbered_lookup d k (S k) Hk). lia. }
  split.
  { intros n Hn. rewrite lookup_insert_ne; [done|].
    intros Heq. apply (inj results_path) in Heq. lia. }
  by apply numbered_insert_next.
Qed.

Lemma primary_save_index_witness :
  let w := {| results_dir :=
                Some {[ "results_run1.json" := JsonFile (VList [VStr "earlier"]) ]};
              stdout := [] |} in
  second_compiler_readout (adder_runner 1 "false") ≠ "true" ∧
  numbered (result_files w) 1 ∧
  ∃ w',
    save_results (adder_runner 1 "false") w = (Ok (), w') ∧
    result_files w' =
      <[results_path (size (result_files w) + 1) :=
          JsonFile (VList [VDict (saved_record (adder_runner 1 "false"))])]>
        (result_files w) ∧
    highest_index (result_files w) 1 ∧
    results_path (size (result_files w) + 1) = results_path 2 ∧
    result_files w !! results_path 2 = None ∧
    numbered (result_files w') 2.
Proof.
  intros w.
  assert (H1 : second_compiler_readout (adder_runner 1 "false") ≠ "true")
    by (simpl; discriminate).
  assert (H2 : numbered (result_files w) 1).
  { unfold numbered. apply (bool_decide_unpack _). vm_compute. exact I. }
  split; [exact H1|]. split; [exact H2|].
  destruct (primary_save_index (adder_runner 1 "false") w H1)
    as (w' & Hsave & Hfiles & _ & Hnum).
  destruct (Hnum 1%nat H2) as (Hhigh & Hpath & Hnew & _ & Hnum').
  exists w'. split; [exact Hsave|]. split; [exact Hfiles|].
  split; [exact Hhigh|]. split; [exact Hpath|]. split; [exact Hnew|].
  exact Hnum'.
Defined.

(** C7 as stated fails: in a directory holding the result files of runs 1
    and 3, the highest index is 3 and the number of files is 2; a save with
    the flag not ["true"] writes [results_run3.json], replacing the result
    file there was, and creates no [results_run4.json]. *)
Lemma run_index_counterexample :
  let old := JsonFile (VList [VStr "third"]) in
  let d : gmap string file :=
    <[results_path 1 := JsonFile (VList [VStr "first"])]>
      (<[results_path 3 := old]> ∅) in
  let w := {| results_dir := Some d; stdout := [] |} in
  second_compiler_readout (adder_runner 1 "false") ≠ "true" ∧
  highest_index (result_files w) 3 ∧
  result_files w !! results_path 3 = Some old ∧
  ∃ w',
    save_results (adder_runner 1 "false") w = (Ok (), w') ∧
    result_files w' !! results_path 4 = None ∧
    result_files w' !! results_path 3
      = Some (JsonFile (VList [VDict (saved_record (adder_runner 1 "false"))])) ∧
    result_files w' !! results_path 3 ≠ Some old.
Proof.
  intros old d w.
  assert (Hd : result_files w = d).
  { unfold result_files, w. simpl. apply delete_id. subst d.
    rewrite !lookup_insert_ne
      by (intros Heq; symmetry in Heq; by apply results_path_not_ds_store in Heq).
    apply lookup_empty. }
  split; [simpl; discriminate|]. split.
  { rewrite Hd. split.
    - right. subst d. rewrite lookup_insert_ne, lookup_insert_eq; [by eexists|].
      intros Heq. apply (inj results_path) in Heq. lia.
    - intros n Hn. subst d.
      rewrite !lookup_insert_ne; [apply lookup_empty| |];
        intros Heq; apply (inj results_path) in Heq; lia. }
  split.
  { rewrite Hd. subst d. rewrite lookup_insert_ne, lookup_insert_eq; [done|].
    intros Heq. apply (inj results_path) in Heq. lia. }
  eexists. split; [vm_compute; reflexivity|].
  split; [vm_compute; reflexivity|]. split; [vm_compute; reflexivity|].
  vm_compute. discriminate.
Qed.
(** ** Statistics *)

Lemma aggregate_of_Ok (numpy : Numpy) (a : list float) (stats : value) :
  aggregate_of numpy a = Ok stats → a ≠ [].
Proof. by destruct a. Qed.

Lemma fold_aggregate_spec (numpy : Numpy) (name : string) (entry : gmap string value)
    (metrics : list string) :
  "aggregate" ∉ metrics →
  ∀ (md md' agg : gmap string value),
  md !! name = Some (VDict (<["aggregate" := VDict agg]> entry)) →
  fold_result (aggregate_step numpy name) metrics md = Ok md' →
  ∃ agg',
    md' = <[name := VDict (<["aggregate" := VDict agg']> entry)]> md ∧
    dom agg' = dom agg ∪ list_to_set metrics ∧
    (∀ metric, metric ∈ metrics →
       ∃ sample a stats,
         entry !! metric = Some sample ∧ np_array numpy sample = Ok a ∧
         aggregate_of numpy a = Ok stats ∧ agg' !! metric = Some stats) ∧
    (∀ metric, metric ∉ metrics → agg' !! metric = agg !! metric).
Proof.
  induction metrics as [|metric metrics IH]; intros Hno md md' agg Hmd Hfold.
  - injection Hfold as <-. exists agg. split.
    { by rewrite insert_id. }
    split; [simpl; by rewrite (right_id_L ∅ (∪))|].
    split; [intros metric Hin; by apply elem_of_nil in Hin | done].
  - apply not_elem_of_cons in Hno as [Hne Hno].
    simpl in Hfold. bind_ok Hfold md1 Hstep.
    unfold aggregate_step, getitem in Hstep. rewrite Hmd in Hstep.
    simpl in Hstep. rewrite lookup_insert_eq in Hstep. simpl in Hstep.
    rewrite insert_insert_eq in Hstep.
    rewrite lookup_insert_ne in Hstep by done.
    destruct (entry !! metric) as [sample|] eqn:Hsample; [|done].
    simpl in Hstep. bind_ok Hstep a Ha. bind_ok Hstep stats Hstats.
    injection Hstep as <-. rewrite insert_insert_eq in Hfold.
    destruct (IH Hno _ md' (<[metric := stats]> agg)
                ltac:(by rewrite lookup_insert_eq) Hfold)
      as (agg' & -> & Hdom & Hin & Hout).
    exists agg'. split; [by rewrite insert_insert_eq|].
    split.
    { rewrite Hdom, dom_insert_L. simpl.
      rewrite (comm_L (∪) {[metric]} (dom agg)).
      by rewrite <- (assoc_L (∪)). }
    split.
    + intros m Hm. apply elem_of_cons in Hm as [-> | Hm]; [|by apply Hin].
      destruct (decide (metric ∈ metrics)) as [Hm | Hm]; [by apply Hin|].
      exists sample, a, stats. rewrite (Hout _ Hm), lookup_insert_eq. done.
    + intros m Hm. apply not_elem_of_cons in Hm as [Hm1 Hm2].
      rewrite (Hout _ Hm2). by rewrite lookup_insert_ne.
Qed.

(** X9: when [calculate_aggregate_statistics] succeeds, the only change to
    [metric_data] is that the entry of the benchmark gets the key
    [aggregate]; under it there is one record of statistics for each
    metric of [metric_list] and for nothing else, each the statistics of
    that metric's sample, which is not empty.  Computing the statistics a
    second time changes nothing. *)
Theorem calculate_aggregate_statistics_stores (numpy : Numpy)
    (self self' : Runner)
    (name : string) :
  calculate_aggregate_statistics numpy self name = Ok self' →
  "aggregate" ∉ metric_list self →
  ∃ entry agg : gmap string value,
    metric_data self !! name = Some (VDict entry) ∧
    metric_data self' =
      <[name := VDict (<["aggregate" := VDict agg]> entry)]> (metric_data self) ∧
    dom agg = list_to_set (metric_list self) ∧
    (∀ metric, metric ∈ metric_list self →
       ∃ sample a stats,
         entry !! metric = Some sample ∧ np_array numpy sample = Ok a ∧ a ≠ [] ∧
         aggregate_of numpy a = Ok stats ∧ agg !! metric = Some stats) ∧
    calculate_aggregate_statistics numpy self' name = Ok self'.
Proof.
  intros Hcalc Hno.
  unfold calculate_aggregate_statistics in Hcalc.
  bind_ok Hcalc e He. bind_ok Hcalc entry Hentry. bind_ok Hcalc md' Hfold.
  injection Hcalc as <-.
  unfold getitem in He. destruct (metric_data self !! name) as [e'|] eqn:Hname;
    [|done]. injection He as ->. destruct e; try done. injection Hentry as ->.
  destruct (fold_aggregate_spec numpy name entry (metric_list self) Hno _ md' ∅
              ltac:(by rewrite lookup_insert_eq) Hfold)
    as (agg & -> & Hdom & Hin & _).
  exists entry, agg. split; [done|].
  rewrite insert_insert_eq. split; [done|]. split.
  { rewrite Hdom, dom_empty_L. by rewrite (left_id_L ∅ (∪)). }
  split.
  { intros metric Hm. destruct (Hin metric Hm) as (sample & a & stats & ? & ? & Hs & ?).
    exists sample, a, stats. repeat split; try done. by eapply aggregate_of_Ok. }
  unfold calculate_aggregate_statistics. cbn [metric_data with_metric_data metric_list].
  unfold getitem. rewrite lookup_insert_eq. cbn [from_option mbind result_bind as_dict].
  rewrite !insert_insert_eq. rewrite Hfold. cbn [mbind result_bind].
  rewrite insert_insert_eq. reflexivity.
Qed.

Lemma calculate_aggregate_statistics_stores_witness :
  ("aggregate" ∉ metric_list measured_runner) ∧
  ∃ self',
    calculate_aggregate_statistics example_numpy measured_runner "adder.qasm" = Ok self' ∧
    ∃ entry agg : gmap string value,
      metric_data measured_runner !! "adder.qasm" = Some (VDict entry) ∧
      metric_data self' =
        <["adder.qasm" := VDict (<["aggregate" := VDict agg]> entry)]>
          (metric_data measured_runner) ∧
      dom agg = list_to_set (metric_list measured_runner) ∧
      (∀ metric, metric ∈ metric_list measured_runner →
         ∃ sample a stats,
           entry !! metric = Some sample ∧
           np_array example_numpy sample = Ok a ∧ a ≠ [] ∧
           aggregate_of example_numpy a = Ok stats ∧
           agg !! metric = Some stats) ∧
      calculate_aggregate_statistics example_numpy self' "adder.qasm" = Ok self'.
Proof.
  assert (Hno : "aggregate" ∉ metric_list measured_runner).
  { apply (bool_decide_unpack _). vm_compute. exact I. }
  split; [exact Hno|].
  destruct (calculate_aggregate_statistics example_numpy measured_runner "adder.qasm")
    as [self'|e] eqn:Hcalc.
  - exists self'. split; [reflexivity|].
    exact (calculate_aggregate_statistics_stores example_numpy measured_runner self'
             "adder.qasm" Hcalc Hno).
  - vm_compute in Hcalc. discriminate Hcalc.
Defined.

(** X10: an empty sample has no statistics.  [aggregate_of] raises
    [ValueError] on the empty array, and with a repetition count of zero or
    less the repetitions of a benchmark append nothing, so that the
    statistics of its first metric, [total_time], raise [ValueError]:
    [run_case] ends with that exception and prints nothing. *)
Theorem no_repetition_no_statistics {gate} (numpy : Numpy)
    (env : nat → Measurement gate)
    (self : Runner) (name : string) (build_time : float) (w : World) :
  metric_data self !! name = Some (new_entry build_time) →
  num_runs self ≤ 0 →
  metric_list self =
    ["total_time (seconds)"; "parsing/build_time (seconds)";
     "transpile_time (seconds)"; "depth (gates)"; "memory_footprint (MiB)"] →
  aggregate_of numpy [] = Raise ValueError ∧
  calculate_aggregate_statistics numpy self name = Raise ValueError ∧
  run_case numpy env self name w = (Raise ValueError, w).
Proof.
  intros Hnew Hruns Hlist.
  assert (Hcalc : calculate_aggregate_statistics numpy self name = Raise ValueError).
  { unfold calculate_aggregate_statistics, getitem. rewrite Hnew, Hlist.
    cbn [from_option mbind result_bind as_dict new_entry fold_result].
    unfold aggregate_step, getitem. rewrite lookup_insert_eq.
    cbn [from_option mbind result_bind as_dict]. rewrite lookup_insert_eq.
    cbn [from_option mbind result_bind as_dict].
    rewrite !insert_insert_eq. rewrite lookup_insert_ne by done.
    rewrite lookup_insert_eq. reflexivity. }
  split; [reflexivity|]. split; [done|].
  unfold run_case. replace (Z.to_nat (num_runs self)) with 0%nat by lia.
  cbn [seq for_each]. unfold mbind, M_bind, mret, M_ret, lift.
  by rewrite Hcalc.
Qed.

Lemma no_repetition_no_statistics_witness :
  metric_data (adder_runner 0 "false") !! "adder.qasm"
    = Some (new_entry 0.5) ∧
  num_runs (adder_runner 0 "false") ≤ 0 ∧
  metric_list (adder_runner 0 "false") =
    ["total_time (seconds)"; "parsing/build_time (seconds)";
     "transpile_time (seconds)"; "depth (gates)"; "memory_footprint (MiB)"] ∧
  run_case example_numpy (example_env "adder.qasm") (adder_runner 0 "false") "adder.qasm"
    empty_world = (Raise ValueError, empty_world).
Proof.
  assert (H1 : metric_data (adder_runner 0 "false") !! "adder.qasm"
               = Some (new_entry 0.5)) by (vm_compute; reflexivity).
  assert (H2 : num_runs (adder_runner 0 "false") ≤ 0) by (simpl; lia).
  assert (H3 : metric_list (adder_runner 0 "false") =
    ["total_time (seconds)"; "parsing/build_time (seconds)";
     "transpile_time (seconds)"; "depth (gates)"; "memory_footprint (MiB)"])
    by reflexivity.
  split; [exact H1|]. split; [exact H2|]. split; [exact H3|].
  exact (proj2 (proj2 (no_repetition_no_statistics example_numpy (example_env "adder.qasm")
           (adder_runner 0 "false") "adder.qasm" 0.5%float empty_world H1 H2 H3))).
Defined.
(** ** More on the depth analysis *)

Lemma count_qubit_sum (d : list (nat * Z)) (q : nat) :
  NoDup d.*1 →
  foldr Z.add 0 (odict_values (count_qubit d q))
  = foldr Z.add 0 (odict_values d) + 1.
Proof.
  intros Hnd. unfold count_qubit, odict_values.
  assert (Hset : ∀ (d : list (nat * Z)) v n, odict_get d q = Some v →
            foldr Z.add 0 (odict_set d q n).*2 = foldr Z.add 0 d.*2 - v + n).
  { clear. induction d as [|[k v'] d IH]; intros v n Hq; [done|].
    simpl in *. case_decide; simplify_eq; csimpl; [lia|].
    rewrite (IH _ _ Hq). lia. }
  assert (Hnew : ∀ (d : list (nat * Z)) n, odict_get d q = None →
            foldr Z.add 0 (odict_set d q n).*2 = foldr Z.add 0 d.*2 + n).
  { clear. induction d as [|[k v'] d IH]; intros n Hq; [simpl; lia|].
    simpl in *. case_decide; simplify_eq; csimpl.
    rewrite (IH _ Hq). lia. }
  destruct (odict_get d q) as [v|] eqn:Hq.
  - rewrite Hq. rewrite (Hset _ _ _ Hq). lia.
  - assert (Hz : odict_get (odict_set d q 0) q = Some 0)
      by (rewrite odict_get_set; apply decide_True; done).
    rewrite Hz. rewrite (Hset _ _ _ Hz), (Hnew _ _ Hq). lia.
Qed.

Lemma foldl_count_qubit_sum (qs : list nat) : ∀ d,
  NoDup d.*1 →
  foldr Z.add 0 (odict_values (foldl count_qubit d qs))
  = foldr Z.add 0 (odict_values d) + Z.of_nat (length qs).
Proof.
  induction qs as [|q qs IH]; intros d Hnd; simpl; [lia|].
  rewrite IH.
  - rewrite count_qubit_sum by done. lia.
  - pose proof (foldl_count_qubit [q] d Hnd) as (H & _). done.
Qed.

(** X11: the counters [get_qubit_depths] returns are at least 1, one for
    each qubit touched by a counted operation, and add up to the number of
    operands of the counted operations; a depth returned by
    [get_circuit_depth] therefore lies between 1 and that number. *)
Theorem counters_add_up {gate} (benchmark : Preprocess gate) :
  let d := (get_qubit_depths benchmark).1 in
  NoDup d.*1 ∧
  (∀ qubit, qubit ∈ d.*1 ↔ qubit ∈ counted_operands benchmark) ∧
  (∀ qubit n, (qubit, n) ∈ d → 1 ≤ n) ∧
  foldr Z.add 0 (odict_values d)
    = Z.of_nat (length (counted_operands benchmark)) ∧
  (∀ depth, (get_circuit_depth benchmark).1 = Ok depth →
            1 ≤ depth ≤ Z.of_nat (length (counted_operands benchmark))).
Proof.
  intros d. unfold d. rewrite get_qubit_depths_eq. cbn [fst].
  pose proof (foldl_count_qubit_nil (counted_operands benchmark)) as [Hnd Hd].
  cbv zeta in Hnd, Hd.
  set (qs := counted_operands benchmark) in *.
  assert (Hpos : ∀ qubit n, (qubit, n) ∈ foldl count_qubit [] qs → 1 ≤ n).
  { intros q n Hin. apply Hd in Hin as [Hq ->].
    pose proof (occurrences_pos q qs Hq). lia. }
  assert (Hle : ∀ q, occurrences q qs ≤ Z.of_nat (length qs)).
  { intros q. unfold occurrences. apply inj_le, length_filter. }
  split; [done|]. split.
  { intros q. split.
    - intros Hin. apply list_elem_of_fmap in Hin as ([k v] & -> & Hkv).
      by apply Hd in Hkv as [? _].
    - intros Hq. apply list_elem_of_fmap.
      exists (q, occurrences q qs). split; [done | by apply Hd]. }
  split; [done|]. split.
  { rewrite foldl_count_qubit_sum by apply NoDup_nil_2. simpl. lia. }
  intros depth Hdepth. rewrite get_circuit_depth_spec in Hdepth.
  unfold spec_depth in Hdepth. fold qs in Hdepth.
  destruct qs as [|q0 qs'] eqn:Hqs; [done|]. rewrite <- Hqs in *.
  injection Hdepth as <-.
  destruct (foldr_max_spec (spec_counter benchmark <$> qs)) as [Hin Hub].
  { by rewrite Hqs. }
  { intros y Hy. apply list_elem_of_fmap in Hy as (q & -> & _).
    apply occurrences_nonneg. }
  apply list_elem_of_fmap in Hin as (q & Heq & Hq).
  change (foldr Z.max 0 (spec_counter benchmark <$> qs))
    with (foldr Z.max 0 ((λ q, occurrences q (counted_operands benchmark)) <$> qs))
    in *.
  rewrite Heq. unfold spec_counter. fold (occurrences q (counted_operands benchmark)).
  fold qs. split; [|apply Hle].
  pose proof (occurrences_pos q qs Hq). lia.
Qed.

(** X12: each depth computation walks the program twice and prints the
    notice of every unrecognized line on each walk: what
    [get_circuit_depth] prints is the notices in file order, twice over,
    and a repetition that succeeds adds exactly that to the output. *)
Theorem notices_are_printed_twice {gate} (self self' : Runner) (name : string)
    (m : Measurement gate) (w w' : World) :
  run_benchmark self name m w = (Ok self', w') →
  (get_qubit_depths (processed m)).2 = notices (processed m) ∧
  (get_circuit_depth (processed m)).2
    = notices (processed m) ++ notices (processed m) ∧
  stdout w' = stdout w ++ notices (processed m) ++ notices (processed m) ∧
  results_dir w' = results_dir w.
Proof.
  intros Hrun.
  split; [by rewrite get_qubit_depths_eq|].
  split; [apply get_circuit_depth_out|].
  unfold run_benchmark, depth_pass in Hrun.
  unfold mbind, M_bind, lift, print, mret, M_ret in Hrun.
  destruct (memory_pass self name m) as [md1|]; [|done].
  destruct (timing_pass self md1 name m) as [md2|]; [|done].
  destruct (getitem (compiler_dict self) "compiler"); [|done].
  destruct (library (raises m Serialize)); [|done].
  destruct (library (raises m MakePreprocess)); [|done].
  destruct (get_circuit_depth (processed m)).1 as [depth|] eqn:Hd; [|done].
  destruct (append_sample md2 name "depth (gates)" (VInt depth)); [|done].
  injection Hrun as <- <-. simpl. by rewrite get_circuit_depth_out.
Qed.

Lemma notices_are_printed_twice_witness :
  ∃ self' w',
    run_benchmark (adder_runner 1 "false") "adder.qasm" noisy_measurement
      empty_world = (Ok self', w') ∧
    stdout w' = stdout empty_world ++ notices (processed noisy_measurement)
                  ++ notices (processed noisy_measurement) ∧
    stdout w' = [not_counted "barrier"; not_counted "barrier"].
Proof.
  destruct (run_benchmark (adder_runner 1 "false") "adder.qasm"
              noisy_measurement empty_world) as [[self'|e] w'] eqn:Hrun.
  - exists self', w'. split; [reflexivity|].
    pose proof (notices_are_printed_twice (adder_runner 1 "false") self'
                  "adder.qasm" noisy_measurement empty_world w' Hrun)
      as (_ & _ & Hout & _).
    split; [exact Hout|]. rewrite Hout. vm_compute. reflexivity.
  - vm_compute in Hrun. discriminate Hrun.
Defined.

Lemma occurrences_perm (q : nat) (l1 l2 : list nat) :
  l1 ≡ₚ l2 → occurrences q l1 = occurrences q l2.
Proof. intros H. unfold occurrences. by rewrite H. Qed.

Lemma counted_operands_perm {gate} (benchmark : Preprocess gate)
    (l1 l2 : list gate) :
  l1 ≡ₚ l2 →
  counted_operands (with_lines benchmark l1)
  ≡ₚ counted_operands (with_lines benchmark l2).
Proof. intros H. unfold counted_operands. simpl. by rewrite H. Qed.

(** X13: the depth does not depend on the order of the lines: for any
    rearrangement of the operation lines of a program, every qubit keeps
    its counter and the depth computation has the same outcome. *)
Theorem depth_ignores_order {gate} (benchmark : Preprocess gate)
    (lines : list gate) :
  processed_qasm benchmark ≡ₚ lines →
  (∀ qubit,
     counter (get_qubit_depths (with_lines benchmark lines)).1 qubit
     = counter (get_qubit_depths benchmark).1 qubit) ∧
  (get_circuit_depth (with_lines benchmark lines)).1
  = (get_circuit_depth benchmark).1.
Proof.
  intros Hperm.
  assert (Hc : counted_operands (with_lines benchmark lines)
               ≡ₚ counted_operands benchmark).
  { rewrite <- (with_lines_id benchmark) at 2.
    by apply counted_operands_perm. }
  assert (Hocc : ∀ q, spec_counter (with_lines benchmark lines) q
                      = spec_counter benchmark q).
  { intros q. apply (occurrences_perm q _ _ Hc). }
  split.
  - intros q. rewrite !get_qubit_depths_eq. cbn [fst].
    pose proof (foldl_count_qubit
                  (counted_operands (with_lines benchmark lines)) []
                  NoDup_nil_2) as (_ & _ & H1).
    pose proof (foldl_count_qubit (counted_operands benchmark) []
                  NoDup_nil_2) as (_ & _ & H2).
    rewrite H1, H2. f_equal. apply (Hocc q).
  - rewrite !get_circuit_depth_spec. unfold spec_depth.
    destruct (counted_operands (with_lines benchmark lines)) as [|q1 l1] eqn:E1;
      destruct (counted_operands benchmark) as [|q2 l2] eqn:E2.
    + done.
    + by apply Permutation_nil_cons in Hc.
    + symmetry in Hc. by apply Permutation_nil_cons in Hc.
    + f_equal.
      destruct (foldr_max_spec (spec_counter (with_lines benchmark lines)
                                  <$> q1 :: l1)) as [Hin1 Hub1]; [done| |].
      { intros y Hy. apply list_elem_of_fmap in Hy as (q & -> & _).
        apply occurrences_nonneg. }
      destruct (foldr_max_spec (spec_counter benchmark <$> q2 :: l2))
        as [Hin2 Hub2]; [done| |].
      { intros y Hy. apply list_elem_of_fmap in Hy as (q & -> & _).
        apply occurrences_nonneg. }
      apply Z.le_antisymm.
      * apply list_elem_of_fmap in Hin1 as (q & Heq & Hq).
        rewrite Heq, Hocc. apply Hub2. apply list_elem_of_fmap.
        exists q. split; [done|]. by rewrite <- Hc.
      * apply list_elem_of_fmap in Hin2 as (q & Heq & Hq).
        rewrite Heq, <- Hocc. apply Hub1. apply list_elem_of_fmap.
        exists q. split; [done|]. by rewrite Hc.
Qed.

Lemma depth_ignores_order_witness :
  processed_qasm (example_program example_lines) ≡ₚ reverse example_lines ∧
  (get_circuit_depth (example_program (reverse example_lines))).1
  = (get_circuit_depth (example_program example_lines)).1.
Proof.
  assert (H : processed_qasm (example_program example_lines)
              ≡ₚ reverse example_lines)
    by (simpl; symmetry; apply reverse_Permutation).
  split; [exact H|].
  exact (proj2 (depth_ignores_order (example_program example_lines)
                  (reverse example_lines) H)).
Defined.

Lemma foldl_count_qubit_keys (qs : list nat) : ∀ d,
  ∃ extra, (foldl count_qubit d qs).*1 = d.*1 ++ extra.
Proof.
  induction qs as [|q qs IH]; intros d; simpl.
  - exists []. by rewrite app_nil_r.
  - destruct (IH (count_qubit d q)) as [extra ->].
    rewrite count_qubit_keys. case_decide.
    + by exists extra.
    + exists (q :: extra). by rewrite <- app_assoc.
Qed.

Lemma occurrences_not_elem_of (q : nat) (qs : list nat) :
  q ∉ qs → occurrences q qs = 0.
Proof.
  induction qs as [|x qs IH]; intros Hq; [done|].
  apply not_elem_of_cons in Hq as [Hne Hq].
  rewrite occurrences_cons, (IH Hq). by rewrite decide_False.
Qed.

(** X14: when several qubits share the maximum, [get_maximum_qubit_depth]
    returns the one met first in the program: the key returned is a touched
    qubit whose counter is the maximum returned, no counter exceeds it, and
    every qubit met before the first occurrence of that key has a strictly
    smaller counter. *)
Theorem first_busiest_qubit_wins {gate} (benchmark : Preprocess gate)
    (key : nat) (max_value : Z) :
  (get_maximum_qubit_depth benchmark).1 = Ok (key, max_value) →
  key ∈ counted_operands benchmark ∧
  spec_counter benchmark key = max_value ∧
  (∀ qubit, spec_counter benchmark qubit ≤ max_value) ∧
  (∀ before after,
     counted_operands benchmark = before ++ key :: after →
     key ∉ before →
     ∀ qubit, qubit ∈ before → spec_counter benchmark qubit < max_value).
Proof.
  unfold get_maximum_qubit_depth. rewrite get_qubit_depths_eq. cbn [fst].
  set (qs := counted_operands benchmark).
  set (d := foldl count_qubit [] qs).
  pose proof (foldl_count_qubit_nil qs) as [Hnd Hd]. fold d in Hnd, Hd.
  intros Hres. bind_ok Hres m Hmax. bind_ok Hres k Hhead.
  injection Hres as -> ->.
  apply py_max_spec in Hmax as [Hin Hub]. unfold odict_values in Hin, Hub.
  assert (Hbound : ∀ q, occurrences q qs ≤ max_value).
  { intros q. destruct (decide (q ∈ qs)) as [Hq | Hq].
    - apply Hub. apply list_elem_of_fmap. exists (q, occurrences q qs).
      split; [done | by apply Hd].
    - rewrite (occurrences_not_elem_of q qs Hq).
      apply list_elem_of_fmap in Hin as ([k v] & -> & Hkv).
      apply Hd in Hkv as [Hk ->]. simpl.
      pose proof (occurrences_pos k qs Hk). lia. }
  destruct (filter (λ kv : nat * Z, kv.2 = max_value) d) as [|[k v] rest]
    eqn:Hfilter; [done|]. simpl in Hhead. injection Hhead as ->.
  assert (Hkey : (key, v) ∈ filter (λ kv : nat * Z, kv.2 = max_value) d)
    by (rewrite Hfilter; left).
  apply list_elem_of_filter in Hkey as [Hv Hkey]. simpl in Hv. subst v.
  apply Hd in Hkey as [Hkey Hocc].
  split; [done|]. split; [done|]. split; [done|].
  intros before after Hqs Hfresh q Hq.
  change (occurrences q qs < max_value).
  assert (Hneq : occurrences q qs ≠ max_value);
    [|specialize (Hbound q); lia].
  intros Heq.
  (* the dictionary built from [before] is a prefix of [d] *)
  set (d1 := foldl count_qubit [] before).
  pose proof (foldl_count_qubit before [] NoDup_nil_2) as (_ & Hk1 & _).
  fold d1 in Hk1.
  assert (Hd_eq : d = foldl count_qubit d1 (key :: after)).
  { unfold d, d1. fold qs in Hqs. by rewrite Hqs, foldl_app. }
  destruct (foldl_count_qubit_keys (key :: after) d1) as [extra Hkeys].
  rewrite <- Hd_eq in Hkeys.
  apply fmap_app_inv in Hkeys as (p1 & p2 & Hp1 & Hp2 & Hd_app).
  assert (Hq1 : q ∈ d1.*1) by (apply Hk1; by right).
  rewrite Hp1 in Hq1. apply list_elem_of_fmap in Hq1 as ([q' v'] & Hq' & Hqv).
  simpl in Hq'. subst q'.
  assert (Hv' : v' = max_value).
  { assert (Hin_d : (q, v') ∈ d) by (rewrite Hd_app; apply elem_of_app; by left).
    apply Hd in Hin_d as [_ ->]. done. }
  subst v'.
  rewrite Hd_app, filter_app in Hfilter.
  assert (Hqf : (q, max_value) ∈ filter (λ kv : nat * Z, kv.2 = max_value) p1)
    by (by apply list_elem_of_filter).
  destruct (filter (λ kv : nat * Z, kv.2 = max_value) p1) as [|[k0 v0] rest0]
    eqn:Hf1; [by apply elem_of_nil in Hqf|].
  simpl in Hfilter. injection Hfilter as -> -> _.
  assert (Hk0 : (key, max_value) ∈ filter (λ kv : nat * Z, kv.2 = max_value) p1)
    by (rewrite Hf1; left).
  apply list_elem_of_filter in Hk0 as [_ Hk0].
  apply Hfresh.
  assert (Hkd1 : key ∈ d1.*1).
  { rewrite Hp1. apply list_elem_of_fmap. by exists (key, max_value). }
  apply Hk1 in Hkd1 as [Hnil | Hb]; [by apply elem_of_nil in Hnil | done].
Qed.

Lemma first_busiest_qubit_wins_witness :
  (get_maximum_qubit_depth (example_program example_lines)).1
    = Ok (0%nat, 2) ∧
  (0%nat ∈ counted_operands (example_program example_lines)) ∧
  spec_counter (example_program example_lines) 0%nat = 2 ∧
  spec_counter (example_program example_lines) 1%nat = 2.
Proof.
  assert (H : (get_maximum_qubit_depth (example_program example_lines)).1
              = Ok (0%nat, 2)) by (vm_compute; reflexivity).
  split; [exact H|].
  pose proof (first_busiest_qubit_wins (example_program example_lines)
                0%nat 2 H) as (H1 & H2 & _).
  split; [exact H1|]. split; [exact H2 | vm_compute; reflexivity].
Defined.
(** ** The constructor *)

Lemma loaded_metric_data_other (files : list Loaded) : ∀ md key,
  key ∉ file_name <$> files →
  loaded_metric_data md files !! key = md !! key.
Proof.
  induction files as [|b files IH]; intros md key Hkey; [done|].
  rewrite fmap_cons in Hkey. apply not_elem_of_cons in Hkey as [Hne Hkey].
  unfold loaded_metric_data. simpl. fold (loaded_metric_data
    (<[file_name b := new_entry (load_end b - load_start b)%float]> md) files).
  rewrite IH by done. by rewrite lookup_insert_ne.
Qed.

Lemma loaded_metric_data_file (files : list Loaded) : ∀ md b,
  NoDup (file_name <$> files) →
  b ∈ files →
  loaded_metric_data md files !! file_name b
  = Some (new_entry (load_end b - load_start b)%float).
Proof.
  induction files as [|b0 files IH]; intros md b Hnd Hb;
    [by apply elem_of_nil in Hb|].
  rewrite fmap_cons in Hnd. apply NoDup_cons in Hnd as [Hfresh Hnd].
  unfold loaded_metric_data. simpl. fold (loaded_metric_data
    (<[file_name b0 := new_entry (load_end b0 - load_start b0)%float]> md) files).
  apply elem_of_cons in Hb as [-> | Hb].
  - rewrite loaded_metric_data_other by done. by rewrite lookup_insert_eq.
  - by apply IH.
Qed.

Lemma preprocess_loop (compiler : value) (benchmarks : list Loaded) :
  eq_str compiler "pytket" || eq_str compiler "qiskit" = true →
  (∀ b, b ∈ benchmark_files benchmarks → loads b) →
  ∀ (self : Runner) (w : World),
  compiler_dict self !! "compiler" = Some compiler →
  for_each preprocess_benchmark benchmarks self w =
  (Ok {| compiler_dict := compiler_dict self;
         backend := backend self;
         num_runs := num_runs self;
         full_benchmark_list :=
           full_benchmark_list self
           ++ (file_name <$> benchmark_files benchmarks);
         metric_data :=
           loaded_metric_data (metric_data self) (benchmark_files benchmarks);
         metric_list := metric_list self;
         second_compiler_readout := second_compiler_readout self |},
   {| results_dir := results_dir w;
      stdout := stdout w ++ (converting <$> benchmark_files benchmarks) |}).
Proof.
  intros Hc. induction benchmarks as [|b benchmarks IH];
    intros Hloads self w Hcd.
  - simpl. unfold mret, M_ret. rewrite !app_nil_r.
    by destruct self, w.
  - cbn [for_each]. unfold mbind, M_bind. unfold preprocess_benchmark at 1.
    unfold benchmark_files in Hloads |- *. rewrite filter_cons in Hloads |- *.
    destruct (decide (file_name b = ".DS_Store")) as [Hds | Hds].
    + rewrite bool_decide_eq_true_2 by done.
      rewrite decide_False in Hloads |- * by (intros H; by apply H).
      unfold mret, M_ret. by apply IH.
    + rewrite bool_decide_eq_false_2 by done.
      rewrite decide_True in Hloads |- * by done.
      assert (Hb : loads b) by (apply Hloads; left).
      assert (Hrest : ∀ b', b' ∈ filter (λ b, file_name b ≠ ".DS_Store")
                                  benchmarks → loads b')
        by (intros b' Hb'; apply Hloads; by right).
      unfold mbind, M_bind, print, lift, getitem. rewrite Hcd.
      rewrite !Hb. cbn [library from_option].
      destruct (eq_str compiler "pytket") eqn:Hpy; cbn [mret M_ret].
      * rewrite IH by done. cbn. rewrite <- !app_assoc. done.
      * simpl in Hc. rewrite Hc. cbn [mret M_ret library].
        rewrite IH by done. cbn. rewrite <- !app_assoc. done.
Qed.

Lemma loaded_metric_data_dom (files : list Loaded) : ∀ md,
  dom (loaded_metric_data md files)
  = dom md ∪ list_to_set (file_name <$> files).
Proof.
  induction files as [|b files IH]; intros md.
  - simpl. by rewrite (right_id_L ∅ (∪)).
  - unfold loaded_metric_data. simpl. fold (loaded_metric_data
      (<[file_name b := new_entry (load_end b - load_start b)%float]> md) files).
    rewrite IH, dom_insert_L.
    rewrite (comm_L (∪) {[file_name b]} (dom md)).
    by rewrite <- (assoc_L (∪)).
Qed.

Lemma benchmark_files_names (benchmarks : list Loaded) :
  NoDup (file_name <$> benchmarks) →
  NoDup (file_name <$> benchmark_files benchmarks) ∧
  ".DS_Store" ∉ file_name <$> benchmark_files benchmarks.
Proof.
  intros Hnd. split.
  - unfold benchmark_files. induction benchmarks as [|b bs IH]; [done|].
    rewrite fmap_cons in Hnd. apply NoDup_cons in Hnd as [Hb Hnd].
    rewrite filter_cons. case_decide; [|by apply IH].
    rewrite fmap_cons. apply NoDup_cons. split; [|by apply IH].
    intros Hin. apply Hb. apply list_elem_of_fmap in Hin as (b' & -> & Hb').
    apply list_elem_of_filter in Hb' as [_ Hb'].
    apply list_elem_of_fmap. by exists b'.
  - intros Hin. apply list_elem_of_fmap in Hin as (b & Heq & Hb).
    apply list_elem_of_filter in Hb as [Hne _]. by apply Hne.
Qed.

Lemma example_corpus_loads (b : Loaded) :
  b ∈ benchmark_files example_corpus → loads b.
Proof.
  intros Hb. apply list_elem_of_filter in Hb as [_ Hb].
  unfold example_corpus in Hb.
  apply elem_of_cons in Hb as [-> | Hb]; [intros c; reflexivity|].
  apply elem_of_cons in Hb as [-> | Hb]; [intros c; reflexivity|].
  by apply elem_of_nil in Hb.
Qed.

(** X15: with the compiler named [pytket] or [qiskit], the constructor
    succeeds on a listing of the benchmark directory each of whose
    benchmark files is read and parsed without an exception.  It prints one
    line per benchmark file, keeps the files' names in listing order in
    [full_benchmark_list] and skips [.DS_Store]; [metric_data] holds the
    compiler description under the key ["metadata: "] (colon and blank
    included), the back end under ["backend"], and for each file, the names
    being distinct, an entry with a single build time and four empty
    samples; it holds no other key. *)
Theorem constructor_loads_benchmarks (compiler_dict : gmap string value)
    (compiler : value) (backend : string) (num_runs : Z) (second : string)
    (benchmarks : list Loaded) (w : World) :
  compiler_dict !! "compiler" = Some compiler →
  eq_str compiler "pytket" || eq_str compiler "qiskit" = true →
  NoDup (file_name <$> benchmarks) →
  (∀ b, b ∈ benchmark_files benchmarks → loads b) →
  ∃ self,
    Runner_init compiler_dict backend num_runs second benchmarks w =
      (Ok self,
       {| results_dir := results_dir w;
          stdout := stdout w ++ (converting <$> benchmark_files benchmarks) |}) ∧
    full_benchmark_list self = file_name <$> benchmark_files benchmarks ∧
    (".DS_Store" ∉ full_benchmark_list self) ∧
    (∀ b, b ∈ benchmark_files benchmarks →
          metric_data self !! file_name b
          = Some (new_entry (load_end b - load_start b)%float)) ∧
    (∀ key, key ∉ full_benchmark_list self →
            metric_data self !! key
            = initial_metric_data compiler_dict backend !! key) ∧
    dom (metric_data self) =
      {["metadata: "; "backend"]} ∪ list_to_set (full_benchmark_list self).
Proof.
  intros Hcd Hc Hnd Hloads.
  destruct (benchmark_files_names benchmarks Hnd) as [Hnd' Hds].
  eexists. split.
  { unfold Runner_init, preprocess_benchmarks.
    rewrite (preprocess_loop compiler benchmarks Hc Hloads) by done.
    cbn. reflexivity. }
  cbn. fold (initial_metric_data compiler_dict backend).
  split; [done|]. split; [done|]. split.
  { intros b Hb. by apply loaded_metric_data_file. }
  split.
  { intros key Hkey. by apply loaded_metric_data_other. }
  rewrite loaded_metric_data_dom. unfold initial_metric_data.
  rewrite !dom_insert_L, dom_empty_L. by rewrite (right_id_L ∅ (∪)).
Qed.

Lemma constructor_loads_benchmarks_witness :
  example_compiler !! "compiler" = Some (VStr "qiskit") ∧
  eq_str (VStr "qiskit") "pytket" || eq_str (VStr "qiskit") "qiskit" = true ∧
  NoDup (file_name <$> example_corpus) ∧
  (∀ b, b ∈ benchmark_files example_corpus → loads b) ∧
  ∃ self,
    Runner_init example_compiler "heavy_hex" 2 "false" example_corpus
      empty_world
    = (Ok self,
       {| results_dir := results_dir empty_world;
          stdout := stdout empty_world
                    ++ (converting <$> benchmark_files example_corpus) |}) ∧
    full_benchmark_list self = file_name <$> benchmark_files example_corpus.
Proof.
  assert (H1 : example_compiler !! "compiler" = Some (VStr "qiskit"))
    by (vm_compute; reflexivity).
  assert (H2 : eq_str (VStr "qiskit") "pytket"
               || eq_str (VStr "qiskit") "qiskit" = true)
    by (vm_compute; reflexivity).
  assert (H3 : NoDup (file_name <$> example_corpus)).
  { apply (bool_decide_unpack _). vm_compute. exact I. }
  assert (H4 : ∀ b, b ∈ benchmark_files example_corpus → loads b)
    by exact example_corpus_loads.
  split; [exact H1|]. split; [exact H2|]. split; [exact H3|].
  split; [exact H4|].
  destruct (constructor_loads_benchmarks example_compiler (VStr "qiskit")
              "heavy_hex" 2 "false" example_corpus empty_world H1 H2 H3 H4)
    as (self & Hinit & Hlist & _).
  exists self. split; [exact Hinit | exact Hlist].
Defined.

(** X16: a compiler name other than [pytket] and [qiskit] is not rejected
    as such: the constructor succeeds when the listing has no benchmark
    file, and as soon as there is one it reads the first file, and, unless
    reading it raises (the constructor then ends with that exception,
    nothing printed), prints the line of that file and raises
    [UnboundLocalError], the circuit never having been bound. *)
Theorem constructor_unknown_compiler (config : gmap string value)
    (compiler : value) (backend : string) (num_runs : Z) (second : string)
    (benchmarks : list Loaded) (w : World) :
  config !! "compiler" = Some compiler →
  eq_str compiler "pytket" || eq_str compiler "qiskit" = false →
  Runner_init config backend num_runs second benchmarks w =
  match benchmark_files benchmarks with
  | [] =>
      (Ok {| compiler_dict := config;
             backend := backend;
             num_runs := num_runs;
             full_benchmark_list := [];
             metric_data := initial_metric_data config backend;
             metric_list :=
               ["total_time (seconds)"; "parsing/build_time (seconds)";
                "transpile_time (seconds)"; "depth (gates)";
                "memory_footprint (MiB)"];
             second_compiler_readout := second |},
       w)
  | b :: _ =>
      match load_raises b ReadFile with
      | Some e => (Raise e, w)
      | None =>
          (Raise UnboundLocalError,
           {| results_dir := results_dir w;
              stdout := stdout w ++ [converting b] |})
      end
  end.
Proof.
  intros Hcd Hc. apply orb_false_iff in Hc as [Hpy Hqi].
  unfold Runner_init, preprocess_benchmarks. cbn.
  fold (initial_metric_data config backend).
  set (self := {| compiler_dict := config; backend := backend;
       num_runs := num_runs; full_benchmark_list := [];
       metric_data := initial_metric_data config backend;
       metric_list :=
         ["total_time (seconds)"; "parsing/build_time (seconds)";
          "transpile_time (seconds)"; "depth (gates)";
          "memory_footprint (MiB)"];
       second_compiler_readout := second |}).
  assert (Hself : compiler_dict self !! "compiler" = Some compiler) by done.
  clearbody self. revert w.
  induction benchmarks as [|b benchmarks IH]; intros w.
  - simpl. done.
  - cbn [for_each]. unfold mbind, M_bind. unfold preprocess_benchmark at 1.
    unfold benchmark_files. rewrite filter_cons.
    destruct (decide (file_name b = ".DS_Store")) as [Hds | Hds].
    + rewrite bool_decide_eq_true_2 by done.
      rewrite decide_False by (intros H; by apply H).
      unfold mret, M_ret. apply IH.
    + rewrite bool_decide_eq_false_2 by done. rewrite decide_True by done.
      unfold mbind, M_bind, print, lift, getitem. rewrite Hself.
      destruct (load_raises b ReadFile) as [e|]; cbn [library from_option].
      * reflexivity.
      * rewrite Hpy, Hqi. reflexivity.
Qed.

Lemma constructor_unknown_compiler_witness :
  (<["compiler" := VStr "cirq"]> example_compiler) !! "compiler"
    = Some (VStr "cirq") ∧
  eq_str (VStr "cirq") "pytket" || eq_str (VStr "cirq") "qiskit" = false ∧
  Runner_init (<["compiler" := VStr "cirq"]> example_compiler) "heavy_hex" 2
    "false" example_corpus empty_world
  = (Raise UnboundLocalError,
     {| results_dir := None;
        stdout := ["Converting adder.qasm to high-level circuit..."] |}).
Proof.
  assert (H1 : (<["compiler" := VStr "cirq"]> example_compiler) !! "compiler"
               = Some (VStr "cirq")) by (vm_compute; reflexivity).
  assert (H2 : eq_str (VStr "cirq") "pytket"
               || eq_str (VStr "cirq") "qiskit" = false)
    by (vm_compute; reflexivity).
  split; [exact H1|]. split; [exact H2|].
  exact (constructor_unknown_compiler
           (<["compiler" := VStr "cirq"]> example_compiler) (VStr "cirq")
           "heavy_hex" 2 "false" example_corpus empty_world H1 H2).
Defined.
(** ** More on the repetitions *)


Lemma run_benchmark_world {gate} (self : Runner) (name : string)
    (m : Measurement gate) (w w' : World) (r : result Runner) :
  run_benchmark self name m w = (r, w') → results_dir w' = results_dir w.
Proof.
  unfold run_benchmark, depth_pass, mbind, M_bind, lift, print, mret, M_ret.
  destruct (memory_pass self name m) as [md1|]; [|by intros [= <- <-]].
  destruct (timing_pass self md1 name m) as [md2|]; [|by intros [= <- <-]].
  destruct (getitem (compiler_dict self) "compiler"); [|by intros [= <- <-]].
  destruct (library (raises m Serialize)); [|by intros [= <- <-]].
  destruct (library (raises m MakePreprocess)); [|by intros [= <- <-]].
  destruct (get_circuit_depth (processed m)).1 as [depth|];
    [|by intros [= <- <-]].
  destruct (append_sample md2 name "depth (gates)" (VInt depth));
    by intros [= <- <-].
Qed.

Lemma for_each_world {A S : Type} (body : S → A → M S) (l : list A) :
  (∀ s x w r w', body s x w = (r, w') → results_dir w' = results_dir w) →
  ∀ s w r w', for_each body l s w = (r, w') → results_dir w' = results_dir w.
Proof.
  intros Hbody. induction l as [|x l IH]; intros s w r w' H; simpl in H.
  - by injection H as <- <-.
  - unfold mbind, M_bind in H.
    destruct (body s x w) as [[s1|e] w1] eqn:Hb.
    + rewrite (IH _ _ _ _ H). by eapply Hbody.
    + injection H as <- <-. by eapply Hbody.
Qed.

Lemma run_benchmark_result_frame {gate} (self self' : Runner) (name : string)
    (m : Measurement gate) :
  run_benchmark_result self name m = Ok self' →
  (∃ md, self' = with_metric_data self md) ∧
  ∀ key, key ≠ name → metric_data self' !! key = metric_data self !! key.
Proof.
  intros Hrun. unfold run_benchmark_result in Hrun.
  bind_ok Hrun md1 H1. bind_ok Hrun md2 H2. bind_ok Hrun c Hc.
  bind_ok Hrun u1 Hu1. bind_ok Hrun u2 Hu2.
  bind_ok Hrun d Hd. bind_ok Hrun md3 H3. injection Hrun as <-.
  split; [by eexists|]. intros key Hne. simpl.
  rewrite (append_sample_frame _ _ _ _ _ key H3) by done.
  unfold timing_pass in H2.
  bind_ok H2 c1 Hc1. bind_ok H2 o1 Ho1. bind_ok H2 u3 Hu3.
  bind_ok H2 md4 H4. bind_ok H2 tt Htt.
  bind_ok H2 b1 Hb1. bind_ok H2 b2 Hb2.
  bind_ok H2 t1 Ht1. bind_ok H2 t2 Ht2.
  rewrite (append_sample_frame _ _ _ _ _ key H2) by done.
  rewrite (append_sample_frame _ _ _ _ _ key H4) by done.
  unfold memory_pass in H1. bind_ok H1 mem Hmem. bind_ok H1 md0 H0.
  bind_ok H1 u4 Hu4. injection H1 as <-.
  by rewrite (append_sample_frame _ _ _ _ _ key H0).
Qed.

Lemma repetitions_frame {gate} (env : nat → Measurement gate) (name : string)
    (runs : list nat) : ∀ self self',
  repetitions_result env name runs self = Ok self' →
  (∃ md, self' = with_metric_data self md) ∧
  ∀ key, key ≠ name → metric_data self' !! key = metric_data self !! key.
Proof.
  induction runs as [|i runs IH]; intros self self' H.
  - injection H as <-. split; [|done]. exists (metric_data self). by destruct self.
  - unfold repetitions_result in H. simpl in H. bind_ok H self1 H1.
    destruct (run_benchmark_result_frame _ _ _ _ H1) as [[md1 ->] Hf1].
    destruct (IH _ _ H) as [[md2 ->] Hf2].
    split; [by exists md2|]. intros key Hne.
    rewrite (Hf2 key Hne). by apply Hf1.
Qed.

Lemma run_case_config {gate} (numpy : Numpy)
    (env : nat → Measurement gate)
    (self self' : Runner) (name : string) (w w' : World) :
  run_case numpy env self name w = (Ok self', w') →
  ∃ md, self' = with_metric_data self md.
Proof.
  intros Hrun.
  pose proof (run_case_fst numpy env self name w) as Hfst.
  rewrite Hrun in Hfst. simpl in Hfst. symmetry in Hfst.
  bind_ok Hfst self1 Hreps.
  destruct (repetitions_frame env name _ _ _ Hreps) as [[md1 ->] _].
  unfold calculate_aggregate_statistics in Hfst.
  bind_ok Hfst e He. bind_ok Hfst entry Hentry. bind_ok Hfst md2 Hfold.
  injection Hfst as <-. by exists md2.
Qed.

Lemma fold_aggregate_frame (numpy : Numpy) (name key : string) (metrics : list string) :
  key ≠ name →
  ∀ md md', fold_result (aggregate_step numpy name) metrics md = Ok md' →
            md' !! key = md !! key.
Proof.
  intros Hne. induction metrics as [|metric metrics IH]; intros md md' H.
  - by injection H as <-.
  - simpl in H. bind_ok H md1 H1. rewrite (IH _ _ H).
    unfold aggregate_step in H1.
    bind_ok H1 e He. bind_ok H1 entry Hentry. bind_ok H1 a Ha.
    bind_ok H1 agg Hagg. bind_ok H1 sample Hsample.
    bind_ok H1 arr Harr. bind_ok H1 stats Hstats. injection H1 as <-.
    by rewrite lookup_insert_ne.
Qed.

Lemma run_case_others {gate} (numpy : Numpy)
    (env : nat → Measurement gate)
    (self self' : Runner) (name : string) (w w' : World) :
  run_case numpy env self name w = (Ok self', w') →
  ∀ key, key ≠ name → metric_data self' !! key = metric_data self !! key.
Proof.
  intros Hrun key Hne.
  pose proof (run_case_fst numpy env self name w) as Hfst.
  rewrite Hrun in Hfst. simpl in Hfst. symmetry in Hfst.
  bind_ok Hfst self1 Hreps.
  destruct (repetitions_frame env name _ _ _ Hreps) as [[md1 ->] Hf1].
  unfold calculate_aggregate_statistics in Hfst.
  bind_ok Hfst e He. bind_ok Hfst entry Hentry. bind_ok Hfst md2 Hfold.
  injection Hfst as <-.
  cbn [metric_data with_metric_data] in *.
  rewrite <- (Hf1 key Hne).
  rewrite (fold_aggregate_frame numpy name key _ Hne _ _ Hfold).
  by rewrite lookup_insert_ne.
Qed.

Lemma run_case_world {gate} (numpy : Numpy)
    (env : nat → Measurement gate)
    (self : Runner) (name : string) (w w' : World) (r : result Runner) :
  run_case numpy env self name w = (r, w') → results_dir w' = results_dir w.
Proof.
  intros Hrun. unfold run_case, mbind, M_bind, lift in Hrun.
  destruct (for_each _ _ self w) as [[s1|e1] w1] eqn:Hloop.
  - pose proof (for_each_world
      (λ self run_num, run_benchmark self name (env run_num)) _
      (λ s x w0 r w0' H, run_benchmark_world s name (env x) w0 w0' r H)
      _ _ _ _ Hloop) as Hw1.
    by injection Hrun as _ <-.
  - injection Hrun as _ <-.
    exact (for_each_world
      (λ self run_num, run_benchmark self name (env run_num)) _
      (λ s x w0 r w0' H, run_benchmark_world s name (env x) w0 w0' r H)
      _ _ _ _ Hloop).
Qed.

(** X18: the repetitions and statistics of one benchmark change nothing
    but the entry of that benchmark: the configuration of the runner, the
    list of benchmarks, every other key of [metric_data] and the results
    directory are as they were. *)
Theorem run_case_changes_one_entry {gate} (numpy : Numpy)
    (env : nat → Measurement gate)
    (self self' : Runner) (name : string) (w w' : World) :
  run_case numpy env self name w = (Ok self', w') →
  (∃ md, self' = with_metric_data self md) ∧
  (∀ key, key ≠ name → metric_data self' !! key = metric_data self !! key) ∧
  results_dir w' = results_dir w.
Proof.
  intros Hrun. split; [|split].
  - by eapply run_case_config.
  - by eapply run_case_others.
  - by eapply run_case_world.
Qed.

Lemma run_case_changes_one_entry_witness :
  ∃ self' w',
    run_case example_numpy (example_env "adder.qasm") (adder_runner 2 "false") "adder.qasm"
      empty_world = (Ok self', w') ∧
    (∃ md, self' = with_metric_data (adder_runner 2 "false") md) ∧
    (∀ key, key ≠ "adder.qasm" →
       metric_data self' !! key = metric_data (adder_runner 2 "false") !! key) ∧
    results_dir w' = results_dir empty_world.
Proof.
  destruct (run_case example_numpy (example_env "adder.qasm") (adder_runner 2 "false")
              "adder.qasm" empty_world) as [[self'|e] w'] eqn:Hrun.
  - exists self', w'. split; [reflexivity|].
    exact (run_case_changes_one_entry example_numpy (example_env "adder.qasm")
             (adder_runner 2 "false") self' "adder.qasm" empty_world w' Hrun).
  - vm_compute in Hrun. discriminate Hrun.
Defined.

Lemma repetitions_depths {gate} (env : nat → Measurement gate) (name : string)
    (bt : float) (runs : list nat) :
  ∀ (self self' : Runner) (tt tr dp mem : list value),
  has_samples (metric_data self) name tt [VFloat bt] tr dp mem →
  repetitions_result env name runs self = Ok self' →
  ∃ ds : list Z,
    Forall2 (λ i d, (get_circuit_depth (processed (env i))).1 = Ok d) runs ds ∧
    get_sample (metric_data self') name "depth (gates)"
      = Ok (dp ++ (VInt <$> ds)).
Proof.
  induction runs as [|i runs IH]; intros self self' tt tr dp mem Hs Hrun.
  - injection Hrun as <-. exists []. split; [constructor|].
    rewrite app_nil_r. by destruct Hs as (_ & _ & _ & ? & _).
  - unfold repetitions_result in Hrun. simpl in Hrun.
    bind_ok Hrun self1 H1.
    destruct (run_benchmark_samples _ _ _ _ _ _ _ _ _ Hs H1)
      as (d & Hd & Hs1 & _ & _).
    destruct (IH _ _ _ _ _ _ Hs1 Hrun) as (ds & Hds & Hdp).
    exists (d :: ds). split; [by constructor|].
    rewrite Hdp. simpl. by rewrite <- app_assoc.
Qed.

(** X19: after the repetitions and statistics of a benchmark, the
    [memory_footprint] sample holds, repetition by repetition, the memory
    reading after the compilation minus the reading before it, and the
    [depth] sample holds the depth of the program each repetition
    compiled, the largest per-qubit count of its counted operations. *)
Theorem samples_record_measurements {gate} (numpy : Numpy)
    (env : nat → Measurement gate)
    (self self' : Runner) (name : string) (build_time : float) (w w' : World) :
  metric_data self !! name = Some (new_entry build_time) →
  run_case numpy env self name w = (Ok self', w') →
  let runs := seq 0 (Z.to_nat (num_runs self)) in
  get_sample (metric_data self') name "memory_footprint (MiB)"
    = Ok ((λ i, VFloat (end_mem (env i) - start_mem (env i))%float) <$> runs) ∧
  ∃ depths : list Z,
    get_sample (metric_data self') name "depth (gates)"
      = Ok (VInt <$> depths) ∧
    Forall2 (λ i depth, spec_depth (processed (env i)) = Ok depth) runs depths.
Proof.
  intros Hnew Hrun runs.
  destruct (run_case_samples numpy env self self' name build_time w w' Hnew Hrun)
    as (ds0 & _ & _ & _ & _ & _ & Hmem).
  split; [exact Hmem|].
  pose proof (run_case_fst numpy env self name w) as Hfst.
  rewrite Hrun in Hfst. simpl in Hfst. symmetry in Hfst.
  bind_ok Hfst self1 Hreps.
  destruct (repetitions_depths env name build_time _ _ _ _ _ _ _
              (new_entry_samples _ _ _ Hnew) Hreps) as (ds & Hds & Hdp).
  exists ds. split.
  - rewrite (calculate_aggregate_statistics_samples _ _ _ _ _ Hfst) by done.
    exact Hdp.
  - eapply Forall2_impl; [exact Hds|]. intros i d Hd. simpl in Hd.
    by rewrite <- get_circuit_depth_spec.
Qed.

Lemma samples_record_measurements_witness :
  metric_data (adder_runner 2 "false") !! "adder.qasm"
    = Some (new_entry 0.5) ∧
  ∃ self' w',
    run_case example_numpy (example_env "adder.qasm") (adder_runner 2 "false") "adder.qasm"
      empty_world = (Ok self', w') ∧
    get_sample (metric_data self') "adder.qasm" "memory_footprint (MiB)"
      = Ok ((λ i, VFloat (end_mem (example_env "adder.qasm" i)
                          - start_mem (example_env "adder.qasm" i))%float)
              <$> seq 0 (Z.to_nat (num_runs (adder_runner 2 "false")))).
Proof.
  assert (Hnew : metric_data (adder_runner 2 "false") !! "adder.qasm"
                 = Some (new_entry 0.5)) by (vm_compute; reflexivity).
  split; [exact Hnew|].
  destruct (run_case example_numpy (example_env "adder.qasm") (adder_runner 2 "false")
              "adder.qasm" empty_world) as [[self'|e] w'] eqn:Hrun.
  - exists self', w'. split; [reflexivity|].
    exact (proj1 (samples_record_measurements example_numpy
             (example_env "adder.qasm")
             (adder_runner 2 "false") self' "adder.qasm" 0.5%float
             empty_world w' Hnew Hrun)).
  - vm_compute in Hrun. discriminate Hrun.
Defined.
(** ** The reports to the progress visualizer *)

Lemma reported_run_benchmark {gate} (pv : ProgressVisualizer.t) (self : Runner)
    (name : string) (m : Measurement gate) (w : World) :
  Reported.run_benchmark pv self name m w =
  if decide (ProgressVisualizer.total_operations pv = 0)
  then (Raised ZeroDivisionError, w)
  else of_M (run_benchmark self name m) w.
Proof.
  unfold Reported.run_benchmark, ProgressVisualizer.update_progress, run_benchmark.
  destruct (decide (ProgressVisualizer.total_operations pv = 0)); [reflexivity|].
  unfold of_M, of_result, mbind, Top_bind, M_bind, lift, mret, Top_ret, M_ret.
  destruct (memory_pass self name m) as [md1|]; [|reflexivity].
  destruct (timing_pass self md1 name m) as [md2|]; [|reflexivity].
  destruct (depth_pass self md2 name m w) as [[md3|] w3]; reflexivity.
Qed.



Lemma announced_total_operations (runs : list nat) : ∀ pv,
  ProgressVisualizer.total_operations (announced pv runs)
  = ProgressVisualizer.total_operations pv.
Proof.
  induction runs as [|i runs IH]; intros pv; [done|].
  unfold announced in *. simpl. by rewrite IH.
Qed.

Lemma announced_benchmark_results (runs : list nat) : ∀ pv,
  ProgressVisualizer.benchmark_results (announced pv runs)
  = ProgressVisualizer.benchmark_results pv.
Proof.
  induction runs as [|i runs IH]; intros pv; [done|].
  unfold announced in *. simpl. by rewrite IH.
Qed.

Lemma announced_compiler_info (runs : list nat) : ∀ pv,
  ProgressVisualizer.compiler_info (announced pv runs)
  = ProgressVisualizer.compiler_info pv.
Proof.
  induction runs as [|i runs IH]; intros pv; [done|].
  unfold announced in *. simpl. by rewrite IH.
Qed.

Lemma announced_current_operation (runs : list nat) : ∀ pv,
  ProgressVisualizer.current_operation (announced pv runs)
  = ProgressVisualizer.current_operation pv + Z.of_nat (length runs).
Proof.
  induction runs as [|i runs IH]; intros pv; [simpl; lia|].
  unfold announced in *. cbn [foldl length]. rewrite IH. simpl. lia.
Qed.

Lemma reported_repetitions {gate} (env : nat → Measurement gate)
    (name : string) (runs : list nat) :
  ∀ (self : Runner) (pv : ProgressVisualizer.t) (w : World),
  ProgressVisualizer.total_operations pv ≠ 0 →
  top_for_each
    (λ (s : Runner * ProgressVisualizer.t) run_num,
       let pv := ProgressVisualizer.start_run s.2 (Z.of_nat run_num + 1) in
       self ← Reported.run_benchmark pv s.1 name (env run_num);
       mret (self, pv))
    runs (self, pv) w
  = match for_each (λ self run_num, run_benchmark self name (env run_num))
            runs self w with
    | (Ok self', w') => (Done (self', announced pv runs), w')
    | (Raise e, w') => (Raised (Exn e), w')
    end.
Proof.
  induction runs as [|i runs IH]; intros self pv w Hpv; [reflexivity|].
  simpl. unfold mbind at 1, Top_bind. unfold mbind at 1, Top_bind.
  rewrite reported_run_benchmark. simpl.
  destruct (decide (ProgressVisualizer.total_operations pv = 0)); [done|].
  unfold of_M. unfold mbind at 2, M_bind.
  destruct (run_benchmark self name (env i) w) as [[self1|e] w1]; [|reflexivity].
  unfold mret, Top_ret. rewrite IH by done. reflexivity.
Qed.

Lemma aggregate_of_mean (numpy : Numpy) (a : list float) (stats : value) :
  aggregate_of numpy a = Ok stats →
  ∃ d, stats = VDict d ∧ d !! "mean" = Some (VFloat (np_mean numpy a)).
Proof.
  unfold aggregate_of. intros H. bind_ok H lo Hlo. bind_ok H hi Hhi.
  injection H as <-. eexists. split; [reflexivity|]. by rewrite lookup_insert_eq.
Qed.

(** The entry [calculate_aggregate_statistics] leaves is one the visualizer
    can report. *)
Lemma calculate_aggregate_statistics_average (numpy : Numpy)
    (self self' : Runner) (name : string) :
  "aggregate" ∉ metric_list self →
  calculate_aggregate_statistics numpy self name = Ok self' →
  ∃ results avg,
    metric_data self' !! name = Some results ∧
    ProgressVisualizer.average_time results = Ok avg ∧ number_or_none avg.
Proof.
  intros Hno Hcalc. unfold calculate_aggregate_statistics in Hcalc.
  bind_ok Hcalc e He. bind_ok Hcalc entry Hentry. bind_ok Hcalc md' Hfold.
  injection Hcalc as <-.
  unfold getitem in He. destruct (metric_data self !! name) as [e'|] eqn:Hname;
    [|done]. injection He as ->. destruct e; try done. injection Hentry as ->.
  destruct (fold_aggregate_spec numpy name entry (metric_list self) Hno _ md' ∅
              ltac:(by rewrite lookup_insert_eq) Hfold)
    as (agg & -> & Hdom & Hin & Hout).
  assert (Havg : ∃ avg,
            ProgressVisualizer.average_time
              (VDict (<["aggregate" := VDict agg]> entry))
              = Ok avg ∧ number_or_none avg).
  { unfold ProgressVisualizer.average_time.
    cbn [ProgressVisualizer.contains ProgressVisualizer.subscript mbind
         result_bind].
    rewrite bool_decide_eq_true_2 by (by rewrite lookup_insert_eq).
    unfold getitem. rewrite lookup_insert_eq.
    cbn [from_option mbind result_bind ProgressVisualizer.contains
         ProgressVisualizer.subscript].
    destruct (decide ("total_time (seconds)" ∈ metric_list self)) as [Ht|Ht].
    - destruct (Hin _ Ht) as (sample & a & stats & _ & _ & Hstats & Hagg).
      destruct (aggregate_of_mean _ _ _ Hstats) as (d & -> & Hmean).
      rewrite bool_decide_eq_true_2 by (by rewrite Hagg).
      unfold getitem. rewrite Hagg.
      cbn [from_option mbind result_bind ProgressVisualizer.subscript].
      unfold getitem. rewrite Hmean. simpl.
      eexists. split; [reflexivity|exact I].
    - rewrite bool_decide_eq_false_2.
      + eexists. split; [reflexivity|exact I].
      + rewrite (Hout _ Ht), lookup_empty. by intros [? ?]. }
  destruct Havg as (avg & Havg & Hnum).
  eexists _, avg. split; [simpl; by rewrite lookup_insert_eq|]. done.
Qed.

Lemma reported_run_case {gate} (numpy : Numpy)
    (env : nat → Measurement gate)
    (self : Runner) (pv : ProgressVisualizer.t) (name : string) (w : World) :
  ProgressVisualizer.total_operations pv ≠ 0 →
  told_results pv →
  "aggregate" ∉ metric_list self →
  match run_case numpy env self name w with
  | (Ok self', w') =>
      ∃ pv', Reported.run_case numpy env (self, pv) name w = (Done (self', pv'), w') ∧
             ProgressVisualizer.total_operations pv'
               = ProgressVisualizer.total_operations pv ∧
             told_results pv' ∧
             ProgressVisualizer.current_operation pv'
               = ProgressVisualizer.current_operation pv
                 + Z.of_nat (Z.to_nat (num_runs self)) ∧
             dom (ProgressVisualizer.benchmark_results pv')
               = {[name]} ∪ dom (ProgressVisualizer.benchmark_results pv)
  | (Raise e, w') =>
      Reported.run_case numpy env (self, pv) name w = (Raised (Exn e), w')
  end.
Proof.
  intros Hpv Htold Hno.
  remember (Reported.run_case numpy env (self, pv) name w) as R eqn:HR.
  unfold Reported.run_case in HR. cbn [fst snd] in HR.
  unfold mbind at 1, Top_bind in HR.
  rewrite reported_repetitions in HR by done.
  unfold run_case. unfold mbind at 1, M_bind.
  pose proof (for_each_fst
    (λ self run_num, run_benchmark self name (env run_num))
    (λ self run_num, run_benchmark_result self name (env run_num))
    (seq 0 (Z.to_nat (num_runs self)))
    (λ s x w, run_benchmark_fst s name (env x) w) self w) as Hloop.
  destruct (for_each _ _ self w) as [[self1|e] w1]; [|by subst R].
  simpl in Hloop. symmetry in Hloop.
  destruct (repetitions_frame env name _ _ _ Hloop) as [[md1 ->] _].
  cbn [fst snd] in HR. unfold lift.
  unfold of_result at 1, mbind at 1, Top_bind in HR.
  destruct (calculate_aggregate_statistics numpy (with_metric_data self md1) name)
    as [self2|e] eqn:Hcalc; [|by subst R].
  destruct (calculate_aggregate_statistics_average _ _ _ _
              (Hno : "aggregate" ∉ metric_list (with_metric_data self md1)) Hcalc)
    as (results & avg & Hres & Havg & Hnum).
  unfold of_result, mbind, Top_bind, mret, Top_ret, getitem in HR.
  rewrite Hres in HR. cbn [from_option] in HR.
  unfold ProgressVisualizer.complete_benchmark in HR. rewrite Havg in HR.
  assert (Hfmt : match avg with
                 | Some v => ProgressVisualizer.format_float v
                 | None => Ok ()
                 end = Ok ()).
  { destruct avg as [[]|]; done. }
  simpl in HR. rewrite Hfmt in HR. simpl in HR. subst R.
  eexists. split; [reflexivity|]. split; [|split; [|split]].
  - simpl. by rewrite announced_total_operations.
  - intros key v. simpl. rewrite announced_benchmark_results. simpl.
    destruct (decide (name = key)) as [->|Hne].
    + rewrite lookup_insert_eq. intros [= <-]. by exists avg.
    + rewrite lookup_insert_ne by done. apply Htold.
  - simpl. rewrite announced_current_operation, length_seq. reflexivity.
  - simpl. rewrite dom_insert_L, announced_benchmark_results. reflexivity.
Qed.

Lemma reported_cases {gate} (numpy : Numpy)
    (env : string → nat → Measurement gate)
    (names : list string) :
  ∀ (self : Runner) (pv : ProgressVisualizer.t) (w : World),
  ProgressVisualizer.total_operations pv ≠ 0 →
  told_results pv →
  "aggregate" ∉ metric_list self →
  match for_each (λ self name, run_case numpy (env name) self name)
          names self w with
  | (Ok self', w') =>
      ∃ pv', top_for_each (λ s name, Reported.run_case numpy (env name) s name)
               names (self, pv) w = (Done (self', pv'), w') ∧
             ProgressVisualizer.total_operations pv'
               = ProgressVisualizer.total_operations pv ∧
             told_results pv' ∧
             ProgressVisualizer.current_operation pv'
               = ProgressVisualizer.current_operation pv
                 + Z.of_nat (length names) * Z.of_nat (Z.to_nat (num_runs self)) ∧
             dom (ProgressVisualizer.benchmark_results pv')
               = list_to_set names ∪ dom (ProgressVisualizer.benchmark_results pv)
  | (Raise e, w') =>
      top_for_each (λ s name, Reported.run_case numpy (env name) s name)
        names (self, pv) w = (Raised (Exn e), w')
  end.
Proof.
  induction names as [|name names IH]; intros self pv w Hpv Htold Hno.
  - simpl. exists pv. split; [done|]. split; [done|]. split; [done|].
    split; [lia|]. by rewrite (left_id_L ∅ (∪)).
  - remember (top_for_each (λ s name, Reported.run_case numpy (env name) s name)
                (name :: names) (self, pv) w) as R eqn:HR.
    simpl in HR. unfold mbind at 1, Top_bind in HR.
    simpl. unfold mbind at 1, M_bind.
    pose proof (reported_run_case numpy (env name) self pv name w Hpv Htold Hno)
      as H1.
    destruct (run_case numpy (env name) self name w) as [[self1|e] w1] eqn:Hrun.
    + destruct H1 as (pv1 & H1 & Hpv1 & Htold1 & Hcur1 & Hdom1).
      rewrite H1 in HR.
      destruct (run_case_config _ _ _ _ _ _ _ Hrun) as [md1 ->].
      specialize (IH (with_metric_data self md1) pv1 w1
                    ltac:(by rewrite Hpv1) Htold1 Hno).
      destruct (for_each _ names _ w1) as [[self2|e] w2].
      * destruct IH as (pv2 & IH & Hpv2 & Htold2 & Hcur2 & Hdom2).
        exists pv2. rewrite HR, IH, Hpv2. split; [done|]. split; [done|].
        split; [done|]. split.
        -- rewrite Hcur2, Hcur1. cbn [num_runs with_metric_data length]. lia.
        -- rewrite Hdom2, Hdom1. cbn [list_to_set].
           rewrite (assoc_L (∪)).
           by rewrite (comm_L (∪) (list_to_set names) {[name]}).
      * by rewrite HR.
    + by rewrite HR, H1.
Qed.

Lemma print_summary_done (pv : ProgressVisualizer.t) (w : World) :
  ProgressVisualizer.total_operations pv ≠ 0 →
  told_results pv →
  ProgressVisualizer.print_summary pv w = (Done (), w).
Proof.
  intros Hpv Htold. unfold ProgressVisualizer.print_summary.
  destruct (decide (ProgressVisualizer.total_operations pv = 0)); [done|].
  assert (Hall : Forall (λ v, ∃ avg,
                    ProgressVisualizer.average_time v = Ok avg ∧
                    number_or_none avg)
                   (map_to_list (ProgressVisualizer.benchmark_results pv)).*2).
  { apply Forall_forall. intros v Hv.
    apply list_elem_of_fmap in Hv as ([name v'] & -> & Hv).
    apply elem_of_map_to_list in Hv. by eapply Htold. }
  induction Hall as [|v l (avg & Havg & Hnum) _ IH]; [done|].
  unfold of_result in *. simpl. rewrite Havg. simpl.
  destruct avg as [[]|]; done.
Qed.

(** X20: the reports to the visualizer do not change what [run_benchmarks]
    does, as long as the visualizer can print its header and its count of
    operations is not zero: the run with reports ends with the same
    exception, or with the same runner, and leaves the same output of the
    runner and the same result files as the run without them. *)
Theorem reports_preserve_run {gate} (numpy : Numpy)
    (env : string → nat → Measurement gate)
    (self : Runner) (pv : ProgressVisualizer.t) (w : World) :
  is_Some (ProgressVisualizer.compiler_info pv !! "compiler") →
  is_Some (ProgressVisualizer.compiler_info pv !! "version") →
  is_Some (ProgressVisualizer.compiler_info pv !! "optimization_level") →
  ProgressVisualizer.total_operations pv ≠ 0 →
  told_results pv →
  "aggregate" ∉ metric_list self →
  same_run (run_benchmarks numpy env self w) (Reported.run_benchmarks numpy env (self, pv) w).
Proof.
  intros [c Hc] [v Hv] [o Ho] Hpv Htold Hno.
  remember (Reported.run_benchmarks numpy env (self, pv) w) as R eqn:HR.
  unfold Reported.run_benchmarks in HR. cbn [fst snd] in HR.
  unfold ProgressVisualizer.start_benchmarking, ProgressVisualizer.print_header,
    getitem in HR. rewrite Hc, Hv, Ho in HR. cbn [from_option] in HR.
  unfold mbind at 1 2, Top_bind, of_result at 1 in HR. simpl in HR.
  unfold run_benchmarks. unfold mbind at 1, M_bind.
  pose proof (reported_cases numpy env (full_benchmark_list self) self pv w
                Hpv Htold Hno) as Hloop.
  destruct (for_each _ _ self w) as [[self1|e] w1].
  - destruct Hloop as (pv1 & Hloop & Hpv1 & Htold1 & _). rewrite Hloop in HR.
    cbn [fst snd] in HR. unfold mbind at 1, Top_bind in HR.
    rewrite print_summary_done in HR by (by rewrite ?Hpv1).
    unfold mbind, Top_bind, of_M, mret, Top_ret in HR.
    unfold mbind, M_bind, mret, M_ret.
    destruct (save_results self1 w1) as [[[]|e] w2]; subst R; split; reflexivity.
  - rewrite Hloop in HR. subst R. split; reflexivity.
Qed.

Lemma reports_preserve_run_witness :
  is_Some (ProgressVisualizer.compiler_info
             (ProgressVisualizer.init 1 1 example_compiler) !! "compiler") ∧
  is_Some (ProgressVisualizer.compiler_info
             (ProgressVisualizer.init 1 1 example_compiler) !! "version") ∧
  is_Some (ProgressVisualizer.compiler_info
             (ProgressVisualizer.init 1 1 example_compiler)
             !! "optimization_level") ∧
  ProgressVisualizer.total_operations
    (ProgressVisualizer.init 1 1 example_compiler) ≠ 0 ∧
  told_results (ProgressVisualizer.init 1 1 example_compiler) ∧
  ("aggregate" ∉ metric_list (adder_runner 1 "false")) ∧
  same_run (run_benchmarks example_numpy example_env (adder_runner 1 "false")
              empty_world)
    (Reported.run_benchmarks example_numpy example_env
       (adder_runner 1 "false", ProgressVisualizer.init 1 1 example_compiler)
       empty_world).
Proof.
  assert (H1 : is_Some (ProgressVisualizer.compiler_info
             (ProgressVisualizer.init 1 1 example_compiler) !! "compiler"))
    by (eexists; vm_compute; reflexivity).
  assert (H2 : is_Some (ProgressVisualizer.compiler_info
             (ProgressVisualizer.init 1 1 example_compiler) !! "version"))
    by (eexists; vm_compute; reflexivity).
  assert (H3 : is_Some (ProgressVisualizer.compiler_info
             (ProgressVisualizer.init 1 1 example_compiler)
             !! "optimization_level"))
    by (eexists; vm_compute; reflexivity).
  assert (H4 : ProgressVisualizer.total_operations
                 (ProgressVisualizer.init 1 1 example_compiler) ≠ 0)
    by (simpl; lia).
  assert (H5 : told_results (ProgressVisualizer.init 1 1 example_compiler)).
  { intros name v H. simpl in H. rewrite lookup_empty in H. discriminate H. }
  assert (H6 : "aggregate" ∉ metric_list (adder_runner 1 "false")).
  { apply (bool_decide_unpack _). vm_compute. exact I. }
  repeat (split; [assumption|]).
  exact (reports_preserve_run example_numpy example_env
           (adder_runner 1 "false")
           (ProgressVisualizer.init 1 1 example_compiler) empty_world
           H1 H2 H3 H4 H5 H6).
Defined.

Lemma preprocess_no_files (benchmarks : list Loaded) (self : Runner) (w : World) :
  benchmark_files benchmarks = [] →
  for_each preprocess_benchmark benchmarks self w = (Ok self, w).
Proof.
  induction benchmarks as [|b benchmarks IH]; intros Hnone; [reflexivity|].
  unfold benchmark_files in Hnone. rewrite filter_cons in Hnone.
  destruct (decide (file_name b ≠ ".DS_Store")) as [|Hds]; [done|].
  apply dec_stable in Hds.
  simpl. unfold mbind, M_bind. unfold preprocess_benchmark.
  rewrite bool_decide_eq_true_2 by done. simpl. by apply IH.
Qed.

Lemma listed_benchmarks (benchmarks : list Loaded) :
  length (filter (λ b, b ≠ ".DS_Store") (file_name <$> benchmarks))
  = length (benchmark_files benchmarks).
Proof.
  unfold benchmark_files.
  induction benchmarks as [|b benchmarks IH]; [reflexivity|].
  rewrite fmap_cons, !filter_cons.
  destruct (decide (file_name b ≠ ".DS_Store")); simpl; by rewrite IH.
Qed.

Lemma reported_init (config : gmap string value) (backend : string)
    (num_runs : Z) (second : string) (benchmarks : list Loaded)
    (w w' : World) (self : Runner) (pv : ProgressVisualizer.t) :
  Reported.Runner_init config backend num_runs second benchmarks w
    = (Ok (self, pv), w') →
  Runner_init config backend num_runs second benchmarks w = (Ok self, w') ∧
  pv = ProgressVisualizer.init
         (Z.of_nat (length (benchmark_files benchmarks))) num_runs config.
Proof.
  unfold Reported.Runner_init, mbind, M_bind, mret, M_ret.
  destruct (Runner_init config backend num_runs second benchmarks w)
    as [[self1|e] w1]; [|done].
  rewrite listed_benchmarks. by intros [= <- <- <-].
Qed.

(** X21: a run over an empty benchmark directory ends with a division by
    zero.  When no file but [.DS_Store] is listed, the constructor succeeds
    and prints nothing, the visualizer counts zero operations, and
    [run_benchmarks] raises [ZeroDivisionError] in the summary, before
    [save_results]: no result file is written. *)
Theorem empty_corpus_divides_by_zero {gate} (numpy : Numpy)
    (env : string → nat → Measurement gate) (config : gmap string value)
    (backend : string) (num_runs : Z) (second : string)
    (benchmarks : list Loaded) (w : World) :
  is_Some (config !! "compiler") →
  is_Some (config !! "version") →
  is_Some (config !! "optimization_level") →
  benchmark_files benchmarks = [] →
  ∃ self pv,
    Reported.Runner_init config backend num_runs second benchmarks w
      = (Ok (self, pv), w) ∧
    full_benchmark_list self = [] ∧
    ProgressVisualizer.total_operations pv = 0 ∧
    Reported.run_benchmarks numpy env (self, pv) w
      = (Raised ZeroDivisionError, w).
Proof.
  intros [c Hc] [v Hv] [o Ho] Hnone.
  unfold Reported.Runner_init, Runner_init, preprocess_benchmarks.
  unfold mbind at 1, M_bind. rewrite preprocess_no_files by done.
  eexists _, _. split; [reflexivity|]. split; [reflexivity|].
  rewrite listed_benchmarks, Hnone. split; [reflexivity|].
  unfold Reported.run_benchmarks. cbn [fst snd full_benchmark_list].
  unfold ProgressVisualizer.start_benchmarking, ProgressVisualizer.print_header,
    getitem. cbn [ProgressVisualizer.compiler_info ProgressVisualizer.init].
  rewrite Hc, Hv, Ho. reflexivity.
Qed.

Lemma empty_corpus_divides_by_zero_witness :
  is_Some (example_compiler !! "compiler") ∧
  is_Some (example_compiler !! "version") ∧
  is_Some (example_compiler !! "optimization_level") ∧
  benchmark_files [ {| file_name := ".DS_Store"; load_start := 0; load_end := 0;
         load_raises := no_exception |} ]
    = [] ∧
  ∃ self pv,
    Reported.Runner_init example_compiler "linear" 3 "false"
      [ {| file_name := ".DS_Store"; load_start := 0; load_end := 0;
         load_raises := no_exception |} ]
      empty_world = (Ok (self, pv), empty_world) ∧
    full_benchmark_list self = [] ∧
    ProgressVisualizer.total_operations pv = 0 ∧
    Reported.run_benchmarks example_numpy example_env (self, pv) empty_world
      = (Raised ZeroDivisionError, empty_world).
Proof.
  assert (H1 : is_Some (example_compiler !! "compiler"))
    by (eexists; vm_compute; reflexivity).
  assert (H2 : is_Some (example_compiler !! "version"))
    by (eexists; vm_compute; reflexivity).
  assert (H3 : is_Some (example_compiler !! "optimization_level"))
    by (eexists; vm_compute; reflexivity).
  assert (H4 : benchmark_files
                 [ {| file_name := ".DS_Store"; load_start := 0; load_end := 0;
         load_raises := no_exception |} ]
               = []) by (vm_compute; reflexivity).
  repeat (split; [assumption|]).
  exact (empty_corpus_divides_by_zero example_numpy example_env
           example_compiler "linear" 3
           "false" _ empty_world H1 H2 H3 H4).
Defined.

(** X22: [run_benchmark] called on a runner the constructor built raises
    [ZeroDivisionError] in its first report, before it measures anything,
    exactly when the repetition count is zero or no benchmark file was
    listed; otherwise its three reports change nothing. *)
Theorem run_benchmark_without_operations {gate}
    (config : gmap string value) (backend : string) (num_runs : Z)
    (second : string) (benchmarks : list Loaded) (w0 w1 : World)
    (self : Runner) (pv : ProgressVisualizer.t)
    (name : string) (m : Measurement gate) (w : World) :
  Reported.Runner_init config backend num_runs second benchmarks w0
    = (Ok (self, pv), w1) →
  Reported.run_benchmark pv self name m w =
  if decide (num_runs = 0 ∨ benchmark_files benchmarks = [])
  then (Raised ZeroDivisionError, w)
  else of_M (run_benchmark self name m) w.
Proof.
  intros Hinit. apply reported_init in Hinit as [_ ->].
  rewrite reported_run_benchmark. cbn [ProgressVisualizer.total_operations
    ProgressVisualizer.init].
  destruct (decide (num_runs = 0 ∨ benchmark_files benchmarks = []))
    as [[->| ->]|Hno].
  - by rewrite Z.mul_0_r.
  - done.
  - rewrite decide_False; [done|]. intros H.
    apply Z.mul_eq_0 in H as [H|H]; [|tauto].
    apply Hno. right. destruct (benchmark_files benchmarks); [done|].
    simpl in H. lia.
Qed.

Lemma run_benchmark_without_operations_witness :
  ∃ self pv w1,
    Reported.Runner_init example_compiler "heavy_hex" 0 "false" example_corpus
      empty_world = (Ok (self, pv), w1) ∧
    Reported.run_benchmark pv self "adder.qasm" (example_env "adder.qasm" 0) w1
    = if decide (0 = 0 ∨ benchmark_files example_corpus = [])
      then (Raised ZeroDivisionError, w1)
      else of_M (run_benchmark self "adder.qasm" (example_env "adder.qasm" 0)) w1.
Proof.
  destruct (Reported.Runner_init example_compiler "heavy_hex" 0 "false"
              example_corpus empty_world) as [[[self pv]|e] w1] eqn:Hinit.
  - exists self, pv, w1. split; [reflexivity|].
    exact (run_benchmark_without_operations example_compiler "heavy_hex" 0
             "false" example_corpus empty_world w1 self pv "adder.qasm"
             (example_env "adder.qasm" 0) w1 Hinit).
  - vm_compute in Hinit. discriminate Hinit.
Defined.

(** X23: the header of the visualizer needs the keys [compiler], [version]
    and [optimization_level] of the compiler description.  When one of them
    is missing, [run_benchmarks] on a runner the constructor built raises
    [KeyError] at once: nothing is measured, printed by the runner or
    saved. *)
Theorem run_benchmarks_missing_header {gate} (numpy : Numpy)
    (env : string → nat → Measurement gate)
    (config : gmap string value) (backend : string) (num_runs : Z)
    (second : string) (benchmarks : list Loaded) (w0 w : World)
    (self : Runner) (pv : ProgressVisualizer.t) :
  Reported.Runner_init config backend num_runs second benchmarks w0
    = (Ok (self, pv), w) →
  config !! "compiler" = None ∨ config !! "version" = None
  ∨ config !! "optimization_level" = None →
  Reported.run_benchmarks numpy env (self, pv) w = (Raised (Exn KeyError), w).
Proof.
  intros Hinit Hmiss. apply reported_init in Hinit as [_ ->].
  unfold Reported.run_benchmarks. cbn [fst snd].
  unfold ProgressVisualizer.start_benchmarking, ProgressVisualizer.print_header,
    getitem. cbn [ProgressVisualizer.compiler_info ProgressVisualizer.init].
  destruct (config !! "compiler") as [c|]; [|reflexivity].
  destruct (config !! "version") as [v|]; [|reflexivity].
  destruct (config !! "optimization_level") as [o|]; [|reflexivity].
  by destruct Hmiss as [|[|]].
Qed.

Lemma run_benchmarks_missing_header_witness :
  ∃ self pv w,
    Reported.Runner_init (delete "version" example_compiler) "heavy_hex" 2
      "false" example_corpus empty_world = (Ok (self, pv), w) ∧
    (delete "version" example_compiler !! "compiler" = None
     ∨ delete "version" example_compiler !! "version" = None
     ∨ delete "version" example_compiler !! "optimization_level" = None) ∧
    Reported.run_benchmarks example_numpy example_env (self, pv) w
      = (Raised (Exn KeyError), w).
Proof.
  destruct (Reported.Runner_init (delete "version" example_compiler)
              "heavy_hex" 2 "false" example_corpus empty_world)
    as [[[self pv]|e] w] eqn:Hinit.
  - assert (Hmiss : delete "version" example_compiler !! "compiler" = None
              ∨ delete "version" example_compiler !! "version" = None
              ∨ delete "version" example_compiler !! "optimization_level" = None)
      by (right; left; apply lookup_delete_eq).
    exists self, pv, w. split; [reflexivity|]. split; [exact Hmiss|].
    exact (run_benchmarks_missing_header example_numpy example_env
             (delete "version" example_compiler) "heavy_hex" 2 "false"
             example_corpus empty_world w self pv Hinit Hmiss).
  - vm_compute in Hinit. discriminate Hinit.
Defined.
(** ** A whole run *)

Lemma append_sample_Ok md name metric x l :
  get_sample md name metric = Ok l →
  ∃ md', append_sample md name metric x = Ok md'.
Proof.
  unfold append_sample, get_sample, getitem.
  destruct (md !! name) as [[| | | | |entry]|]; simpl; try done.
  destruct (entry !! metric) as [[| | |l'| |]|]; simpl; try done.
  by eexists.
Qed.

Lemma run_benchmark_succeeds {gate} (self : Runner) (name : string)
    (m : Measurement gate) (bt : float) (tt tr dp mem : list value) (d : Z) :
  has_samples (metric_data self) name tt [VFloat bt] tr dp mem →
  is_Some (compiler_dict self !! "compiler") →
  is_Some (compiler_dict self !! "optimization_level") →
  returns m →
  (get_circuit_depth (processed m)).1 = Ok d →
  ∃ self', run_benchmark_result self name m = Ok self'.
Proof.
  intros (Htt & Hbt & Htr & Hdp & Hmem) [c Hc] [o Ho] Hret Hd.
  unfold run_benchmark_result, memory_pass, profile_func, transpile_in_process,
    getitem. rewrite !Hret, Hc, Ho. cbn [library from_option mbind result_bind].
  destruct (append_sample_Ok _ _ _ (VFloat (end_mem m - start_mem m)) _ Hmem)
    as [md1 H1]. rewrite H1. cbn [mbind result_bind].
  assert (Htt1 := append_sample_ne _ _ _ _ _ "total_time (seconds)" H1 ltac:(done)).
  assert (Hbt1 := append_sample_ne _ _ _ _ _ "parsing/build_time (seconds)" H1 ltac:(done)).
  assert (Htr1 := append_sample_ne _ _ _ _ _ "transpile_time (seconds)" H1 ltac:(done)).
  assert (Hdp1 := append_sample_ne _ _ _ _ _ "depth (gates)" H1 ltac:(done)).
  rewrite Htt in Htt1. rewrite Hbt in Hbt1. rewrite Htr in Htr1. rewrite Hdp in Hdp1.
  unfold timing_pass, getitem. rewrite !Hret, Hc, Ho.
  cbn [library from_option mbind result_bind].
  destruct (append_sample_Ok _ _ _ (VFloat (end_time m - start_time m)) _ Htr1)
    as [md2 H2]. rewrite H2. cbn [mbind result_bind].
  pose proof (append_sample_eq _ _ _ _ _ H2) as (l2 & Hl2 & Htr2).
  assert (Htt2 := append_sample_ne _ _ _ _ _ "total_time (seconds)" H2 ltac:(done)).
  assert (Hbt2 := append_sample_ne _ _ _ _ _ "parsing/build_time (seconds)" H2 ltac:(done)).
  assert (Hdp2 := append_sample_ne _ _ _ _ _ "depth (gates)" H2 ltac:(done)).
  rewrite Htt1 in Htt2. rewrite Hbt1 in Hbt2. rewrite Hdp1 in Hdp2.
  rewrite Htt2. cbn [mbind result_bind].
  rewrite (last_sample_list _ _ _ _ Hbt2), (last_sample_list _ _ _ _ Htr2).
  rewrite last_item_snoc. cbn.
  match goal with
  | |- context [append_sample md2 name "total_time (seconds)" ?x] =>
      destruct (append_sample_Ok _ _ _ x _ Htt2) as [md3 H3]; rewrite H3
  end.
  cbn [mbind result_bind]. rewrite Hd. cbn [mbind result_bind].
  assert (Hdp3 := append_sample_ne _ _ _ _ _ "depth (gates)" H3 ltac:(done)).
  rewrite Hdp2 in Hdp3.
  destruct (append_sample_Ok _ _ _ (VInt d) _ Hdp3) as [md4 H4]. rewrite H4.
  by eexists.
Qed.

Lemma repetitions_succeed {gate} (env : nat → Measurement gate) (name : string)
    (bt : float) (runs : list nat) :
  (∀ i, i ∈ runs → returns (env i)) →
  (∀ i, i ∈ runs → ∃ d, (get_circuit_depth (processed (env i))).1 = Ok d) →
  ∀ (self : Runner) (tt tr dp mem : list value),
  has_samples (metric_data self) name tt [VFloat bt] tr dp mem →
  is_Some (compiler_dict self !! "compiler") →
  is_Some (compiler_dict self !! "optimization_level") →
  ∃ self', repetitions_result env name runs self = Ok self'.
Proof.
  induction runs as [|i runs IH]; intros Hret Hd self tt tr dp mem Hs Hc Ho.
  - by eexists.
  - destruct (Hd i ltac:(left)) as [d Hdi].
    destruct (run_benchmark_succeeds self name (env i) bt _ _ _ _ d Hs Hc Ho
                (Hret i ltac:(left)) Hdi) as [self1 H1].
    destruct (run_benchmark_samples _ _ _ _ _ _ _ _ _ Hs H1)
      as (d' & _ & Hs1 & _ & _).
    destruct (run_benchmark_result_frame _ _ _ _ H1) as [[md1 ->] _].
    destruct (IH (λ j Hj, Hret j ltac:(by right))
                (λ j Hj, Hd j ltac:(by right)) _ _ _ _ _ Hs1 Hc Ho)
      as [self' H'].
    exists self'. unfold repetitions_result in *. simpl. by rewrite H1.
Qed.

Lemma aggregate_of_succeeds (numpy : Numpy) (a : list float) :
  a ≠ [] → ∃ stats, aggregate_of numpy a = Ok stats.
Proof. destruct a; [done|]. intros _. by eexists. Qed.

Lemma fold_aggregate_succeeds (numpy : Numpy) (name : string)
    (entry : gmap string value) (metrics : list string) :
  "aggregate" ∉ metrics →
  (∀ metric, metric ∈ metrics →
     ∃ sample a, entry !! metric = Some sample ∧
                 np_array numpy sample = Ok a ∧ a ≠ []) →
  ∀ (md agg : gmap string value),
  md !! name = Some (VDict (<["aggregate" := VDict agg]> entry)) →
  ∃ md', fold_result (aggregate_step numpy name) metrics md = Ok md'.
Proof.
  induction metrics as [|metric metrics IH]; intros Hno Hall md agg Hmd.
  - by eexists.
  - apply not_elem_of_cons in Hno as [Hne Hno].
    destruct (Hall metric ltac:(left)) as (sample & a & Hsample & Ha & Hnil).
    destruct (aggregate_of_succeeds numpy a Hnil) as [stats Hstats].
    assert (Hstep : aggregate_step numpy name md metric
              = Ok (<[name := VDict (<["aggregate" := VDict (<[metric := stats]> agg)]>
                                      entry)]> md)).
    { unfold aggregate_step, getitem. rewrite Hmd. simpl.
      rewrite lookup_insert_eq. simpl.
      rewrite insert_insert_eq, lookup_insert_ne by done.
      rewrite Hsample. simpl. rewrite Ha. simpl. rewrite Hstats. simpl.
      by rewrite insert_insert_eq. }
    cbn [fold_result]. rewrite Hstep. cbn [mbind result_bind].
    apply (IH Hno (λ m Hm, Hall m ltac:(by right)) _ (<[metric := stats]> agg)).
    by rewrite lookup_insert_eq.
Qed.

Lemma get_sample_entry md name metric l :
  get_sample md name metric = Ok l →
  ∃ entry, md !! name = Some (VDict entry) ∧ entry !! metric = Some (VList l).
Proof.
  unfold get_sample, getitem.
  destruct (md !! name) as [[| | | | |entry]|]; simpl; try done.
  destruct (entry !! metric) as [[| | |l'| |]|] eqn:Hm; simpl; try done.
  intros [= ->]. by exists entry.
Qed.

Lemma np_array_floats {A : Type} (numpy : Numpy) (f : A → float) (l : list A) :
  np_array numpy (VList ((λ x, VFloat (f x)) <$> l)) = Ok (f <$> l).
Proof.
  unfold np_array.
  assert (Hnum : forallb is_number ((λ x, VFloat (f x)) <$> l) = true)
    by (induction l as [|x l IH]; [reflexivity | exact IH]).
  rewrite Hnum. induction l as [|x l IH]; [reflexivity|].
  rewrite !fmap_cons. cbn [mapM as_float mbind result_bind].
  rewrite IH by exact Hnum. reflexivity.
Qed.

Lemma np_array_ints (numpy : Numpy) (l : list Z) :
  Forall (λ d, ∃ x, float_of_int d = Ok x) l →
  ∃ a, np_array numpy (VList (VInt <$> l)) = Ok a ∧ length a = length l.
Proof.
  intros Hl. unfold np_array.
  assert (Hnum : forallb is_number (VInt <$> l) = true)
    by (clear Hl; induction l as [|x l IH]; [reflexivity | exact IH]).
  rewrite Hnum. clear Hnum.
  induction Hl as [|d l [x Hx] _ (a & Ha & Hlen)]; [by exists []|].
  exists (x :: a). rewrite fmap_cons. cbn [mapM as_float mbind result_bind].
  rewrite Hx. cbn [mbind result_bind]. rewrite Ha. simpl. by rewrite Hlen.
Qed.

(** The repetitions and statistics of a benchmark succeed when its entry is
    fresh, the compiler description has the keys the repetitions read, there
    is at least one repetition, every library call of a repetition returns,
    and every compiled program has a depth. *)
Lemma run_case_succeeds {gate} (numpy : Numpy) (env : nat → Measurement gate)
    (self : Runner) (name : string) (bt : float) (w : World) :
  metric_data self !! name = Some (new_entry bt) →
  is_Some (compiler_dict self !! "compiler") →
  is_Some (compiler_dict self !! "optimization_level") →
  0 < num_runs self →
  metric_list self =
    ["total_time (seconds)"; "parsing/build_time (seconds)";
     "transpile_time (seconds)"; "depth (gates)"; "memory_footprint (MiB)"] →
  (∀ i, returns (env i)) →
  (∀ i, has_depth (env i)) →
  ∃ self' w', run_case numpy env self name w = (Ok self', w').
Proof.
  intros Hnew Hc Ho Hruns Hlist Hret Hd.
  pose proof (run_case_fst numpy env self name w) as Hfst.
  destruct (repetitions_succeed env name bt (seq 0 (Z.to_nat (num_runs self)))
              (λ i _, Hret i)
              (λ i _, match Hd i with
                      | ex_intro _ d (ex_intro _ _ (conj H _)) =>
                          ex_intro _ d H
                      end)
              self _ _ _ _ (new_entry_samples _ _ _ Hnew) Hc Ho)
    as [self1 Hreps].
  rewrite Hreps in Hfst. cbn [mbind result_bind] in Hfst.
  destruct (repetitions_samples env name bt _ _ _ _ _ _ _
              (new_entry_samples _ _ _ Hnew) Hreps)
    as (ds0 & _ & (Htt & Hbt & Htr & _ & Hmem) & _ & Hlist1).
  destruct (repetitions_depths env name bt _ _ _ _ _ _ _
              (new_entry_samples _ _ _ Hnew) Hreps) as (ds & Hds & Hdp).
  assert (Hlen : length ds = Z.to_nat (num_runs self)).
  { apply Forall2_length in Hds. by rewrite length_seq in Hds. }
  assert (Hfloat : Forall (λ d, ∃ x, float_of_int d = Ok x) ds).
  { clear -Hds Hd. induction Hds as [|i d runs ds Hid _ IH]; constructor; [|done].
    destruct (Hd i) as (d' & x & Hd' & Hx). simpl in Hid.
    rewrite Hd' in Hid. injection Hid as <-. by exists x. }
  assert (Hpos : (0 < Z.to_nat (num_runs self))%nat) by lia.
  destruct (get_sample_entry _ _ _ _ Htt) as (entry & Hentry & Ett).
  destruct (get_sample_entry _ _ _ _ Hbt) as (? & E & Ebt).
  rewrite Hentry in E. injection E as <-.
  destruct (get_sample_entry _ _ _ _ Htr) as (? & E & Etr).
  rewrite Hentry in E. injection E as <-.
  destruct (get_sample_entry _ _ _ _ Hdp) as (? & E & Edp).
  rewrite Hentry in E. injection E as <-.
  destruct (get_sample_entry _ _ _ _ Hmem) as (? & E & Emem).
  rewrite Hentry in E. injection E as <-.
  assert (Hcalc : ∃ self',
            calculate_aggregate_statistics numpy self1 name = Ok self').
  { unfold calculate_aggregate_statistics, getitem. rewrite Hentry.
    cbn [from_option mbind result_bind as_dict].
    destruct (fold_aggregate_succeeds numpy name entry (metric_list self1))
      with (md := <[name := VDict (<["aggregate" := VDict ∅]> entry)]>
                    (metric_data self1)) (agg := (∅ : gmap string value))
      as [md' Hfold].
    - rewrite Hlist1, Hlist. apply (bool_decide_unpack _). vm_compute. exact I.
    - rewrite Hlist1, Hlist. intros metric Hm.
      assert (Hseq : seq 0 (Z.to_nat (num_runs self)) ≠ []).
      { destruct (Z.to_nat (num_runs self)); [lia|done]. }
      repeat (apply elem_of_cons in Hm as [->|Hm]).
      + eexists _, _. split; [exact Ett|]. rewrite app_nil_l.
        split; [apply np_array_floats|]. by destruct (seq _ _).
      + eexists _, _. split; [exact Ebt|]. split; [reflexivity|done].
      + eexists _, _. split; [exact Etr|]. rewrite app_nil_l.
        split; [apply np_array_floats|]. by destruct (seq _ _).
      + destruct (np_array_ints numpy ds Hfloat) as (a & Ha & Hla).
        exists (VList (VInt <$> ds)), a. split; [exact Edp|].
        split; [exact Ha|]. destruct a; [simpl in Hla; lia|done].
      + eexists _, _. split; [exact Emem|]. rewrite app_nil_l.
        split; [apply np_array_floats|]. by destruct (seq _ _).
      + by apply elem_of_nil in Hm.
    - by rewrite lookup_insert_eq.
    - rewrite Hfold. by eexists. }
  destruct Hcalc as [self' Hcalc]. rewrite Hcalc in Hfst.
  destruct (run_case numpy env self name w) as [r w']. simpl in Hfst. subst r.
  by exists self', w'.
Qed.

Lemma new_entry_inj (bt bt' : float) : new_entry bt = new_entry bt' → bt = bt'.
Proof.
  intros H.
  apply (f_equal (λ v, match v with
                       | VDict d => d !! "parsing/build_time (seconds)"
                       | _ => None
                       end)) in H.
  unfold new_entry in H.
  rewrite !(lookup_insert_ne _ "total_time (seconds)") in H by done.
  rewrite !lookup_insert_eq in H. by injection H.
Qed.

Lemma has_samples_lookup (md md' : gmap string value) (name : string)
    (tt bl tr dp mem : list value) :
  md' !! name = md !! name →
  has_samples md name tt bl tr dp mem → has_samples md' name tt bl tr dp mem.
Proof.
  intros H. unfold has_samples, get_sample, getitem. by rewrite H.
Qed.

(** The outer loop of [run_benchmarks] over benchmarks with fresh
    entries. *)
Lemma cases_succeed {gate} (numpy : Numpy)
    (env : string → nat → Measurement gate) (names : list string) :
  NoDup names →
  (∀ name i, returns (env name i)) →
  (∀ name i, has_depth (env name i)) →
  ∀ (self : Runner) (w : World),
  is_Some (compiler_dict self !! "compiler") →
  is_Some (compiler_dict self !! "optimization_level") →
  0 < num_runs self →
  metric_list self =
    ["total_time (seconds)"; "parsing/build_time (seconds)";
     "transpile_time (seconds)"; "depth (gates)"; "memory_footprint (MiB)"] →
  (∀ name, name ∈ names → ∃ bt, metric_data self !! name = Some (new_entry bt)) →
  ∃ self' w',
    for_each (λ self name, run_case numpy (env name) self name) names self w
      = (Ok self', w') ∧
    (∃ md, self' = with_metric_data self md) ∧
    results_dir w' = results_dir w ∧
    (∀ key, key ∉ names → metric_data self' !! key = metric_data self !! key) ∧
    (∀ name bt, name ∈ names → metric_data self !! name = Some (new_entry bt) →
       let runs := seq 0 (Z.to_nat (num_runs self)) in
       ∃ ds : list Z,
         length ds = Z.to_nat (num_runs self) ∧
         has_samples (metric_data self') name
           ((λ i, VFloat (total_sample bt (env name i))) <$> runs) [VFloat bt]
           ((λ i, VFloat (transpile_sample (env name i))) <$> runs)
           (VInt <$> ds)
           ((λ i, VFloat (memory_sample (env name i))) <$> runs)).
Proof.
  intros Hnd Hret Hd. induction Hnd as [|name names Hnotin Hnd IH];
    intros self w Hc Ho Hruns Hlist Hfresh.
  - exists self, w. split; [reflexivity|]. split.
    { exists (metric_data self). by destruct self. }
    split; [done|]. split; [done|].
    intros name bt Hin. by apply elem_of_nil in Hin.
  - destruct (Hfresh name ltac:(left)) as [bt Hnew].
    destruct (run_case_succeeds numpy (env name) self name bt w Hnew Hc Ho Hruns
                Hlist (Hret name) (Hd name)) as (self1 & w1 & Hrun).
    destruct (run_case_config _ _ _ _ _ _ _ Hrun) as [md1 Hself1].
    pose proof (run_case_others _ _ _ _ _ _ _ Hrun) as Hothers.
    pose proof (run_case_world _ _ _ _ _ _ _ Hrun) as Hw1.
    pose proof (run_case_samples _ _ _ _ _ bt _ _ Hnew Hrun) as Hsamples.
    assert (Hfresh1 : ∀ n, n ∈ names →
              ∃ bt, metric_data self1 !! n = Some (new_entry bt)).
    { intros n Hn. rewrite Hothers by (intros ->; done).
      apply Hfresh. by right. }
    assert (Hnum : num_runs self1 = num_runs self) by (by subst self1).
    destruct (IH self1 w1) as (self' & w' & Hloop & [md' Hself'] & Hw' & Hout & Hin).
    { by subst self1. }
    { by subst self1. }
    { by rewrite Hnum. }
    { by subst self1. }
    { exact Hfresh1. }
    exists self', w'. split.
    { cbn [for_each]. unfold mbind, M_bind. by rewrite Hrun. }
    split.
    { exists md'. subst self' self1. reflexivity. }
    split; [by rewrite Hw'|]. split.
    { intros key Hkey. apply not_elem_of_cons in Hkey as [Hne Hkey].
      rewrite (Hout key Hkey). by apply Hothers. }
    intros n btn Hn Hnewn runs.
    apply elem_of_cons in Hn as [->|Hn].
    + rewrite Hnew in Hnewn.
      assert (bt = btn) as <- by (apply new_entry_inj; congruence).
      destruct Hsamples as (ds & Hlen & Hs).
      exists ds. split; [done|].
      by apply (has_samples_lookup (metric_data self1)); [apply Hout|].
    + destruct (Hin n btn Hn) as (ds & Hlen & Hs).
      { rewrite Hothers by (intros ->; done). done. }
      exists ds. rewrite Hnum in Hlen, Hs. by split.
Qed.

(** The constructor followed by [run_benchmarks], up to [save_results]. *)
Lemma whole_run {gate} (numpy : Numpy)
    (env : string → nat → Measurement gate)
    (config : gmap string value) (compiler : value) (target : string)
    (runs : Z) (second : string) (benchmarks : list Loaded) (w : World) :
  config !! "compiler" = Some compiler →
  eq_str compiler "pytket" || eq_str compiler "qiskit" = true →
  is_Some (config !! "version") →
  is_Some (config !! "optimization_level") →
  NoDup (file_name <$> benchmarks) →
  benchmark_files benchmarks ≠ [] →
  0 < runs →
  (∀ b, b ∈ benchmark_files benchmarks → loads b) →
  (∀ name i, returns (env name i)) →
  (∀ name i, has_depth (env name i)) →
  ∃ self pv w1 self' pv' w2,
    Reported.Runner_init config target runs second benchmarks w
      = (Ok (self, pv), w1) ∧
    results_dir w2 = results_dir w ∧
    second_compiler_readout self' = second ∧
    Reported.run_benchmarks numpy env (self, pv) w1
      = match save_results self' w2 with
        | (Ok _, w') => (Done (self', pv'), w')
        | (Raise e, w') => (Raised (Exn e), w')
        end ∧
    (∀ key, key ∉ file_name <$> benchmark_files benchmarks →
       metric_data self' !! key = initial_metric_data config target !! key) ∧
    (∀ b, b ∈ benchmark_files benchmarks →
       ∃ depths : list Z,
         length depths = Z.to_nat runs ∧
         has_samples (metric_data self') (file_name b)
           ((λ i, VFloat (total_sample (load_end b - load_start b)%float
                            (env (file_name b) i))) <$> seq 0 (Z.to_nat runs))
           [VFloat (load_end b - load_start b)%float]
           ((λ i, VFloat (transpile_sample (env (file_name b) i)))
              <$> seq 0 (Z.to_nat runs))
           (VInt <$> depths)
           ((λ i, VFloat (memory_sample (env (file_name b) i)))
              <$> seq 0 (Z.to_nat runs))) ∧
    ProgressVisualizer.total_operations pv'
      = Z.of_nat (length (benchmark_files benchmarks)) * runs ∧
    ProgressVisualizer.current_operation pv'
      = ProgressVisualizer.total_operations pv' ∧
    dom (ProgressVisualizer.benchmark_results pv')
      = list_to_set (file_name <$> benchmark_files benchmarks).
Proof.
  intros Hcd Hc [v Hv] [o Ho] Hnd Hfiles Hruns Hloads Hret Hd.
  destruct (benchmark_files_names benchmarks Hnd) as [Hnd' Hds].
  unfold Reported.Runner_init, Runner_init, preprocess_benchmarks.
  unfold mbind at 1, M_bind.
  rewrite (preprocess_loop compiler benchmarks Hc Hloads) by done.
  cbn [compiler_dict backend num_runs full_benchmark_list metric_data
       metric_list second_compiler_readout results_dir stdout app].
  fold (initial_metric_data config target).
  rewrite listed_benchmarks.
  set (self := {| compiler_dict := config;
                  full_benchmark_list := file_name <$> benchmark_files benchmarks |}).
  set (pv := ProgressVisualizer.init _ runs config).
  set (w1 := {| results_dir := results_dir w |}).
  assert (Hpv : ProgressVisualizer.total_operations pv ≠ 0).
  { subst pv. cbn [ProgressVisualizer.total_operations ProgressVisualizer.init].
    destruct (benchmark_files benchmarks); [done|]. simpl length. nia. }
  assert (Htold : told_results pv).
  { intros name x H. subst pv. simpl in H. rewrite lookup_empty in H.
    discriminate H. }
  assert (Hno : "aggregate" ∉ metric_list self).
  { subst self. cbn [metric_list]. apply (bool_decide_unpack _).
    vm_compute. exact I. }
  destruct (cases_succeed numpy env (full_benchmark_list self) Hnd' Hret Hd
              self w1)
    as (self' & w2 & Hloop & [md' Hself'] & Hw2 & Hout & Hin).
  { subst self. cbn [compiler_dict]. by rewrite Hcd. }
  { subst self. cbn [compiler_dict]. by rewrite Ho. }
  { done. }
  { reflexivity. }
  { intros name Hname. subst self. cbn [full_benchmark_list metric_data] in *.
    apply list_elem_of_fmap in Hname as (b & -> & Hb).
    eexists. by apply loaded_metric_data_file. }
  pose proof (reported_cases numpy env (full_benchmark_list self) self pv w1
                Hpv Htold Hno) as Hrep.
  rewrite Hloop in Hrep.
  destruct Hrep as (pv' & Hrep & Hpv' & Htold' & Hcur' & Hdom').
  exists self, pv, w1, self', pv', w2.
  split; [reflexivity|]. split; [exact Hw2|].
  split; [by subst self' self|]. split.
  { unfold Reported.run_benchmarks. cbn [fst snd].
    unfold ProgressVisualizer.start_benchmarking,
      ProgressVisualizer.print_header, getitem.
    assert (Hinfo : ProgressVisualizer.compiler_info pv = config) by done.
    rewrite Hinfo, Hcd, Hv, Ho. cbn [from_option].
    unfold mbind at 1 2, Top_bind, of_result at 1. simpl.
    change (file_name <$> benchmark_files benchmarks)
      with (full_benchmark_list self).
    rewrite Hrep. cbn [fst snd]. unfold mbind at 1, Top_bind.
    rewrite print_summary_done by (by rewrite ?Hpv').
    unfold mbind, Top_bind, of_M.
    by destruct (save_results self' w2) as [[[]|e] w3]. }
  split.
  { intros key Hkey. rewrite (Hout key Hkey). subst self. cbn [metric_data].
    by apply loaded_metric_data_other. }
  split.
  { intros b Hb.
    apply (Hin (file_name b) (load_end b - load_start b)%float).
    - apply list_elem_of_fmap. by exists b.
    - subst self. cbn [metric_data]. by apply loaded_metric_data_file. }
  split; [by rewrite Hpv'|]. split.
  - rewrite Hcur', Hpv'. subst pv self.
    cbn [ProgressVisualizer.current_operation ProgressVisualizer.total_operations
         ProgressVisualizer.init full_benchmark_list num_runs].
    rewrite length_fmap. lia.
  - rewrite Hdom'. subst pv self.
    cbn [ProgressVisualizer.benchmark_results ProgressVisualizer.init
         full_benchmark_list].
    by rewrite dom_empty_L, (right_id_L ∅ (∪)).
Qed.

Lemma example_env_returns (name : string) (i : nat) :
  returns (example_env name i).
Proof. intros c. reflexivity. Qed.

Lemma example_env_has_depth (name : string) (i : nat) :
  has_depth (example_env name i).
Proof. exists 2, 2%float. split; vm_compute; reflexivity. Qed.

(** X24: a whole run.  With the compiler named [pytket] or [qiskit], the keys
    [version] and [optimization_level] in its description, distinct file
    names, at least one benchmark file, at least one repetition, every
    benchmark file read and parsed without an exception, every library call
    of every repetition returning, every compiled program having a depth
    that a double can hold, and the flag not ["true"], the constructor
    followed by [run_benchmarks] ends normally.  One result file is written,
    numbered one more than the number of files there were, holding the
    one-element sequence of the record; in the record, the keys that are
    not benchmarks are as the constructor set them, and every benchmark has
    one sample per repetition in each metric but the build time, which has
    one. *)
Theorem whole_run_saves {gate} (numpy : Numpy)
    (env : string → nat → Measurement gate)
    (config : gmap string value) (compiler : value) (target : string)
    (runs : Z) (second : string) (benchmarks : list Loaded) (w : World) :
  config !! "compiler" = Some compiler →
  eq_str compiler "pytket" || eq_str compiler "qiskit" = true →
  is_Some (config !! "version") →
  is_Some (config !! "optimization_level") →
  NoDup (file_name <$> benchmarks) →
  benchmark_files benchmarks ≠ [] →
  0 < runs →
  second ≠ "true" →
  (∀ b, b ∈ benchmark_files benchmarks → loads b) →
  (∀ name i, returns (env name i)) →
  (∀ name i, has_depth (env name i)) →
  ∃ self pv w1 self' pv' w',
    Reported.Runner_init config target runs second benchmarks w
      = (Ok (self, pv), w1) ∧
    Reported.run_benchmarks numpy env (self, pv) w1 = (Done (self', pv'), w') ∧
    result_files w' =
      <[results_path (size (result_files w) + 1) :=
          JsonFile (VList [json_roundtrip (VDict (metric_data self'))])]>
        (result_files w) ∧
    (∀ key, key ∉ file_name <$> benchmark_files benchmarks →
       metric_data self' !! key = initial_metric_data config target !! key) ∧
    (∀ b, b ∈ benchmark_files benchmarks →
       let name := file_name b in
       let build_time := (load_end b - load_start b)%float in
       let repetitions := seq 0 (Z.to_nat runs) in
       ∃ depths : list Z,
         length depths = Z.to_nat runs ∧
         has_samples (metric_data self') name
           ((λ i, VFloat (total_sample build_time (env name i))) <$> repetitions)
           [VFloat build_time]
           ((λ i, VFloat (transpile_sample (env name i))) <$> repetitions)
           (VInt <$> depths)
           ((λ i, VFloat (memory_sample (env name i))) <$> repetitions)).
Proof.
  intros Hcd Hc Hv Ho Hnd Hfiles Hruns Hflag Hloads Hret Hd.
  destruct (whole_run numpy env config compiler target runs second benchmarks w
              Hcd Hc Hv Ho Hnd Hfiles Hruns Hloads Hret Hd)
    as (self & pv & w1 & self' & pv' & w2 & Hinit & Hw2 & Hsecond & Hrun
        & Hout & Hin & _).
  rewrite (save_results_primary self' w2) in Hrun by (by rewrite Hsecond).
  assert (Hrf : result_files w2 = result_files w).
  { unfold result_files. by rewrite Hw2. }
  rewrite Hrf in Hrun.
  exists self, pv, w1, self', pv'. eexists.
  split; [exact Hinit|]. split; [exact Hrun|]. split.
  { exact (result_files_insert (default ∅ (results_dir w)) _ _ _). }
  split; [exact Hout|]. exact Hin.
Qed.

Lemma whole_run_saves_witness :
  example_compiler !! "compiler" = Some (VStr "qiskit") ∧
  eq_str (VStr "qiskit") "pytket" || eq_str (VStr "qiskit") "qiskit" = true ∧
  is_Some (example_compiler !! "version") ∧
  is_Some (example_compiler !! "optimization_level") ∧
  NoDup (file_name <$> example_corpus) ∧
  benchmark_files example_corpus ≠ [] ∧
  0 < 2 ∧
  "false" ≠ "true" ∧
  (∀ b, b ∈ benchmark_files example_corpus → loads b) ∧
  (∀ name i, returns (example_env name i)) ∧
  (∀ name i, has_depth (example_env name i)) ∧
  ∃ self pv w1 self' pv' w',
    Reported.Runner_init example_compiler "heavy_hex" 2 "false" example_corpus
      empty_world = (Ok (self, pv), w1) ∧
    Reported.run_benchmarks example_numpy example_env (self, pv) w1
      = (Done (self', pv'), w') ∧
    result_files w' =
      <[results_path (size (result_files empty_world) + 1) :=
          JsonFile (VList [json_roundtrip (VDict (metric_data self'))])]>
        (result_files empty_world).
Proof.
  assert (H1 : example_compiler !! "compiler" = Some (VStr "qiskit"))
    by (vm_compute; reflexivity).
  assert (H2 : eq_str (VStr "qiskit") "pytket" || eq_str (VStr "qiskit") "qiskit"
               = true) by (vm_compute; reflexivity).
  assert (H3 : is_Some (example_compiler !! "version"))
    by (eexists; vm_compute; reflexivity).
  assert (H4 : is_Some (example_compiler !! "optimization_level"))
    by (eexists; vm_compute; reflexivity).
  assert (H5 : NoDup (file_name <$> example_corpus)).
  { apply (bool_decide_unpack _). vm_compute. exact I. }
  assert (H6 : benchmark_files example_corpus ≠ []).
  { intros H. vm_compute in H. discriminate H. }
  assert (H7 : 0 < 2) by lia.
  assert (H8 : "false" ≠ "true") by discriminate.
  assert (H9 : ∀ b, b ∈ benchmark_files example_corpus → loads b)
    by exact example_corpus_loads.
  assert (H10 : ∀ name i, returns (example_env name i))
    by exact example_env_returns.
  assert (H11 : ∀ name i, has_depth (example_env name i))
    by exact example_env_has_depth.
  repeat (split; [assumption|]).
  destruct (whole_run_saves example_numpy example_env example_compiler
              (VStr "qiskit") "heavy_hex" 2 "false" example_corpus empty_world
              H1 H2 H3 H4 H5 H6 H7 H8 H9 H10 H11)
    as (self & pv & w1 & self' & pv' & w' & Hinit & Hrun & Hfiles & _).
  exists self, pv, w1, self', pv', w'. repeat split; assumption.
Defined.

(** What the loop of the constructor returns when it ends normally. *)
Lemma preprocess_loop_Ok (benchmarks : list Loaded) :
  ∀ (self self' : Runner) (w w' : World),
  for_each preprocess_benchmark benchmarks self w = (Ok self', w') →
  num_runs self' = num_runs self ∧
  metric_list self' = metric_list self ∧
  full_benchmark_list self'
  = full_benchmark_list self ++ (file_name <$> benchmark_files benchmarks).
Proof.
  induction benchmarks as [|b benchmarks IH]; intros self self' w w' H.
  - injection H as <- <-. by rewrite app_nil_r.
  - cbn [for_each] in H. unfold mbind at 1, M_bind in H.
    unfold benchmark_files. rewrite filter_cons.
    unfold preprocess_benchmark at 1 in H.
    destruct (decide (file_name b = ".DS_Store")) as [Hds | Hds].
    + rewrite bool_decide_eq_true_2 in H by done.
      rewrite decide_False by (intros Hne; by apply Hne).
      by apply IH in H.
    + rewrite bool_decide_eq_false_2 in H by done. rewrite decide_True by done.
      unfold mbind, M_bind, print, lift, mret, M_ret in H.
      destruct (library (load_raises b ReadFile)); [|discriminate H].
      destruct (getitem (compiler_dict self) "compiler") as [c|];
        [|discriminate H].
      destruct (eq_str c "pytket").
      * destruct (library (load_raises b ParseFile)); [|discriminate H].
        apply IH in H as (Hn & Hl & Hf). cbn in Hn, Hl, Hf.
        rewrite fmap_cons, Hf, <- app_assoc. done.
      * destruct (eq_str c "qiskit").
        -- destruct (library (load_raises b ParseFile)); [|discriminate H].
           apply IH in H as (Hn & Hl & Hf). cbn in Hn, Hl, Hf.
           rewrite fmap_cons, Hf, <- app_assoc. done.
        -- discriminate H.
Qed.

(** X27: a run that goes through leaves the visualizer at the end of its
    count.  Under the conditions of a successful run and whatever the flag,
    when [run_benchmarks] ends normally the visualizer has counted one
    operation per repetition of each benchmark file, which is its total; it
    was told of the results of every benchmark file and of nothing else. *)
Theorem progress_reaches_total {gate} (numpy : Numpy)
    (env : string → nat → Measurement gate)
    (config : gmap string value) (compiler : value) (target : string)
    (runs : Z) (second : string) (benchmarks : list Loaded) (w w1 w' : World)
    (self self' : Runner) (pv pv' : ProgressVisualizer.t) :
  config !! "compiler" = Some compiler →
  eq_str compiler "pytket" || eq_str compiler "qiskit" = true →
  is_Some (config !! "version") →
  is_Some (config !! "optimization_level") →
  NoDup (file_name <$> benchmarks) →
  benchmark_files benchmarks ≠ [] →
  0 < runs →
  (∀ name i, ∃ d, (get_circuit_depth (processed (env name i))).1 = Ok d) →
  Reported.Runner_init config target runs second benchmarks w
    = (Ok (self, pv), w1) →
  Reported.run_benchmarks numpy env (self, pv) w1 = (Done (self', pv'), w') →
  ProgressVisualizer.current_operation pv = 0 ∧
  ProgressVisualizer.total_operations pv'
    = Z.of_nat (length (benchmark_files benchmarks)) * runs ∧
  ProgressVisualizer.current_operation pv'
    = ProgressVisualizer.total_operations pv' ∧
  dom (ProgressVisualizer.benchmark_results pv')
    = list_to_set (file_name <$> benchmark_files benchmarks).
Proof.
  intros Hcd Hc [v Hv] [o Ho] Hnd Hfiles Hruns Hd Hinit Hrun.
  apply reported_init in Hinit as [Hplain ->].
  split; [reflexivity|].
  unfold Runner_init, preprocess_benchmarks in Hplain.
  apply preprocess_loop_Ok in Hplain as (Hnum & Hlist & Hfull).
  cbn [num_runs metric_list full_benchmark_list app] in Hnum, Hlist, Hfull.
  set (pv := ProgressVisualizer.init _ runs config) in *.
  assert (Hpv : ProgressVisualizer.total_operations pv ≠ 0).
  { subst pv. cbn [ProgressVisualizer.total_operations ProgressVisualizer.init].
    destruct (benchmark_files benchmarks); [done|]. simpl length. nia. }
  assert (Htold : told_results pv).
  { intros name x H. subst pv. simpl in H. rewrite lookup_empty in H.
    discriminate H. }
  assert (Hno : "aggregate" ∉ metric_list self).
  { rewrite Hlist. apply (bool_decide_unpack _). vm_compute. exact I. }
  unfold Reported.run_benchmarks in Hrun. cbn [fst snd] in Hrun.
  unfold ProgressVisualizer.start_benchmarking,
    ProgressVisualizer.print_header, getitem in Hrun.
  assert (Hinfo : ProgressVisualizer.compiler_info pv = config) by done.
  rewrite Hinfo, Hcd, Hv, Ho in Hrun. cbn [from_option] in Hrun.
  unfold mbind at 1 2, Top_bind, of_result at 1 in Hrun. simpl in Hrun.
  pose proof (reported_cases numpy env (full_benchmark_list self) self pv w1
                Hpv Htold Hno) as Hrep.
  destruct (for_each _ (full_benchmark_list self) self w1) as [[self1|e] w2].
  - destruct Hrep as (pv1 & Hrep & Hpv1 & Htold1 & Hcur1 & Hdom1).
    rewrite Hrep in Hrun. cbn [fst snd] in Hrun.
    unfold mbind at 1, Top_bind in Hrun.
    rewrite print_summary_done in Hrun by (by rewrite ?Hpv1).
    unfold mbind, Top_bind, of_M, mret, Top_ret in Hrun.
    destruct (save_results self1 w2) as [[[]|e] w3]; [|discriminate Hrun].
    injection Hrun as <- <- <-.
    rewrite Hpv1, Hcur1, Hdom1, Hfull, Hnum. subst pv.
    cbn [ProgressVisualizer.current_operation ProgressVisualizer.total_operations
         ProgressVisualizer.init ProgressVisualizer.benchmark_results].
    rewrite length_fmap. split; [reflexivity|]. split; [lia|].
    by rewrite dom_empty_L, (right_id_L ∅ (∪)).
  - rewrite Hrep in Hrun. discriminate Hrun.
Qed.

Lemma progress_reaches_total_witness :
  example_compiler !! "compiler" = Some (VStr "qiskit") ∧
  eq_str (VStr "qiskit") "pytket" || eq_str (VStr "qiskit") "qiskit" = true ∧
  is_Some (example_compiler !! "version") ∧
  is_Some (example_compiler !! "optimization_level") ∧
  NoDup (file_name <$> example_corpus) ∧
  benchmark_files example_corpus ≠ [] ∧
  0 < 2 ∧
  (∀ name i, ∃ d,
     (get_circuit_depth (processed (example_env name i))).1 = Ok d) ∧
  ∃ self pv w1 self' pv' w',
    Reported.Runner_init example_compiler "heavy_hex" 2 "false" example_corpus
      empty_world = (Ok (self, pv), w1) ∧
    Reported.run_benchmarks example_numpy example_env (self, pv) w1
      = (Done (self', pv'), w') ∧
    ProgressVisualizer.current_operation pv = 0 ∧
    ProgressVisualizer.total_operations pv'
      = Z.of_nat (length (benchmark_files example_corpus)) * 2 ∧
    ProgressVisualizer.current_operation pv'
      = ProgressVisualizer.total_operations pv' ∧
    dom (ProgressVisualizer.benchmark_results pv')
      = list_to_set (file_name <$> benchmark_files example_corpus).
Proof.
  assert (H1 : example_compiler !! "compiler" = Some (VStr "qiskit"))
    by (vm_compute; reflexivity).
  assert (H2 : eq_str (VStr "qiskit") "pytket" || eq_str (VStr "qiskit") "qiskit"
               = true) by (vm_compute; reflexivity).
  assert (H3 : is_Some (example_compiler !! "version"))
    by (eexists; vm_compute; reflexivity).
  assert (H4 : is_Some (example_compiler !! "optimization_level"))
    by (eexists; vm_compute; reflexivity).
  assert (H5 : NoDup (file_name <$> example_corpus)).
  { apply (bool_decide_unpack _). vm_compute. exact I. }
  assert (H6 : benchmark_files example_corpus ≠ []).
  { intros H. vm_compute in H. discriminate H. }
  assert (H7 : 0 < 2) by lia.
  assert (H8 : ∀ name i, ∃ d,
            (get_circuit_depth (processed (example_env name i))).1 = Ok d).
  { intros name i. exists 2. vm_compute. reflexivity. }
  repeat (split; [assumption|]).
  destruct (whole_run example_numpy example_env example_compiler (VStr "qiskit")
              "heavy_hex" 2 "false" example_corpus empty_world H1 H2 H3 H4 H5
              H6 H7 example_corpus_loads example_env_returns
              example_env_has_depth)
    as (self & pv & w1 & self' & pv' & w2 & Hinit & _ & Hsecond & Hrun & _).
  rewrite (save_results_primary self' w2) in Hrun
    by (rewrite Hsecond; discriminate).
  exists self, pv, w1, self', pv'. eexists.
  split; [exact Hinit|]. split; [exact Hrun|].
  exact (progress_reaches_total example_numpy example_env example_compiler
           (VStr "qiskit") "heavy_hex" 2 "false" example_corpus empty_world w1 _
           self self' pv pv' H1 H2 H3 H4 H5 H6 H7 H8 Hinit Hrun).
Defined.
(** ** The program *)

Lemma command_line_keys (compiler version : string) (optimization_level : Z) :
  command_line compiler version optimization_level !! "compiler"
    = Some (VStr compiler) ∧
  is_Some (command_line compiler version optimization_level !! "version") ∧
  is_Some (command_line compiler version optimization_level
             !! "optimization_level").
Proof.
  unfold command_line. split; [by rewrite lookup_insert_eq|]. split.
  - rewrite lookup_insert_ne by done. rewrite lookup_insert_eq. by eexists.
  - rewrite !lookup_insert_ne by done. rewrite lookup_insert_eq. by eexists.
Qed.

Lemma saved_record_backend (self : Runner) (config : gmap string value)
    (target : string) (names : list string) :
  (∀ key, key ∉ names →
     metric_data self !! key = initial_metric_data config target !! key) →
  "backend" ∉ names →
  saved_record self !! "backend" = Some (VStr target).
Proof.
  intros Hout Hno. unfold saved_record. rewrite lookup_fmap, (Hout _ Hno).
  unfold initial_metric_data. rewrite lookup_insert_ne by done.
  by rewrite lookup_insert_eq.
Qed.

(** One turn of the loop of the program, up to [save_results]. *)
Lemma main_step_run {gate} (numpy : Numpy)
    (compiler version : string)
    (optimization_level num_runs : Z) (second : string)
    (listing : string → list Loaded)
    (env : string → string → nat → Measurement gate)
    (target : string) (w : World) :
  compiler = "pytket" ∨ compiler = "qiskit" →
  NoDup (file_name <$> listing target) →
  benchmark_files (listing target) ≠ [] →
  0 < num_runs →
  (∀ b, b ∈ benchmark_files (listing target) → loads b) →
  (∀ name i, returns (env target name i)) →
  (∀ name i, has_depth (env target name i)) →
  ∃ self' w2,
    results_dir w2 = results_dir w ∧
    second_compiler_readout self' = second ∧
    main_step numpy compiler version optimization_level num_runs second listing env
      () target w
    = match save_results self' w2 with
      | (Ok _, w') => (Done (), w')
      | (Raise e, w') => (Raised (Exn e), w')
      end ∧
    ("backend" ∉ file_name <$> listing target →
     saved_record self' !! "backend" = Some (VStr target)).
Proof.
  intros Hcompiler Hnd Hfiles Hruns Hloads Hret Hd.
  destruct (command_line_keys compiler version optimization_level)
    as (Hc & Hv & Ho).
  destruct (whole_run numpy (env target)
              (command_line compiler version optimization_level)
              (VStr compiler) target num_runs second (listing target) w
              Hc ltac:(by destruct Hcompiler as [-> | ->]) Hv Ho Hnd Hfiles
              Hruns Hloads Hret Hd)
    as (self & pv & w1 & self' & pv' & w2 & Hinit & Hw2 & Hsecond & Hrun
        & Hout & _).
  exists self', w2. split; [exact Hw2|]. split; [exact Hsecond|]. split.
  - unfold main_step. unfold mbind at 1, Top_bind, of_M. rewrite Hinit.
    unfold mbind, Top_bind. rewrite Hrun.
    by destruct (save_results self' w2) as [[[]|e] w3].
  - intros Hno. apply (saved_record_backend _ _ _ _ Hout).
    intros Hin. apply Hno.
    apply list_elem_of_fmap in Hin as (b & Hb & Hin).
    apply list_elem_of_fmap. exists b. split; [done|].
    unfold benchmark_files in Hin. by apply list_elem_of_filter in Hin as [_ ?].
Qed.

Lemma main_step_primary {gate} (numpy : Numpy)
    (compiler version : string)
    (optimization_level num_runs : Z) (second : string)
    (listing : string → list Loaded)
    (env : string → string → nat → Measurement gate)
    (target : string) (w : World) (k : nat) :
  compiler = "pytket" ∨ compiler = "qiskit" →
  NoDup (file_name <$> listing target) →
  benchmark_files (listing target) ≠ [] →
  0 < num_runs →
  (∀ b, b ∈ benchmark_files (listing target) → loads b) →
  (∀ name i, returns (env target name i)) →
  (∀ name i, has_depth (env target name i)) →
  second ≠ "true" →
  numbered (result_files w) k →
  ∃ record w',
    main_step numpy compiler version optimization_level num_runs second listing env
      () target w = (Done (), w') ∧
    result_files w' =
      <[results_path (S k) := JsonFile (VList [VDict record])]> (result_files w) ∧
    numbered (result_files w') (S k) ∧
    ("backend" ∉ file_name <$> listing target →
     record !! "backend" = Some (VStr target)).
Proof.
  intros Hcompiler Hnd Hfiles Hruns Hloads Hret Hd Hflag Hk.
  destruct (main_step_run numpy compiler version optimization_level num_runs
              second listing env target w Hcompiler Hnd Hfiles Hruns Hloads
              Hret Hd)
    as (self' & w2 & Hw2 & Hsecond & Hstep & Hbackend).
  rewrite (save_results_primary self' w2) in Hstep by (by rewrite Hsecond).
  assert (Hrf : result_files w2 = result_files w).
  { unfold result_files. by rewrite Hw2. }
  rewrite Hrf, (numbered_size _ _ Hk), Nat.add_1_r in Hstep.
  exists (saved_record self'). eexists. split; [exact Hstep|].
  assert (Hfiles' : ∀ out f,
    result_files {| results_dir := Some (<[results_path (S k) := f]> (result_files w));
                    stdout := out |}
    = <[results_path (S k) := f]> (result_files w)).
  { intros out f. exact (result_files_insert (default ∅ (results_dir w)) _ _ _). }
  rewrite Hfiles'. split; [reflexivity|]. split; [|exact Hbackend].
  by apply numbered_insert_next.
Qed.

(** X25: the program runs the benchmarks three times, once per target, and
    saves after each.  With the flag not ["true"], a compiler named [pytket]
    or [qiskit], at least one repetition, benchmark files with distinct
    names that are read and parsed without an exception, every library call
    of every repetition returning and every compiled program having a depth
    that a double can hold, a directory holding the result files of runs 1 to k ends holding those of
    runs 1 to k + 3: the three new files hold one record each, in the order
    [heavy_hex], [all_to_all], [linear] of the targets, and the files there
    were are as they were. *)
Theorem main_writes_three_files {gate} (numpy : Numpy)
    (compiler version : string)
    (optimization_level runs : Z) (second : string)
    (listing : string → list Loaded)
    (env : string → string → nat → Measurement gate) (w : World) (k : nat) :
  compiler = "pytket" ∨ compiler = "qiskit" →
  (∀ target, NoDup (file_name <$> listing target)) →
  (∀ target, benchmark_files (listing target) ≠ []) →
  (∀ target, "backend" ∉ file_name <$> listing target) →
  0 < runs →
  (∀ target b, b ∈ benchmark_files (listing target) → loads b) →
  (∀ target name i, returns (env target name i)) →
  (∀ target name i, has_depth (env target name i)) →
  second ≠ "true" →
  numbered (result_files w) k →
  ∃ r1 r2 r3 w',
    main numpy compiler version optimization_level runs second listing env w
      = (Done (), w') ∧
    result_files w' =
      <[results_path (k + 3) := JsonFile (VList [VDict r3])]>
      (<[results_path (k + 2) := JsonFile (VList [VDict r2])]>
      (<[results_path (k + 1) := JsonFile (VList [VDict r1])]>
         (result_files w))) ∧
    numbered (result_files w') (k + 3) ∧
    r1 !! "backend" = Some (VStr "heavy_hex") ∧
    r2 !! "backend" = Some (VStr "all_to_all") ∧
    r3 !! "backend" = Some (VStr "linear") ∧
    ∀ n, (n ≤ k)%nat →
      result_files w' !! results_path n = result_files w !! results_path n.
Proof.
  intros Hcompiler Hnd Hfiles Hback Hruns Hloads Hret Hd Hflag Hk.
  destruct (main_step_primary numpy compiler version optimization_level runs second
              listing env "heavy_hex" w k Hcompiler (Hnd _) (Hfiles _) Hruns
              (Hloads _) (Hret _) (Hd _) Hflag Hk)
    as (r1 & w1 & Hs1 & Hf1 & Hk1 & Hb1).
  destruct (main_step_primary numpy compiler version optimization_level runs second
              listing env "all_to_all" w1 (S k) Hcompiler (Hnd _) (Hfiles _)
              Hruns (Hloads _) (Hret _) (Hd _) Hflag Hk1)
    as (r2 & w2 & Hs2 & Hf2 & Hk2 & Hb2).
  destruct (main_step_primary numpy compiler version optimization_level runs second
              listing env "linear" w2 (S (S k)) Hcompiler (Hnd _) (Hfiles _)
              Hruns (Hloads _) (Hret _) (Hd _) Hflag Hk2)
    as (r3 & w3 & Hs3 & Hf3 & Hk3 & Hb3).
  exists r1, r2, r3, w3.
  replace (k + 3)%nat with (S (S (S k))) by lia.
  replace (k + 2)%nat with (S (S k)) by lia.
  replace (k + 1)%nat with (S k) by lia.
  split.
  { unfold main, targets. cbn [top_for_each].
    unfold mbind at 1, Top_bind. rewrite Hs1.
    unfold mbind at 1, Top_bind. rewrite Hs2.
    unfold mbind at 1, Top_bind. rewrite Hs3. reflexivity. }
  split; [by rewrite Hf3, Hf2, Hf1|].
  split; [exact Hk3|].
  split; [exact (Hb1 (Hback _))|].
  split; [exact (Hb2 (Hback _))|].
  split; [exact (Hb3 (Hback _))|].
  intros n Hn. rewrite Hf3, Hf2, Hf1.
  rewrite !lookup_insert_ne; [done| | |];
    intros Heq; apply (inj results_path) in Heq; lia.
Qed.

Lemma main_writes_three_files_witness :
  ("qiskit" = "pytket" ∨ "qiskit" = "qiskit") ∧
  (∀ target : string, NoDup (file_name <$> example_corpus)) ∧
  (∀ target : string, benchmark_files example_corpus ≠ []) ∧
  (∀ target : string, "backend" ∉ file_name <$> example_corpus) ∧
  0 < 1 ∧
  (∀ (target : string) b, b ∈ benchmark_files example_corpus → loads b) ∧
  (∀ (target name : string) (i : nat), returns (example_env name i)) ∧
  (∀ (target name : string) (i : nat), has_depth (example_env name i)) ∧
  "false" ≠ "true" ∧
  numbered (result_files empty_world) 0 ∧
  ∃ r1 r2 r3 w',
    main example_numpy "qiskit" "1.0" 2 1 "false" (λ _, example_corpus)
      (λ _, example_env) empty_world = (Done (), w') ∧
    result_files w' =
      <[results_path 3 := JsonFile (VList [VDict r3])]>
      (<[results_path 2 := JsonFile (VList [VDict r2])]>
      (<[results_path 1 := JsonFile (VList [VDict r1])]>
         (result_files empty_world))) ∧
    numbered (result_files w') 3 ∧
    r1 !! "backend" = Some (VStr "heavy_hex") ∧
    r2 !! "backend" = Some (VStr "all_to_all") ∧
    r3 !! "backend" = Some (VStr "linear").
Proof.
  assert (H1 : "qiskit" = "pytket" ∨ "qiskit" = "qiskit") by (right; reflexivity).
  assert (H2 : ∀ target : string, NoDup (file_name <$> example_corpus)).
  { intros _. apply (bool_decide_unpack _). vm_compute. exact I. }
  assert (H3 : ∀ target : string, benchmark_files example_corpus ≠ []).
  { intros _ H. vm_compute in H. discriminate H. }
  assert (H4 : ∀ target : string, "backend" ∉ file_name <$> example_corpus).
  { intros _. apply (bool_decide_unpack _). vm_compute. exact I. }
  assert (H5 : 0 < 1) by lia.
  assert (H6 : ∀ (target : string) b,
            b ∈ benchmark_files example_corpus → loads b)
    by (intros _; exact example_corpus_loads).
  assert (H6a : ∀ (target name : string) (i : nat),
            returns (example_env name i))
    by (intros _; exact example_env_returns).
  assert (H6b : ∀ (target name : string) (i : nat),
            has_depth (example_env name i))
    by (intros _; exact example_env_has_depth).
  assert (H7 : "false" ≠ "true") by discriminate.
  assert (H8 : numbered (result_files empty_world) 0) by reflexivity.
  repeat (split; [assumption|]).
  destruct (main_writes_three_files example_numpy "qiskit" "1.0" 2 1 "false"
              (λ _, example_corpus) (λ _, example_env) empty_world 0
              H1 H2 H3 H4 H5 H6 H6a H6b H7 H8)
    as (r1 & r2 & r3 & w' & Hmain & Hfiles & Hk & Hb1 & Hb2 & Hb3 & _).
  exists r1, r2, r3, w'. repeat split; assumption.
Defined.

Lemma main_step_secondary {gate} (numpy : Numpy)
    (compiler version : string)
    (optimization_level num_runs : Z) (second : string)
    (listing : string → list Loaded)
    (env : string → string → nat → Measurement gate)
    (target : string) (w : World) (k : nat) (data : list value) :
  compiler = "pytket" ∨ compiler = "qiskit" →
  NoDup (file_name <$> listing target) →
  benchmark_files (listing target) ≠ [] →
  0 < num_runs →
  (∀ b, b ∈ benchmark_files (listing target) → loads b) →
  (∀ name i, returns (env target name i)) →
  (∀ name i, has_depth (env target name i)) →
  second = "true" →
  numbered (result_files w) k →
  result_files w !! results_path k = Some (JsonFile (VList data)) →
  ∃ record w',
    main_step numpy compiler version optimization_level num_runs second listing env
      () target w = (Done (), w') ∧
    result_files w' =
      <[results_path k :=
          JsonFile (VList ((json_roundtrip <$> data) ++ [VDict record]))]>
        (result_files w) ∧
    numbered (result_files w') k ∧
    json_roundtrip <$> record = record ∧
    ("backend" ∉ file_name <$> listing target →
     record !! "backend" = Some (VStr target)).
Proof.
  intros Hcompiler Hnd Hfiles Hruns Hloads Hret Hd Hflag Hk Hlast.
  destruct (main_step_run numpy compiler version optimization_level num_runs
              second listing env target w Hcompiler Hnd Hfiles Hruns Hloads
              Hret Hd)
    as (self' & w2 & Hw2 & Hsecond & Hstep & Hbackend).
  assert (Hrf : result_files w2 = result_files w).
  { unfold result_files. by rewrite Hw2. }
  pose proof (save_results_secondary self' w2 ltac:(by rewrite Hsecond)) as Hsave.
  cbv zeta in Hsave.
  rewrite Hrf, (numbered_size _ _ Hk), Hlast in Hsave.
  rewrite Hsave in Hstep.
  exists (saved_record self'). eexists. split; [exact Hstep|].
  assert (Hfiles' : ∀ out f,
    result_files {| results_dir := Some (<[results_path k := f]> (result_files w));
                    stdout := out |}
    = <[results_path k := f]> (result_files w)).
  { intros out f. exact (result_files_insert (default ∅ (results_dir w)) _ _ _). }
  rewrite Hfiles'. split.
  { cbn [json_roundtrip]. rewrite fmap_app. reflexivity. }
  split; [apply numbered_insert_last; [done | by rewrite Hlast]|].
  split; [apply saved_record_idemp | exact Hbackend].
Qed.

(** X26: with the flag ["true"], the program appends all three records, one
    per target, to the same file, the last result file there is, and creates
    none.  Under the conditions of a successful run (a compiler named
    [pytket] or [qiskit], at least one repetition, benchmark files with
    distinct names read and parsed without an exception, every library call
    of every repetition returning, every compiled program having a depth
    that a double can hold), with the directory
    holding the result files of runs 1 to k and the last of them holding a
    sequence, that file ends holding the sequence as it reads back followed
    by the records of [heavy_hex], [all_to_all] and [linear]. *)
Theorem main_appends_three_records {gate} (numpy : Numpy)
    (compiler version : string)
    (optimization_level runs : Z) (second : string)
    (listing : string → list Loaded)
    (env : string → string → nat → Measurement gate) (w : World) (k : nat)
    (data : list value) :
  compiler = "pytket" ∨ compiler = "qiskit" →
  (∀ target, NoDup (file_name <$> listing target)) →
  (∀ target, benchmark_files (listing target) ≠ []) →
  (∀ target, "backend" ∉ file_name <$> listing target) →
  0 < runs →
  (∀ target b, b ∈ benchmark_files (listing target) → loads b) →
  (∀ target name i, returns (env target name i)) →
  (∀ target name i, has_depth (env target name i)) →
  second = "true" →
  numbered (result_files w) k →
  result_files w !! results_path k = Some (JsonFile (VList data)) →
  ∃ r1 r2 r3 w',
    main numpy compiler version optimization_level runs second listing env w
      = (Done (), w') ∧
    result_files w' =
      <[results_path k :=
          JsonFile (VList ((json_roundtrip <$> data)
                           ++ [VDict r1; VDict r2; VDict r3]))]>
        (result_files w) ∧
    numbered (result_files w') k ∧
    r1 !! "backend" = Some (VStr "heavy_hex") ∧
    r2 !! "backend" = Some (VStr "all_to_all") ∧
    r3 !! "backend" = Some (VStr "linear").
Proof.
  intros Hcompiler Hnd Hfiles Hback Hruns Hloads Hret Hd Hflag Hk Hlast.
  destruct (main_step_secondary numpy compiler version optimization_level runs second
              listing env "heavy_hex" w k data Hcompiler (Hnd _) (Hfiles _)
              Hruns (Hloads _) (Hret _) (Hd _) Hflag Hk Hlast)
    as (r1 & w1 & Hs1 & Hf1 & Hk1 & Hr1 & Hb1).
  assert (Hlast1 : result_files w1 !! results_path k
            = Some (JsonFile (VList ((json_roundtrip <$> data) ++ [VDict r1]))))
    by (rewrite Hf1; apply lookup_insert_eq).
  destruct (main_step_secondary numpy compiler version optimization_level runs second
              listing env "all_to_all" w1 k _ Hcompiler (Hnd _) (Hfiles _)
              Hruns (Hloads _) (Hret _) (Hd _) Hflag Hk1 Hlast1)
    as (r2 & w2 & Hs2 & Hf2 & Hk2 & Hr2 & Hb2).
  assert (Hlast2 : result_files w2 !! results_path k
            = Some (JsonFile (VList
                ((json_roundtrip <$> ((json_roundtrip <$> data) ++ [VDict r1]))
                 ++ [VDict r2]))))
    by (rewrite Hf2; apply lookup_insert_eq).
  destruct (main_step_secondary numpy compiler version optimization_level runs second
              listing env "linear" w2 k _ Hcompiler (Hnd _) (Hfiles _)
              Hruns (Hloads _) (Hret _) (Hd _) Hflag Hk2 Hlast2)
    as (r3 & w3 & Hs3 & Hf3 & Hk3 & Hr3 & Hb3).
  exists r1, r2, r3, w3. split.
  { unfold main, targets. cbn [top_for_each].
    unfold mbind at 1, Top_bind. rewrite Hs1.
    unfold mbind at 1, Top_bind. rewrite Hs2.
    unfold mbind at 1, Top_bind. rewrite Hs3. reflexivity. }
  split.
  { rewrite Hf3, Hf2, Hf1, !insert_insert_eq.
    rewrite !fmap_app, !json_roundtrip_list_idemp.
    cbn [fmap list_fmap json_roundtrip].
    rewrite !Hr1, Hr2, <- !app_assoc. reflexivity. }
  split; [exact Hk3|].
  split; [exact (Hb1 (Hback _))|].
  split; [exact (Hb2 (Hback _))|].
  exact (Hb3 (Hback _)).
Qed.

Lemma main_appends_three_records_witness :
  let w := {| results_dir := Some {[ "results_run1.json" := JsonFile (VList []) ]};
              stdout := [] |} in
  ("qiskit" = "pytket" ∨ "qiskit" = "qiskit") ∧
  (∀ target : string, NoDup (file_name <$> example_corpus)) ∧
  (∀ target : string, benchmark_files example_corpus ≠ []) ∧
  (∀ target : string, "backend" ∉ file_name <$> example_corpus) ∧
  0 < 1 ∧
  (∀ (target : string) b, b ∈ benchmark_files example_corpus → loads b) ∧
  (∀ (target name : string) (i : nat), returns (example_env name i)) ∧
  (∀ (target name : string) (i : nat), has_depth (example_env name i)) ∧
  "true" = "true" ∧
  numbered (result_files w) 1 ∧
  result_files w !! results_path 1 = Some (JsonFile (VList [])) ∧
  ∃ r1 r2 r3 w',
    main example_numpy "qiskit" "1.0" 2 1 "true" (λ _, example_corpus)
      (λ _, example_env) w = (Done (), w') ∧
    result_files w' =
      <[results_path 1 := JsonFile (VList [VDict r1; VDict r2; VDict r3])]>
        (result_files w) ∧
    numbered (result_files w') 1.
Proof.
  intros w.
  assert (H1 : "qiskit" = "pytket" ∨ "qiskit" = "qiskit") by (right; reflexivity).
  assert (H2 : ∀ target : string, NoDup (file_name <$> example_corpus)).
  { intros _. apply (bool_decide_unpack _). vm_compute. exact I. }
  assert (H3 : ∀ target : string, benchmark_files example_corpus ≠ []).
  { intros _ H. vm_compute in H. discriminate H. }
  assert (H4 : ∀ target : string, "backend" ∉ file_name <$> example_corpus).
  { intros _. apply (bool_decide_unpack _). vm_compute. exact I. }
  assert (H5 : 0 < 1) by lia.
  assert (H6 : ∀ (target : string) b,
            b ∈ benchmark_files example_corpus → loads b)
    by (intros _; exact example_corpus_loads).
  assert (H6a : ∀ (target name : string) (i : nat),
            returns (example_env name i))
    by (intros _; exact example_env_returns).
  assert (H6b : ∀ (target name : string) (i : nat),
            has_depth (example_env name i))
    by (intros _; exact example_env_has_depth).
  assert (H7 : "true" = "true") by reflexivity.
  assert (H8 : numbered (result_files w) 1).
  { unfold numbered. apply (bool_decide_unpack _). vm_compute. exact I. }
  assert (H9 : result_files w !! results_path 1 = Some (JsonFile (VList [])))
    by (vm_compute; reflexivity).
  repeat (split; [assumption|]).
  destruct (main_appends_three_records example_numpy "qiskit" "1.0" 2 1 "true"
              (λ _, example_corpus) (λ _, example_env) w 1 []
              H1 H2 H3 H4 H5 H6 H6a H6b H7 H8 H9)
    as (r1 & r2 & r3 & w' & Hmain & Hfiles & Hk & _).
  exists r1, r2, r3, w'. repeat split; assumption.
Defined.

(** ** The record that is saved *)

Lemma preprocess_loop_data (benchmarks : list Loaded) :
  ∀ (self self' : Runner) (w w' : World),
  for_each preprocess_benchmark benchmarks self w = (Ok self', w') →
  compiler_dict self' = compiler_dict self ∧
  metric_data self'
  = loaded_metric_data (metric_data self) (benchmark_files benchmarks).
Proof.
  induction benchmarks as [|b benchmarks IH]; intros self self' w w' H.
  - by injection H as <- <-.
  - cbn [for_each] in H. unfold mbind at 1, M_bind in H.
    unfold benchmark_files. rewrite filter_cons.
    unfold preprocess_benchmark at 1 in H.
    destruct (decide (file_name b = ".DS_Store")) as [Hds | Hds].
    + rewrite bool_decide_eq_true_2 in H by done.
      rewrite decide_False by (intros Hne; by apply Hne).
      by apply IH in H.
    + rewrite bool_decide_eq_false_2 in H by done. rewrite decide_True by done.
      unfold mbind, M_bind, print, lift, mret, M_ret in H.
      destruct (library (load_raises b ReadFile)); [|discriminate H].
      destruct (getitem (compiler_dict self) "compiler") as [c|];
        [|discriminate H].
      destruct (eq_str c "pytket").
      * destruct (library (load_raises b ParseFile)); [|discriminate H].
        by apply IH in H as (Hc & Hmd).
      * destruct (eq_str c "qiskit").
        -- destruct (library (load_raises b ParseFile)); [|discriminate H].
           by apply IH in H as (Hc & Hmd).
        -- discriminate H.
Qed.

(** What is known of a run of [run_benchmarks] that ends normally. *)
Lemma run_benchmarks_Done {gate} (numpy : Numpy)
    (env : string → nat → Measurement gate) (self self' : Runner)
    (pv pv' : ProgressVisualizer.t) (w1 w' : World) :
  ProgressVisualizer.total_operations pv ≠ 0 →
  told_results pv →
  "aggregate" ∉ metric_list self →
  Reported.run_benchmarks numpy env (self, pv) w1 = (Done (self', pv'), w') →
  is_Some (ProgressVisualizer.compiler_info pv !! "compiler") ∧
  is_Some (ProgressVisualizer.compiler_info pv !! "version") ∧
  is_Some (ProgressVisualizer.compiler_info pv !! "optimization_level") ∧
  ∃ w2,
    for_each (λ self name, run_case numpy (env name) self name)
      (full_benchmark_list self) self w1 = (Ok self', w2) ∧
    save_results self' w2 = (Ok (), w').
Proof.
  intros Hpv Htold Hno Hrun.
  unfold Reported.run_benchmarks in Hrun. cbn [fst snd] in Hrun.
  unfold ProgressVisualizer.start_benchmarking,
    ProgressVisualizer.print_header, getitem in Hrun.
  destruct (ProgressVisualizer.compiler_info pv !! "compiler") as [c|];
    [|discriminate Hrun].
  destruct (ProgressVisualizer.compiler_info pv !! "version") as [v|];
    [|discriminate Hrun].
  destruct (ProgressVisualizer.compiler_info pv !! "optimization_level")
    as [o|]; [|discriminate Hrun].
  cbn [from_option] in Hrun.
  unfold mbind at 1 2, Top_bind, of_result at 1 in Hrun. simpl in Hrun.
  split; [by eexists|]. split; [by eexists|]. split; [by eexists|].
  pose proof (reported_cases numpy env (full_benchmark_list self) self pv w1
                Hpv Htold Hno) as Hrep.
  destruct (for_each _ (full_benchmark_list self) self w1) as [[self1|e] w2].
  - destruct Hrep as (pv1 & Hrep & Hpv1 & Htold1 & _).
    rewrite Hrep in Hrun. cbn [fst snd] in Hrun.
    unfold mbind at 1, Top_bind in Hrun.
    rewrite print_summary_done in Hrun by (by rewrite ?Hpv1).
    unfold mbind, Top_bind, of_M, mret, Top_ret in Hrun.
    destruct (save_results self1 w2) as [[[]|e] w3] eqn:Hsave;
      [|discriminate Hrun].
    injection Hrun as <- <- <-. by exists w2.
  - rewrite Hrep in Hrun. discriminate Hrun.
Qed.

(** What a save that succeeds has written: a sequence ending with the
    record. *)
Lemma save_results_Ok (self : Runner) (w w' : World) :
  save_results self w = (Ok (), w') →
  ∃ path earlier,
    result_files w' =
      <[path := JsonFile (VList (earlier ++ [VDict (saved_record self)]))]>
        (result_files w).
Proof.
  intros Hsave.
  destruct (decide (second_compiler_readout self = "true")) as [Hflag | Hflag].
  - rewrite (save_results_secondary _ _ Hflag) in Hsave. cbv zeta in Hsave.
    destruct (result_files w !! results_path (size (result_files w)))
      as [[[| | |data| |]| |]|]; try discriminate Hsave.
    injection Hsave as <-.
    exists (results_path (size (result_files w))), (json_roundtrip <$> data).
    etrans; [apply (result_files_insert (default ∅ (results_dir w)))|].
    cbn [json_roundtrip]. by rewrite fmap_app.
  - rewrite (save_results_primary _ _ Hflag) in Hsave. injection Hsave as <-.
    exists (results_path (size (result_files w) + 1)), [].
    apply (result_files_insert (default ∅ (results_dir w))).
Qed.

(** The loop of [run_benchmarks], benchmark by benchmark: the entry of a
    benchmark is the one its own turn left. *)
Lemma cases_decompose {gate} (numpy : Numpy)
    (env : string → nat → Measurement gate) (names : list string) :
  NoDup names →
  ∀ (self self' : Runner) (w w' : World),
  for_each (λ self name, run_case numpy (env name) self name) names self w
    = (Ok self', w') →
  (∀ key, key ∉ names → metric_data self' !! key = metric_data self !! key) ∧
  (∀ name, name ∈ names →
     ∃ (md : gmap string value) (self1 : Runner) (w0 w1 : World),
       metric_data (with_metric_data self md) !! name
         = metric_data self !! name ∧
       run_case numpy (env name) (with_metric_data self md) name w0
         = (Ok self1, w1) ∧
       metric_data self' !! name = metric_data self1 !! name).
Proof.
  intros Hnd. induction Hnd as [|name0 names Hnotin Hnd IH];
    intros self self' w w' Hloop.
  - injection Hloop as <- <-. split; [done|].
    intros name Hin. by apply elem_of_nil in Hin.
  - cbn [for_each] in Hloop. unfold mbind at 1, M_bind in Hloop.
    destruct (run_case numpy (env name0) self name0 w) as [[selfa|e] wa]
      eqn:Hrun; [|discriminate Hloop].
    destruct (run_case_config _ _ _ _ _ _ _ Hrun) as [mda ->].
    pose proof (run_case_others _ _ _ _ _ _ _ Hrun) as Hothers.
    destruct (IH _ _ _ _ Hloop) as [Hout Hin]. split.
    + intros key Hkey. apply not_elem_of_cons in Hkey as [Hne Hkey].
      rewrite (Hout key Hkey). by apply Hothers.
    + intros name Hname. apply elem_of_cons in Hname as [-> | Hname].
      * exists (metric_data self), (with_metric_data self mda), w, wa.
        split; [done|]. split; [by destruct self|]. by apply Hout.
      * destruct (Hin name Hname) as (md & self1 & w0 & w1 & Hsame & Hrun1 & Hlast).
        exists md, self1, w0, w1. split.
        { cbn [metric_data with_metric_data] in *. rewrite Hsame.
          apply Hothers. by intros ->. }
        split; [exact Hrun1 | exact Hlast].
Qed.

(** The keys of a record of statistics. *)
Lemma aggregate_of_keys (numpy : Numpy) (a : list float) (stats : value) :
  aggregate_of numpy a = Ok stats →
  ∃ sd : gmap string value,
    stats = VDict sd ∧
    dom sd = {["mean"; "median"; "range"; "variance"; "standard_deviation"]}.
Proof.
  unfold aggregate_of. intros H. bind_ok H lo Hlo. bind_ok H hi Hhi.
  injection H as <-. eexists. split; [reflexivity|].
  rewrite !dom_insert_L, dom_empty_L. set_solver.
Qed.

(** The entry of a benchmark after its repetitions and statistics. *)
Lemma run_case_entry {gate} (numpy : Numpy) (env : nat → Measurement gate)
    (self self' : Runner) (name : string) (bt : float) (w w' : World) :
  metric_data self !! name = Some (new_entry bt) →
  "aggregate" ∉ metric_list self →
  run_case numpy env self name w = (Ok self', w') →
  ∃ (entry agg : gmap string value) (total build transpile depth memory : list value),
    metric_data self' !! name = Some (VDict entry) ∧
    entry !! "total_time (seconds)" = Some (VList total) ∧
    entry !! "parsing/build_time (seconds)" = Some (VList build) ∧
    entry !! "transpile_time (seconds)" = Some (VList transpile) ∧
    entry !! "depth (gates)" = Some (VList depth) ∧
    entry !! "memory_footprint (MiB)" = Some (VList memory) ∧
    length total = Z.to_nat (num_runs self) ∧
    length build = 1%nat ∧
    length transpile = Z.to_nat (num_runs self) ∧
    length depth = Z.to_nat (num_runs self) ∧
    length memory = Z.to_nat (num_runs self) ∧
    entry !! "aggregate" = Some (VDict agg) ∧
    dom agg = list_to_set (metric_list self) ∧
    (∀ metric stats, agg !! metric = Some stats →
       ∃ sd : gmap string value,
         stats = VDict sd ∧
         dom sd = {["mean"; "median"; "range"; "variance";
                    "standard_deviation"]}).
Proof.
  intros Hnew Hno Hrun.
  destruct (run_case_samples numpy env self self' name bt w w' Hnew Hrun)
    as (ds & Hlen & Htt & Hbt & Htr & Hdp & Hmem).
  pose proof (run_case_fst numpy env self name w) as Hfst.
  rewrite Hrun in Hfst. simpl in Hfst. symmetry in Hfst.
  bind_ok Hfst self1 Hreps.
  destruct (repetitions_frame env name _ _ _ Hreps) as [[md1 ->] _].
  unfold calculate_aggregate_statistics in Hfst.
  bind_ok Hfst e He. bind_ok Hfst entry0 Hentry. bind_ok Hfst md' Hfold.
  injection Hfst as <-.
  cbn [metric_data with_metric_data metric_list] in *.
  unfold getitem in He. destruct (md1 !! name) as [e'|] eqn:Hname; [|done].
  injection He as ->. destruct e; try done. injection Hentry as ->.
  destruct (fold_aggregate_spec numpy name entry0 (metric_list self) Hno _ md' ∅
              ltac:(by rewrite lookup_insert_eq) Hfold)
    as (agg & -> & Hdom & Hin & _).
  rewrite insert_insert_eq in *.
  set (entry := <["aggregate" := VDict agg]> entry0) in *.
  assert (Hlookup : <[name := VDict entry]> md1 !! name = Some (VDict entry))
    by apply lookup_insert_eq.
  assert (Hsample : ∀ metric l,
            get_sample (<[name := VDict entry]> md1) name metric = Ok l →
            entry !! metric = Some (VList l)).
  { intros metric l Hl. apply get_sample_entry in Hl as (E & HE & Hm).
    rewrite Hlookup in HE. by injection HE as <-. }
  exists entry, agg. eexists _, _, _, _, _.
  split; [exact Hlookup|].
  split; [exact (Hsample _ _ Htt)|]. split; [exact (Hsample _ _ Hbt)|].
  split; [exact (Hsample _ _ Htr)|]. split; [exact (Hsample _ _ Hdp)|].
  split; [exact (Hsample _ _ Hmem)|].
  rewrite !length_fmap, !length_seq.
  split; [done|]. split; [done|]. split; [done|]. split; [done|].
  split; [done|]. split; [apply lookup_insert_eq|]. split.
  { rewrite Hdom, dom_empty_L. by rewrite (left_id_L ∅ (∪)). }
  intros metric stats Hstats.
  assert (Hm : metric ∈ metric_list self).
  { apply elem_of_dom_2 in Hstats. rewrite Hdom, dom_empty_L in Hstats.
    rewrite (left_id_L ∅ (∪)) in Hstats. by apply elem_of_list_to_set in Hstats. }
  destruct (Hin metric Hm) as (sample & a & stats' & _ & _ & Hagg & Hlk).
  rewrite Hlk in Hstats. injection Hstats as <-.
  by eapply aggregate_of_keys.
Qed.

Lemma benchmark_files_not_named (benchmarks : list Loaded) (key : string) :
  key ∉ file_name <$> benchmarks →
  key ∉ file_name <$> benchmark_files benchmarks.
Proof.
  intros Hkey Hin. apply Hkey.
  apply list_elem_of_fmap in Hin as (b & -> & Hb).
  apply list_elem_of_filter in Hb as [_ Hb].
  apply list_elem_of_fmap. by exists b.
Qed.

(** C9 (as amended): every record written to a result file by a run that
    goes through holds the compiler description (compiler, version and
    optimization level) under the key ["metadata: "], colon and blank
    included, and the target device under the key ["backend"]; its other
    keys are the names of the benchmark files, and under each of them the
    five metric arrays, one value per repetition but for the single build
    time, and under ["aggregate"] one record per metric with the keys
    [mean], [median], [range], [variance] and [standard_deviation].  The
    benchmark files have distinct names, none of them ["metadata: "] or
    ["backend"]. *)
Theorem saved_record_layout {gate} (numpy : Numpy)
    (env : string → nat → Measurement gate)
    (config : gmap string value) (target : string) (runs : Z)
    (second : string) (benchmarks : list Loaded) (w w1 w' : World)
    (self self' : Runner) (pv pv' : ProgressVisualizer.t) :
  NoDup (file_name <$> benchmarks) →
  benchmark_files benchmarks ≠ [] →
  0 < runs →
  "metadata: " ∉ file_name <$> benchmarks →
  "backend" ∉ file_name <$> benchmarks →
  Reported.Runner_init config target runs second benchmarks w
    = (Ok (self, pv), w1) →
  Reported.run_benchmarks numpy env (self, pv) w1 = (Done (self', pv'), w') →
  (∃ path earlier,
     result_files w' !! path
     = Some (JsonFile (VList (earlier ++ [VDict (saved_record self')])))) ∧
  saved_record self' !! "metadata: " = Some (json_roundtrip (VDict config)) ∧
  is_Some (config !! "compiler") ∧
  is_Some (config !! "version") ∧
  is_Some (config !! "optimization_level") ∧
  saved_record self' !! "backend" = Some (VStr target) ∧
  dom (saved_record self')
  = {["metadata: "; "backend"]}
    ∪ list_to_set (file_name <$> benchmark_files benchmarks) ∧
  ∀ b, b ∈ benchmark_files benchmarks →
    ∃ (entry agg : gmap string value)
      (total build transpile depth memory : list value),
      saved_record self' !! file_name b = Some (VDict entry) ∧
      entry !! "total_time (seconds)" = Some (VList total) ∧
      entry !! "parsing/build_time (seconds)" = Some (VList build) ∧
      entry !! "transpile_time (seconds)" = Some (VList transpile) ∧
      entry !! "depth (gates)" = Some (VList depth) ∧
      entry !! "memory_footprint (MiB)" = Some (VList memory) ∧
      length total = Z.to_nat runs ∧
      length build = 1%nat ∧
      length transpile = Z.to_nat runs ∧
      length depth = Z.to_nat runs ∧
      length memory = Z.to_nat runs ∧
      entry !! "aggregate" = Some (VDict agg) ∧
      dom agg
      = list_to_set ["total_time (seconds)"; "parsing/build_time (seconds)";
                     "transpile_time (seconds)"; "depth (gates)";
                     "memory_footprint (MiB)"] ∧
      (∀ metric stats, agg !! metric = Some stats →
         ∃ sd : gmap string value,
           stats = VDict sd ∧
           dom sd = {["mean"; "median"; "range"; "variance";
                      "standard_deviation"]}).
Proof.
  intros Hnd Hfiles Hruns Hmeta Hback Hinit Hrun.
  destruct (benchmark_files_names benchmarks Hnd) as [Hnd' Hds].
  apply benchmark_files_not_named in Hmeta, Hback.
  apply reported_init in Hinit as [Hplain ->].
  unfold Runner_init, preprocess_benchmarks in Hplain.
  pose proof (preprocess_loop_Ok _ _ _ _ _ Hplain) as (Hnum & Hlist & Hfull).
  pose proof (preprocess_loop_data _ _ _ _ _ Hplain) as (Hcfg & Hmd).
  cbn [num_runs metric_list full_benchmark_list metric_data compiler_dict app]
    in Hnum, Hlist, Hfull, Hcfg, Hmd.
  fold (initial_metric_data config target) in Hmd.
  set (pv := ProgressVisualizer.init _ runs config) in *.
  assert (Hpv : ProgressVisualizer.total_operations pv ≠ 0).
  { subst pv. cbn [ProgressVisualizer.total_operations ProgressVisualizer.init].
    destruct (benchmark_files benchmarks); [done|]. simpl length. nia. }
  assert (Htold : told_results pv).
  { intros name x H. subst pv. simpl in H. rewrite lookup_empty in H.
    discriminate H. }
  assert (Hno : "aggregate" ∉ metric_list self).
  { rewrite Hlist. apply (bool_decide_unpack _). vm_compute. exact I. }
  destruct (run_benchmarks_Done numpy env self self' pv pv' w1 w'
              Hpv Htold Hno Hrun) as (Hc & Hv & Ho & w2 & Hloop & Hsave).
  destruct (save_results_Ok _ _ _ Hsave) as (path & earlier & Hwritten).
  rewrite Hfull in Hloop.
  destruct (cases_decompose numpy env _ Hnd' _ _ _ _ Hloop) as [Hout Hin].
  assert (Hfresh : ∀ b, b ∈ benchmark_files benchmarks →
            metric_data self !! file_name b
            = Some (new_entry (load_end b - load_start b)%float)).
  { intros b Hb. rewrite Hmd. by apply loaded_metric_data_file. }
  assert (Hinitial : ∀ key, key ∉ file_name <$> benchmark_files benchmarks →
            metric_data self' !! key = initial_metric_data config target !! key).
  { intros key Hkey. rewrite (Hout key Hkey), Hmd.
    by apply loaded_metric_data_other. }
  split.
  { exists path, earlier. rewrite Hwritten. apply lookup_insert_eq. }
  split.
  { unfold saved_record. rewrite lookup_fmap, (Hinitial _ Hmeta).
    unfold initial_metric_data. by rewrite lookup_insert_eq. }
  split; [exact Hc|]. split; [exact Hv|]. split; [exact Ho|]. split.
  { unfold saved_record. rewrite lookup_fmap, (Hinitial _ Hback).
    unfold initial_metric_data. rewrite lookup_insert_ne by done.
    by rewrite lookup_insert_eq. }
  assert (Hentry : ∀ b, b ∈ benchmark_files benchmarks →
    ∃ (entry agg : gmap string value)
      (total build transpile depth memory : list value),
      metric_data self' !! file_name b = Some (VDict entry) ∧
      entry !! "total_time (seconds)" = Some (VList total) ∧
      entry !! "parsing/build_time (seconds)" = Some (VList build) ∧
      entry !! "transpile_time (seconds)" = Some (VList transpile) ∧
      entry !! "depth (gates)" = Some (VList depth) ∧
      entry !! "memory_footprint (MiB)" = Some (VList memory) ∧
      length total = Z.to_nat runs ∧
      length build = 1%nat ∧
      length transpile = Z.to_nat runs ∧
      length depth = Z.to_nat runs ∧
      length memory = Z.to_nat runs ∧
      entry !! "aggregate" = Some (VDict agg) ∧
      dom agg
      = list_to_set ["total_time (seconds)"; "parsing/build_time (seconds)";
                     "transpile_time (seconds)"; "depth (gates)";
                     "memory_footprint (MiB)"] ∧
      (∀ metric stats, agg !! metric = Some stats →
         ∃ sd : gmap string value,
           stats = VDict sd ∧
           dom sd = {["mean"; "median"; "range"; "variance";
                      "standard_deviation"]})).
  { intros b Hb.
    destruct (Hin (file_name b)) as (md & self1 & w0 & w3 & Hsame & Hrun1 & Hlast).
    { apply list_elem_of_fmap. by exists b. }
    rewrite (Hfresh b Hb) in Hsame.
    destruct (run_case_entry numpy (env (file_name b)) _ _ _ _ _ _ Hsame
                (Hno : "aggregate" ∉ metric_list (with_metric_data self md))
                Hrun1)
      as (entry & agg & total & build & transpile & depth & memory & H).
    cbn [num_runs metric_list with_metric_data] in H.
    rewrite Hnum, Hlist, <- Hlast in H.
    by exists entry, agg, total, build, transpile, depth, memory. }
  split.
  { unfold saved_record. rewrite dom_fmap_L. apply set_eq. intros key.
    rewrite elem_of_dom, elem_of_union, elem_of_list_to_set.
    destruct (decide (key ∈ file_name <$> benchmark_files benchmarks))
      as [Hkey | Hkey].
    - split; [by right|]. intros _.
      apply list_elem_of_fmap in Hkey as (b & -> & Hb).
      destruct (Hentry b Hb) as (entry & ? & ? & ? & ? & ? & ? & -> & _).
      by eexists.
    - rewrite (Hinitial key Hkey). unfold initial_metric_data. split.
      + intros [x Hx]. left.
        destruct (decide (key = "metadata: ")) as [-> | Hne1]; [set_solver|].
        rewrite lookup_insert_ne in Hx by done.
        destruct (decide (key = "backend")) as [-> | Hne2]; [set_solver|].
        rewrite lookup_insert_ne in Hx by done.
        by rewrite lookup_empty in Hx.
      + intros [Hk | Hk]; [|done].
        apply elem_of_union in Hk as [Hk | Hk]; apply elem_of_singleton in Hk;
          subst key.
        * rewrite lookup_insert_eq. by eexists.
        * rewrite lookup_insert_ne by done. rewrite lookup_insert_eq.
          by eexists. }
  intros b Hb.
  destruct (Hentry b Hb)
    as (entry & agg & total & build & transpile & depth & memory & He & Htt
        & Hbt & Htr & Hdp & Hmem & Ltt & Lbt & Ltr & Ldp & Lmem & Hagg & Hdom
        & Hstats).
  exists (json_roundtrip <$> entry), (json_roundtrip <$> agg),
    (json_roundtrip <$> total), (json_roundtrip <$> build),
    (json_roundtrip <$> transpile), (json_roundtrip <$> depth),
    (json_roundtrip <$> memory).
  unfold saved_record. rewrite !lookup_fmap, He, Htt, Hbt, Htr, Hdp, Hmem, Hagg.
  rewrite !length_fmap, dom_fmap_L.
  repeat (split; [done|]).
  intros metric stats Hs. rewrite lookup_fmap in Hs.
  destruct (agg !! metric) as [stats0|] eqn:Hs0; [|discriminate Hs].
  injection Hs as <-.
  destruct (Hstats metric stats0 Hs0) as (sd & -> & Hsd).
  exists (json_roundtrip <$> sd). split; [reflexivity|].
  by rewrite dom_fmap_L.
Qed.

Lemma saved_record_layout_witness :
  NoDup (file_name <$> example_corpus) ∧
  benchmark_files example_corpus ≠ [] ∧
  0 < 2 ∧
  ("metadata: " ∉ file_name <$> example_corpus) ∧
  ("backend" ∉ file_name <$> example_corpus) ∧
  ∃ self pv w1 self' pv' w',
    Reported.Runner_init example_compiler "heavy_hex" 2 "false" example_corpus
      empty_world = (Ok (self, pv), w1) ∧
    Reported.run_benchmarks example_numpy example_env (self, pv) w1
      = (Done (self', pv'), w') ∧
    saved_record self' !! "metadata: "
      = Some (json_roundtrip (VDict example_compiler)) ∧
    saved_record self' !! "backend" = Some (VStr "heavy_hex") ∧
    dom (saved_record self')
    = {["metadata: "; "backend"]}
      ∪ list_to_set (file_name <$> benchmark_files example_corpus).
Proof.
  assert (H1 : example_compiler !! "compiler" = Some (VStr "qiskit"))
    by (vm_compute; reflexivity).
  assert (H2 : eq_str (VStr "qiskit") "pytket" || eq_str (VStr "qiskit") "qiskit"
               = true) by (vm_compute; reflexivity).
  assert (H3 : is_Some (example_compiler !! "version"))
    by (eexists; vm_compute; reflexivity).
  assert (H4 : is_Some (example_compiler !! "optimization_level"))
    by (eexists; vm_compute; reflexivity).
  assert (H5 : NoDup (file_name <$> example_corpus)).
  { apply (bool_decide_unpack _). vm_compute. exact I. }
  assert (H6 : benchmark_files example_corpus ≠ []).
  { intros H. vm_compute in H. discriminate H. }
  assert (H7 : 0 < 2) by lia.
  assert (H8 : "metadata: " ∉ file_name <$> example_corpus).
  { apply (bool_decide_unpack _). vm_compute. exact I. }
  assert (H9 : "backend" ∉ file_name <$> example_corpus).
  { apply (bool_decide_unpack _). vm_compute. exact I. }
  split; [exact H5|]. split; [exact H6|]. split; [exact H7|].
  split; [exact H8|]. split; [exact H9|].
  destruct (whole_run example_numpy example_env example_compiler (VStr "qiskit")
              "heavy_hex" 2 "false" example_corpus empty_world H1 H2 H3 H4 H5
              H6 H7 example_corpus_loads example_env_returns
              example_env_has_depth)
    as (self & pv & w1 & self' & pv' & w2 & Hinit & _ & Hsecond & Hrun & _).
  rewrite (save_results_primary self' w2) in Hrun
    by (rewrite Hsecond; discriminate).
  exists self, pv, w1, self', pv'. eexists.
  split; [exact Hinit|]. split; [exact Hrun|].
  destruct (saved_record_layout example_numpy example_env example_compiler
              "heavy_hex" 2 "false" example_corpus empty_world w1 _ self self'
              pv pv' H5 H6 H7 H8 H9 Hinit Hrun)
    as (_ & Hmeta & _ & _ & _ & Hback & Hdom & _).
  split; [exact Hmeta|]. split; [exact Hback | exact Hdom].
Defined.

(** C9 as stated fails: the record the example run writes has no key
    ["metadata"]; the compiler description is under ["metadata: "]. *)
Lemma metadata_key_counterexample :
  ∃ self pv w1 self' pv' w',
    Reported.Runner_init example_compiler "heavy_hex" 1 "false" example_corpus
      empty_world = (Ok (self, pv), w1) ∧
    Reported.run_benchmarks example_numpy example_env (self, pv) w1
      = (Done (self', pv'), w') ∧
    result_files w' !! results_path 1
      = Some (JsonFile (VList [VDict (saved_record self')])) ∧
    saved_record self' !! "metadata" = None ∧
    saved_record self' !! "metadata: " = Some (VDict example_compiler).
Proof.
  eexists _, _, _, _, _, _.
  split; [vm_compute; reflexivity|].
  split; [vm_compute; reflexivity|].
  split; [vm_compute; reflexivity|].
  split; [vm_compute; reflexivity|].
  vm_compute. reflexivity.
Qed.
